(** * A shallow embedding of the kernel core: scheduler, trap path,
      file system calls and the virtio-blk driver.

    The C sources embedded here are [process.c] ([yield]), [trap.c]
    ([handle_syscall], [handle_trap], [kernel_entry]) and [virtio.c]
    ([virtq_init], [virtq_kick], [virtio_blk_init], [read_write_disk]).
    Machine integers are modelled as [Z] with the wrap-around of their C
    type written out; arrays are lists read with [!!] and written with
    [<[ _ := _ ]>]; pointers into the process table and the file table are
    slot indices. *)

From Stdlib Require Import ZArith Lia List Bool.
From Stdlib Require Import Strings.String Strings.Byte.
From stdpp Require Import base tactics option list numbers.
Import ListNotations.

Local Open Scope Z_scope.

(** ** Machine words *)

Definition to_uint32 (x : Z) : Z := x mod 2 ^ 32.
Definition to_uint16 (x : Z) : Z := x mod 2 ^ 16.
Definition to_uint64 (x : Z) : Z := x mod 2 ^ 64.
Definition to_uint8 (x : Z) : Z := x mod 2 ^ 8.

(** Conversion of a 32-bit pattern to [int] (two's complement). *)
Definition to_int32 (x : Z) : Z :=
  let u := x mod 2 ^ 32 in
  if u <? 2 ^ 31 then u else u - 2 ^ 32.

(** Modelled from the spec: [align_up(value, align)] of [common.h], which
    is not among the sources: [value] rounded up to a multiple of
    [align]. *)
Definition align_up (value align : Z) : Z := (value + align - 1) / align * align.

(** ** Constants

    [kernel.h] and [common.h] are not among the sources; the values below
    are the ones the specification gives. *)

(** Modelled from the spec: [PAGE_SIZE] = 4096, [SECTOR_SIZE] = 512, the
    Sv32 mode bit of [satp] (bit 31) and the cause of a U-mode ecall. *)
Definition PAGE_SIZE : Z := 4096.
Definition SECTOR_SIZE : Z := 512.
Definition SATP_SV32 : Z := 2 ^ 31.
Definition SCAUSE_ECALL : Z := 8.

(** Modelled from the spec: the system-call numbers of the table of
    section 4.6. *)
Definition SYS_PUTCHAR : Z := 1.
Definition SYS_GETCHAR : Z := 2.
Definition SYS_READFILE : Z := 3.
Definition SYS_WRITEFILE : Z := 4.
Definition SYS_EXIT : Z := 5.

(** Modelled from the spec: the register offsets, status bits, request
    types and descriptor flags of the legacy virtio-blk MMIO interface
    (section 6). *)
Definition VIRTIO_REG_MAGIC : Z := 0x00.
Definition VIRTIO_REG_VERSION : Z := 0x04.
Definition VIRTIO_REG_DEVICE_ID : Z := 0x08.
Definition VIRTIO_REG_QUEUE_SEL : Z := 0x30.
Definition VIRTIO_REG_QUEUE_NUM : Z := 0x38.
Definition VIRTIO_REG_QUEUE_ALIGN : Z := 0x3c.
Definition VIRTIO_REG_QUEUE_PFN : Z := 0x40.
Definition VIRTIO_REG_QUEUE_NOTIFY : Z := 0x50.
Definition VIRTIO_REG_DEVICE_STATUS : Z := 0x70.
Definition VIRTIO_REG_DEVICE_CONFIG : Z := 0x100.

Definition VIRTIO_STATUS_ACK : Z := 1.
Definition VIRTIO_STATUS_DRIVER : Z := 2.
Definition VIRTIO_STATUS_DRIVER_OK : Z := 4.
Definition VIRTIO_STATUS_FEAT_OK : Z := 8.

Definition VIRTIO_DEVICE_BLK : Z := 2.
Definition VIRTIO_BLK_T_IN : Z := 0.
Definition VIRTIO_BLK_T_OUT : Z := 1.
Definition VIRTQ_DESC_F_NEXT : Z := 1.
Definition VIRTQ_DESC_F_WRITE : Z := 2.

(** Modelled from the spec: the layout of [struct virtio_blk_req], a
    packed header [{type : u32; reserved : u32; sector : u64}] followed
    by [data[SECTOR_SIZE]] and the status byte. *)
Definition BLK_REQ_HEADER_SIZE : Z := 4 * 2 + 8.
Definition BLK_REQ_OFFSET_DATA : Z := BLK_REQ_HEADER_SIZE.
Definition BLK_REQ_OFFSET_STATUS : Z := BLK_REQ_HEADER_SIZE + SECTOR_SIZE.
Definition BLK_REQ_SIZEOF : Z := BLK_REQ_HEADER_SIZE + SECTOR_SIZE + 1.

(** ** Outcomes of kernel code

    [Ret] is a normal return, [Panic] is the [PANIC] macro (the hart
    halts), [Hang] is code that never comes back (a busy-wait that is never
    released, a process that is never scheduled again) and [Undef] is a
    read outside an array of the model. *)

Inductive outcome (A : Type) : Type :=
| Ret (a : A)
| Panic (fmt : string) (args : list Z)
| Hang
| Undef.

Arguments Ret {A} a.
Arguments Panic {A} fmt args.
Arguments Hang {A}.
Arguments Undef {A}.

#[global] Instance outcome_bind : MBind outcome := fun A B k m =>
  match m with
  | Ret a => k a
  | Panic fmt args => Panic fmt args
  | Hang => Hang
  | Undef => Undef
  end.

#[global] Instance outcome_ret : MRet outcome := fun A a => Ret a.

(** ** Kernel data *)

Inductive proc_state := PROC_UNUSED | PROC_RUNNABLE | PROC_EXITED.

Definition proc_state_eqb (a b : proc_state) : bool :=
  match a, b with
  | PROC_UNUSED, PROC_UNUSED => true
  | PROC_RUNNABLE, PROC_RUNNABLE => true
  | PROC_EXITED, PROC_EXITED => true
  | _, _ => false
  end.

(** [struct process]. [stack_top] is the address [&stack[sizeof(stack)]];
    the contents of the kernel stack are not tracked. *)
Record process := {
  pid : Z;
  state : proc_state;
  proc_sp : Z;
  page_table : Z;
  stack_top : Z
}.

(** [struct file]: [name] is [char name[100]], [data] is the fixed-capacity
    array, [size] is stored as a 32-bit word. *)
Record file := {
  in_use : bool;
  file_name : list byte;
  file_data : list byte;
  file_size : Z
}.

(** [struct trap_frame], in the order in which [kernel_entry] stores the
    registers: word [k] of the frame is the [k]-th field. *)
Record trap_frame := {
  ra : Z; gp : Z; tp : Z;
  t0 : Z; t1 : Z; t2 : Z; t3 : Z; t4 : Z; t5 : Z; t6 : Z;
  a0 : Z; a1 : Z; a2 : Z; a3 : Z; a4 : Z; a5 : Z; a6 : Z; a7 : Z;
  s0 : Z; s1 : Z; s2 : Z; s3 : Z; s4 : Z; s5 : Z; s6 : Z; s7 : Z;
  s8 : Z; s9 : Z; s10 : Z; s11 : Z;
  sp : Z
}.

Definition set_a0 (f : trap_frame) (v : Z) : trap_frame :=
  {| ra := ra f; gp := gp f; tp := tp f;
     t0 := t0 f; t1 := t1 f; t2 := t2 f; t3 := t3 f; t4 := t4 f;
     t5 := t5 f; t6 := t6 f;
     a0 := v; a1 := a1 f; a2 := a2 f; a3 := a3 f; a4 := a4 f;
     a5 := a5 f; a6 := a6 f; a7 := a7 f;
     s0 := s0 f; s1 := s1 f; s2 := s2 f; s3 := s3 f; s4 := s4 f;
     s5 := s5 f; s6 := s6 f; s7 := s7 f; s8 := s8 f; s9 := s9 f;
     s10 := s10 f; s11 := s11 f;
     sp := sp f |}.

(** Where a [memcpy] reads or writes: user memory at an address, or the
    [data] array of a slot of the file table. *)
Inductive loc :=
| LocUser (p : Z)
| LocFileData (slot : nat).

(** What the kernel does that is visible from outside: console output,
    [memcpy] calls with their length argument (as [size_t]) and flushes of
    the file table to disk. *)
Inductive event :=
| EvPutchar (ch : Z)
| EvPrintf (fmt : string) (args : list Z)
| EvMemcpy (dst src : loc) (n : Z)
| EvFlush (table : list file).

(** The kernel state. [procs] is the process table; [current_proc] and
    [idle_proc] point into it and are slot indices. [umem] is the memory
    seen through the page table of the current process. [console_in] holds
    the results of the successive [getchar] SBI calls of this kernel
    path. *)
Record kstate := {
  procs : list process;
  current_proc : nat;
  idle_proc : nat;
  files : list file;
  umem : Z -> byte;
  csr_scause : Z;
  csr_stval : Z;
  csr_sepc : Z;
  csr_satp : Z;
  csr_sscratch : Z;
  console_in : list Z;
  klog : list event
}.

Definition set_procs (st : kstate) (v : list process) : kstate :=
  {| procs := v; current_proc := current_proc st; idle_proc := idle_proc st;
     files := files st; umem := umem st; csr_scause := csr_scause st;
     csr_stval := csr_stval st; csr_sepc := csr_sepc st;
     csr_satp := csr_satp st; csr_sscratch := csr_sscratch st;
     console_in := console_in st; klog := klog st |}.

Definition set_current_proc (st : kstate) (v : nat) : kstate :=
  {| procs := procs st; current_proc := v; idle_proc := idle_proc st;
     files := files st; umem := umem st; csr_scause := csr_scause st;
     csr_stval := csr_stval st; csr_sepc := csr_sepc st;
     csr_satp := csr_satp st; csr_sscratch := csr_sscratch st;
     console_in := console_in st; klog := klog st |}.

Definition set_files (st : kstate) (v : list file) : kstate :=
  {| procs := procs st; current_proc := current_proc st;
     idle_proc := idle_proc st;
     files := v; umem := umem st; csr_scause := csr_scause st;
     csr_stval := csr_stval st; csr_sepc := csr_sepc st;
     csr_satp := csr_satp st; csr_sscratch := csr_sscratch st;
     console_in := console_in st; klog := klog st |}.

Definition set_umem (st : kstate) (v : Z -> byte) : kstate :=
  {| procs := procs st; current_proc := current_proc st;
     idle_proc := idle_proc st;
     files := files st; umem := v; csr_scause := csr_scause st;
     csr_stval := csr_stval st; csr_sepc := csr_sepc st;
     csr_satp := csr_satp st; csr_sscratch := csr_sscratch st;
     console_in := console_in st; klog := klog st |}.

Definition set_csr_sepc (st : kstate) (v : Z) : kstate :=
  {| procs := procs st; current_proc := current_proc st;
     idle_proc := idle_proc st;
     files := files st; umem := umem st; csr_scause := csr_scause st;
     csr_stval := csr_stval st; csr_sepc := v;
     csr_satp := csr_satp st; csr_sscratch := csr_sscratch st;
     console_in := console_in st; klog := klog st |}.

Definition set_csr_satp (st : kstate) (v : Z) : kstate :=
  {| procs := procs st; current_proc := current_proc st;
     idle_proc := idle_proc st;
     files := files st; umem := umem st; csr_scause := csr_scause st;
     csr_stval := csr_stval st; csr_sepc := csr_sepc st;
     csr_satp := v; csr_sscratch := csr_sscratch st;
     console_in := console_in st; klog := klog st |}.

Definition set_csr_sscratch (st : kstate) (v : Z) : kstate :=
  {| procs := procs st; current_proc := current_proc st;
     idle_proc := idle_proc st;
     files := files st; umem := umem st; csr_scause := csr_scause st;
     csr_stval := csr_stval st; csr_sepc := csr_sepc st;
     csr_satp := csr_satp st; csr_sscratch := v;
     console_in := console_in st; klog := klog st |}.

Definition set_console_in (st : kstate) (v : list Z) : kstate :=
  {| procs := procs st; current_proc := current_proc st;
     idle_proc := idle_proc st;
     files := files st; umem := umem st; csr_scause := csr_scause st;
     csr_stval := csr_stval st; csr_sepc := csr_sepc st;
     csr_satp := csr_satp st; csr_sscratch := csr_sscratch st;
     console_in := v; klog := klog st |}.

Definition set_klog (st : kstate) (v : list event) : kstate :=
  {| procs := procs st; current_proc := current_proc st;
     idle_proc := idle_proc st;
     files := files st; umem := umem st; csr_scause := csr_scause st;
     csr_stval := csr_stval st; csr_sepc := csr_sepc st;
     csr_satp := csr_satp st; csr_sscratch := csr_sscratch st;
     console_in := console_in st; klog := v |}.

Definition log_event (st : kstate) (e : event) : kstate :=
  set_klog st (klog st ++ [e]).

(** ** User memory and C strings

    Addresses are [Z]; a copy of [n] bytes at [p] touches [p .. p+n-1]. *)

Definition load_bytes (m : Z -> byte) (p : Z) (n : nat) : list byte :=
  map (fun i => m (p + Z.of_nat i)) (seq 0 n).

Definition store_bytes (m : Z -> byte) (p : Z) (bs : list byte) : Z -> byte :=
  fun a =>
    if (p <=? a) && (a <? p + Z.of_nat (length bs))
    then nth (Z.to_nat (a - p)) bs (m a)
    else m a.

(** [strcmp(name, filename) == 0], with [name] an array of the kernel and
    [filename] a pointer into user memory. An array without a terminating
    NUL matches nothing. *)
Fixpoint strcmp_eq (name : list byte) (m : Z -> byte) (p : Z) : bool :=
  match name with
  | [] => false
  | c :: rest =>
      if Byte.eqb c (m p)
      then (if Byte.eqb c x00 then true else strcmp_eq rest m (p + 1))
      else false
  end.

(** The bytes [s] followed by NUL are at [p]. *)
Definition cstring_at (m : Z -> byte) (p : Z) (s : list byte) : Prop :=
  load_bytes m p (length s + 1) = s ++ [x00].

(** The array [name] holds the C string [s]. *)
Definition holds_cstring (name : list byte) (s : list byte) : Prop :=
  exists rest, name = s ++ x00 :: rest.

(** ** The virtio-blk driver state *)

(** [struct virtq_desc]: [addr : u64], [len : u32], [flags : u16],
    [next : u16]. *)
Record virtq_desc := {
  desc_addr : Z;
  desc_len : Z;
  desc_flags : Z;
  desc_next : Z
}.

(** [struct virtio_virtq]. [used_index] is the word [used.index], which
    the device advances and the driver reads through the pointer
    [vq->used_index]. *)
Record virtio_virtq := {
  descs : list virtq_desc;
  avail_index : Z;
  avail_ring : list Z;
  used_index : Z;
  queue_index : Z;
  last_used_index : Z
}.

(** [struct virtio_blk_req]. *)
Record virtio_blk_req := {
  req_type : Z;
  req_reserved : Z;
  req_sector : Z;
  req_data : list byte;
  req_status : Z
}.

(** What goes over the bus, in program order. *)
Inductive bus_event :=
| BusWrite (offset value : Z)
| BusFence.

(** The driver's globals, the device registers (a 32-bit word per offset),
    the cursor of the page allocator and the console log. *)
Record vstate := {
  mmio : Z -> Z;
  bus : list bus_event;
  next_paddr : Z;
  free_ram_end : Z;
  blk_request_vq_paddr : Z;
  blk_request_vq : virtio_virtq;
  blk_req_paddr : Z;
  blk_req : virtio_blk_req;
  blk_capacity : Z;
  vlog : list event
}.

Definition set_mmio (st : vstate) (m : Z -> Z) (b : list bus_event) : vstate :=
  {| mmio := m; bus := b; next_paddr := next_paddr st;
     free_ram_end := free_ram_end st;
     blk_request_vq_paddr := blk_request_vq_paddr st;
     blk_request_vq := blk_request_vq st;
     blk_req_paddr := blk_req_paddr st; blk_req := blk_req st;
     blk_capacity := blk_capacity st; vlog := vlog st |}.

Definition set_next_paddr (st : vstate) (v : Z) : vstate :=
  {| mmio := mmio st; bus := bus st; next_paddr := v;
     free_ram_end := free_ram_end st;
     blk_request_vq_paddr := blk_request_vq_paddr st;
     blk_request_vq := blk_request_vq st;
     blk_req_paddr := blk_req_paddr st; blk_req := blk_req st;
     blk_capacity := blk_capacity st; vlog := vlog st |}.

Definition set_blk_request_vq_ptr (st : vstate) (paddr : Z) : vstate :=
  {| mmio := mmio st; bus := bus st; next_paddr := next_paddr st;
     free_ram_end := free_ram_end st;
     blk_request_vq_paddr := paddr;
     blk_request_vq := blk_request_vq st;
     blk_req_paddr := blk_req_paddr st; blk_req := blk_req st;
     blk_capacity := blk_capacity st; vlog := vlog st |}.

Definition set_blk_request_vq (st : vstate) (vq : virtio_virtq) : vstate :=
  {| mmio := mmio st; bus := bus st; next_paddr := next_paddr st;
     free_ram_end := free_ram_end st;
     blk_request_vq_paddr := blk_request_vq_paddr st;
     blk_request_vq := vq;
     blk_req_paddr := blk_req_paddr st; blk_req := blk_req st;
     blk_capacity := blk_capacity st; vlog := vlog st |}.

Definition set_blk_req_paddr (st : vstate) (paddr : Z) : vstate :=
  {| mmio := mmio st; bus := bus st; next_paddr := next_paddr st;
     free_ram_end := free_ram_end st;
     blk_request_vq_paddr := blk_request_vq_paddr st;
     blk_request_vq := blk_request_vq st;
     blk_req_paddr := paddr; blk_req := blk_req st;
     blk_capacity := blk_capacity st; vlog := vlog st |}.

Definition set_blk_req (st : vstate) (r : virtio_blk_req) : vstate :=
  {| mmio := mmio st; bus := bus st; next_paddr := next_paddr st;
     free_ram_end := free_ram_end st;
     blk_request_vq_paddr := blk_request_vq_paddr st;
     blk_request_vq := blk_request_vq st;
     blk_req_paddr := blk_req_paddr st; blk_req := r;
     blk_capacity := blk_capacity st; vlog := vlog st |}.

Definition set_blk_capacity (st : vstate) (v : Z) : vstate :=
  {| mmio := mmio st; bus := bus st; next_paddr := next_paddr st;
     free_ram_end := free_ram_end st;
     blk_request_vq_paddr := blk_request_vq_paddr st;
     blk_request_vq := blk_request_vq st;
     blk_req_paddr := blk_req_paddr st; blk_req := blk_req st;
     blk_capacity := v; vlog := vlog st |}.

Definition vlog_event (st : vstate) (e : event) : vstate :=
  {| mmio := mmio st; bus := bus st; next_paddr := next_paddr st;
     free_ram_end := free_ram_end st;
     blk_request_vq_paddr := blk_request_vq_paddr st;
     blk_request_vq := blk_request_vq st;
     blk_req_paddr := blk_req_paddr st; blk_req := blk_req st;
     blk_capacity := blk_capacity st; vlog := vlog st ++ [e] |}.

Definition set_desc (vq : virtio_virtq) (i : nat) (d : virtq_desc) : virtio_virtq :=
  {| descs := <[ i := d ]> (descs vq); avail_index := avail_index vq;
     avail_ring := avail_ring vq; used_index := used_index vq;
     queue_index := queue_index vq; last_used_index := last_used_index vq |}.

(** What the device answers to one request: the bytes it puts into the
    data buffer (on a read) and the status byte. *)
Record dev_response := {
  resp_data : list byte;
  resp_status : Z
}.

(** What one pass of the scheduler loop ends with: the slot at which it
    broke out, the end of the loop, or an index outside [procs]. *)
Inductive scan_result :=
| ScanFound (slot : nat)
| ScanNone
| ScanOutOfBounds.

Section Kernel.

(** [PROCS_MAX], [sizeof(file->data)], [VIRTQ_ENTRY_NUM] and
    [sizeof(struct virtio_virtq)] come from [kernel.h]; the embedding is
    parametric in them. *)
Variable PROCS_MAX : Z.
Variable FILE_DATA_SIZE : Z.
Variable VIRTQ_ENTRY_NUM : Z.
Variable VIRTQ_SIZEOF : Z.

(** What happens between [switch_context] leaving a kernel path and
    control coming back to it: the other processes run and change the
    state; [None] when the path is never switched back to. *)
Variable resume : kstate -> option kstate.

(** The block device: its answer to the request found in the request
    buffer, or [None] when it never completes the request. *)
Variable device : virtio_blk_req -> option dev_response.

(** ** [process.c]: the scheduler *)

(** [proc->state == PROC_RUNNABLE && proc->pid > 0] *)
Definition is_candidate (proc : process) : bool :=
  proc_state_eqb (state proc) PROC_RUNNABLE && (0 <? pid proc).

(** The loop of [yield], entered with loop counter [i] and [fuel]
    iterations to go ([fuel = PROCS_MAX - i]). [%] is C's remainder. *)
Fixpoint yield_scan (ps : list process) (cur_pid : Z) (i : Z) (fuel : nat)
  : scan_result :=
  match fuel with
  | O => ScanNone
  | S fuel' =>
      let idx := Z.rem (cur_pid + i) PROCS_MAX in
      if idx <? 0 then ScanOutOfBounds
      else match ps !! Z.to_nat idx with
           | None => ScanOutOfBounds
           | Some proc =>
               if is_candidate proc then ScanFound (Z.to_nat idx)
               else yield_scan ps cur_pid (i + 1) fuel'
           end
  end.

(** The value of [next] after the loop: [idle_proc] unless the loop broke
    out at a slot. *)
Definition yield_next (st : kstate) : option nat :=
  match procs st !! current_proc st with
  | None => None
  | Some cur =>
      match yield_scan (procs st) (pid cur) 0 (Z.to_nat PROCS_MAX) with
      | ScanFound slot => Some slot
      | ScanNone => Some (idle_proc st)
      | ScanOutOfBounds => None
      end
  end.

(** [switch_context]: the path is left here and continues when some other
    process switches back; the saved stack pointers are not tracked. *)
Definition switch_context (st : kstate) : outcome kstate :=
  match resume st with
  | Some st' => Ret st'
  | None => Hang
  end.

Definition yield (st : kstate) : outcome kstate :=
  match yield_next st with
  | None => Undef
  | Some next =>
      if Nat.eqb next (current_proc st) then Ret st
      else match procs st !! next with
           | None => Undef
           | Some np =>
               let st1 :=
                 set_csr_satp st
                   (Z.lor SATP_SV32 (to_uint32 (page_table np) / PAGE_SIZE)) in
               let st2 := set_csr_sscratch st1 (to_uint32 (stack_top np)) in
               switch_context (set_current_proc st2 next)
           end
  end.

(** The scheduling order in the words of the specification: slots
    [(pid + i) % PROCS_MAX] for [i = 1 .. PROCS_MAX - 1]. *)
Definition slot_is_candidate (ps : list process) (idx : Z) : bool :=
  match ps !! Z.to_nat idx with
  | Some proc => is_candidate proc
  | None => false
  end.

Definition spec_scan_order (cur_pid : Z) : list Z :=
  map (fun i => Z.rem (cur_pid + i) PROCS_MAX) (seqZ 1 (PROCS_MAX - 1)).

Definition spec_yield_next (st : kstate) : option nat :=
  match procs st !! current_proc st with
  | None => None
  | Some cur =>
      match List.find (slot_is_candidate (procs st)) (spec_scan_order (pid cur)) with
      | Some idx => Some (Z.to_nat idx)
      | None => Some (idle_proc st)
      end
  end.

(** The order the loop of [yield] has: [i = 0 .. PROCS_MAX - 1]. *)
Definition scan_order (cur_pid : Z) : list Z :=
  map (fun i => Z.rem (cur_pid + i) PROCS_MAX) (seqZ 0 PROCS_MAX).

(** ** The file table *)

(** Modelled from the spec: [fs_lookup] of [fs.c], which is not among the
    sources: a linear scan of the file table that compares names as
    NUL-terminated strings and returns the first slot that matches, or
    NULL. *)
Fixpoint fs_lookup_from (slot : nat) (fs : list file) (m : Z -> byte) (filename : Z)
  : option (nat * file) :=
  match fs with
  | [] => None
  | file :: rest =>
      if strcmp_eq (file_name file) m filename then Some (slot, file)
      else fs_lookup_from (S slot) rest m filename
  end.

Definition fs_lookup (st : kstate) (filename : Z) : option (nat * file) :=
  fs_lookup_from 0 (files st) (umem st) filename.

(** Modelled from the spec: [fs_flush] of [fs.c], which is not among the
    sources: the whole table is written back to disk synchronously; the
    table itself is left as it is. The embedding records the table that is
    written, and takes every write to the disk to complete (the busy-wait
    of [read_write_disk] ends). *)
Definition fs_flush (st : kstate) : kstate :=
  log_event st (EvFlush (files st)).

(** ** [trap.c]: system calls *)

(** [putchar(f->a0)]: the argument is converted to [char]. *)
Definition putchar (st : kstate) (ch : Z) : kstate :=
  log_event st (EvPutchar (to_uint8 ch)).

(** The polling loop of [SYS_GETCHAR] over the results of the successive
    [getchar] calls; when they run out no character ever arrives. *)
Fixpoint getchar_poll (input : list Z) (st : kstate) (f : trap_frame)
  : outcome (kstate * trap_frame) :=
  match input with
  | [] => Hang
  | ch :: rest =>
      if 0 <=? ch then Ret (set_console_in st rest, set_a0 f (to_uint32 ch))
      else st' ← yield (set_console_in st rest); getchar_poll rest st' f
  end.

(** [memcpy(file->data, buf, len)]: the bytes that land in the array. A
    length beyond the array writes past its end, into memory that the
    embedding does not track. *)
Definition memcpy_to_file (data : list byte) (m : Z -> byte) (buf : Z) (n : Z)
  : list byte :=
  let k := Nat.min (Z.to_nat n) (length data) in
  load_bytes m buf k ++ drop k data.

(** [memcpy(buf, file->data, len)]: the bytes of the array that are
    copied. A length beyond the array reads past its end; those bytes are
    not tracked. *)
Definition memcpy_to_user (m : Z -> byte) (buf : Z) (data : list byte) (n : Z)
  : Z -> byte :=
  store_bytes m buf (take (Z.to_nat n) data).

(** Modelled from the spec: a copy that reaches an address that is not
    mapped faults, and the fault "would trap as unexpected, panicking the
    kernel": the trap enters [kernel_entry] with a cause other than an
    ecall and [handle_trap] ends in its PANIC. What is mapped is the 2 MiB
    of the kernel, the page of the device registers and the pages of the
    user image ([create_process]): less than [2^31] bytes, so a copy of
    [2^31] bytes or more cannot complete. Which access faults first, and
    at which instruction of [memcpy], depends on the layout of the kernel
    and on [common.c], which are not among the sources: the [scause],
    [stval] and [sepc] that the hart reports for the copy
    [memcpy(dst, src, n)] are a parameter. *)
Variable page_fault : loc -> loc -> Z -> Z * Z * Z.

Definition memcpy_fault {A : Type} (dst src : loc) (n : Z) : outcome A :=
  let '(scause, stval, sepc) := page_fault dst src n in
  Panic "unexpected trap scause=%x, stval=%x, sepc=%x\n" [scause; stval; sepc].

(** A call [memcpy(dst, src, n)] whose effect, when it returns, is
    [done]. *)
Definition copy_or_fault {A : Type} (dst src : loc) (n : Z) (done : A) : outcome A :=
  if 2 ^ 31 <=? n then memcpy_fault dst src n else Ret done.

Definition set_file_contents (fl : file) (data : list byte) (size : Z) : file :=
  {| in_use := in_use fl; file_name := file_name fl;
     file_data := data; file_size := size |}.

(** The [SYS_READFILE] / [SYS_WRITEFILE] case. [len] is an [int]; the
    length handed to [memcpy] is its conversion to [size_t]. A negative
    [len] is a length of [2^31] bytes or more: [memcpy] is called with it
    and does not return, so the assignments after the copy are not
    reached. The pointers [a0] and [a1] are taken to refer to mapped user
    memory, which is separate from the trap frame and the tables of the
    kernel. *)
Definition sys_file (st : kstate) (f : trap_frame) : outcome (kstate * trap_frame) :=
  let filename := a0 f in
  let buf := a1 f in
  let len := to_int32 (a2 f) in
  match fs_lookup st filename with
  | None =>
      Ret (log_event st (EvPrintf "file not found: %s\n" [filename]),
           set_a0 f (to_uint32 (-1)))
  | Some (slot, file) =>
      let len :=
        if len >? to_int32 FILE_DATA_SIZE then to_int32 (file_size file)
        else len in
      let n := to_uint32 len in
      st' ←
        (if a3 f =? SYS_WRITEFILE then
           data' ← copy_or_fault (LocFileData slot) (LocUser buf) n
                     (memcpy_to_file (file_data file) (umem st) buf n);
           let st1 := log_event st (EvMemcpy (LocFileData slot) (LocUser buf) n) in
           let file' := set_file_contents file data' (to_uint32 len) in
           Ret (fs_flush (set_files st1 (<[ slot := file' ]> (files st1))))
         else
           let st1 := log_event st (EvMemcpy (LocUser buf) (LocFileData slot) n) in
           m' ← copy_or_fault (LocUser buf) (LocFileData slot) n
                  (memcpy_to_user (umem st1) buf (file_data file) n);
           Ret (set_umem st1 m'));
      Ret (st', set_a0 f (to_uint32 len))
  end.

Definition set_state (p : process) (s : proc_state) : process :=
  {| pid := pid p; state := s; proc_sp := proc_sp p;
     page_table := page_table p; stack_top := stack_top p |}.

Definition sys_exit (st : kstate) : outcome (kstate * trap_frame) :=
  match procs st !! current_proc st with
  | None => Undef
  | Some cur =>
      let st1 := log_event st (EvPrintf "process %d exited\n" [pid cur]) in
      let st2 :=
        set_procs st1
          (<[ current_proc st1 := set_state cur PROC_EXITED ]> (procs st1)) in
      _ ← yield st2; Panic "unreachable" []
  end.

Definition handle_syscall (st : kstate) (f : trap_frame)
  : outcome (kstate * trap_frame) :=
  if a3 f =? SYS_PUTCHAR then Ret (putchar st (a0 f), f)
  else if a3 f =? SYS_GETCHAR then getchar_poll (console_in st) st f
  else if (a3 f =? SYS_READFILE) || (a3 f =? SYS_WRITEFILE) then sys_file st f
  else if a3 f =? SYS_EXIT then sys_exit st
  else Panic "unexpected syscall a3=%x\n" [a3 f].

Definition handle_trap (st : kstate) (f : trap_frame)
  : outcome (kstate * trap_frame) :=
  let scause := csr_scause st in
  let stval := csr_stval st in
  let user_pc := csr_sepc st in
  if scause =? SCAUSE_ECALL then
    '(st', f') ← handle_syscall st f;
    let user_pc := to_uint32 (user_pc + 4) in
    Ret (set_csr_sepc st' user_pc, f')
  else
    Panic "unexpected trap scause=%x, stval=%x, sepc=%x\n"
          [scause; stval; user_pc].

Definition set_sp (f : trap_frame) (v : Z) : trap_frame :=
  {| ra := ra f; gp := gp f; tp := tp f;
     t0 := t0 f; t1 := t1 f; t2 := t2 f; t3 := t3 f; t4 := t4 f;
     t5 := t5 f; t6 := t6 f;
     a0 := a0 f; a1 := a1 f; a2 := a2 f; a3 := a3 f; a4 := a4 f;
     a5 := a5 f; a6 := a6 f; a7 := a7 f;
     s0 := s0 f; s1 := s1 f; s2 := s2 f; s3 := s3 f; s4 := s4 f;
     s5 := s5 f; s6 := s6 f; s7 := s7 f; s8 := s8 f; s9 := s9 f;
     s10 := s10 f; s11 := s11 f;
     sp := v |}.

(** [kernel_entry]: [regs] are the 31 general registers of the hart at the
    trap ([sp regs] is the user stack pointer). The result holds the
    registers at [sret]; the program counter after [sret] is [csr_sepc] of
    the resulting state. *)
Definition kernel_entry (st : kstate) (regs : trap_frame)
  : outcome (kstate * trap_frame) :=
  (* csrrw sp, sscratch, sp *)
  let kernel_sp := csr_sscratch st in
  let st := set_csr_sscratch st (sp regs) in
  (* addi sp, sp, -4 * 31; sw ra, 4 * 0(sp); ...; sw s11, 4 * 29(sp) *)
  let kernel_sp := to_uint32 (kernel_sp - 4 * 31) in
  (* csrr a0, sscratch; sw a0, 4 * 30(sp) *)
  let f := set_sp regs (csr_sscratch st) in
  (* addi a0, sp, 4 * 31; csrw sscratch, a0 *)
  let st := set_csr_sscratch st (to_uint32 (kernel_sp + 4 * 31)) in
  (* mv a0, sp; call handle_trap *)
  '(st', f') ← handle_trap st f;
  (* lw ra, 4 * 0(sp); ...; lw sp, 4 * 30(sp); sret *)
  Ret (st', f').

(** ** [virtio.c]: the block device driver *)

(** The device registers are modelled as a store: a read returns the last
    value written at that offset (for [DEVICE_STATUS] this is the
    behaviour of the device). *)
Definition virtio_reg_read32 (st : vstate) (offset : Z) : Z :=
  to_uint32 (mmio st offset).

Definition virtio_reg_read64 (st : vstate) (offset : Z) : Z :=
  virtio_reg_read32 st offset + 2 ^ 32 * virtio_reg_read32 st (offset + 4).

Definition virtio_reg_write32 (st : vstate) (offset value : Z) : vstate :=
  let v := to_uint32 value in
  set_mmio st (fun o => if o =? offset then v else mmio st o)
           (bus st ++ [BusWrite offset v]).

Definition virtio_reg_fetch_and_or32 (st : vstate) (offset value : Z) : vstate :=
  virtio_reg_write32 st offset (Z.lor (virtio_reg_read32 st offset) value).

Definition sync_synchronize (st : vstate) : vstate :=
  set_mmio st (mmio st) (bus st ++ [BusFence]).

(** Modelled from the spec: [alloc_pages] of [memory.c], which is not among
    the sources: a bump allocator that returns the cursor, advances it by
    [n * PAGE_SIZE], hands out zeroed pages and panics when the cursor
    would pass the end of free memory. *)
Definition alloc_pages (st : vstate) (n : Z) : outcome (Z * vstate) :=
  let paddr := next_paddr st in
  let next := paddr + n * PAGE_SIZE in
  if free_ram_end st <? next then Panic "out of memory" []
  else Ret (paddr, set_next_paddr st next).

Definition zero_desc : virtq_desc :=
  {| desc_addr := 0; desc_len := 0; desc_flags := 0; desc_next := 0 |}.

(** A virtqueue in freshly allocated (zeroed) pages. *)
Definition zero_virtq : virtio_virtq :=
  {| descs := replicate (Z.to_nat VIRTQ_ENTRY_NUM) zero_desc;
     avail_index := 0;
     avail_ring := replicate (Z.to_nat VIRTQ_ENTRY_NUM) 0;
     used_index := 0;
     queue_index := 0;
     last_used_index := 0 |}.

(** A request buffer in a freshly allocated (zeroed) page. *)
Definition zero_blk_req : virtio_blk_req :=
  {| req_type := 0; req_reserved := 0; req_sector := 0;
     req_data := replicate (Z.to_nat SECTOR_SIZE) x00;
     req_status := 0 |}.

Definition set_queue_index (vq : virtio_virtq) (v : Z) : virtio_virtq :=
  {| descs := descs vq; avail_index := avail_index vq;
     avail_ring := avail_ring vq; used_index := used_index vq;
     queue_index := v; last_used_index := last_used_index vq |}.

Definition set_avail (vq : virtio_virtq) (index : Z) (ring : list Z) : virtio_virtq :=
  {| descs := descs vq; avail_index := index;
     avail_ring := ring; used_index := used_index vq;
     queue_index := queue_index vq; last_used_index := last_used_index vq |}.

Definition set_used_index (vq : virtio_virtq) (v : Z) : virtio_virtq :=
  {| descs := descs vq; avail_index := avail_index vq;
     avail_ring := avail_ring vq; used_index := v;
     queue_index := queue_index vq; last_used_index := last_used_index vq |}.

Definition set_last_used_index (vq : virtio_virtq) (v : Z) : virtio_virtq :=
  {| descs := descs vq; avail_index := avail_index vq;
     avail_ring := avail_ring vq; used_index := used_index vq;
     queue_index := queue_index vq; last_used_index := v |}.

(** [virtq_init(index)]: returns the address of the queue, the contents
    of the queue and the state. *)
Definition virtq_init (st : vstate) (index : Z)
  : outcome (Z * virtio_virtq * vstate) :=
  '(virtq_paddr, st) ←
     alloc_pages st (to_uint32 (align_up VIRTQ_SIZEOF PAGE_SIZE / PAGE_SIZE));
  let vq := set_queue_index zero_virtq index in
  let st := virtio_reg_write32 st VIRTIO_REG_QUEUE_SEL index in
  let st := virtio_reg_write32 st VIRTIO_REG_QUEUE_NUM VIRTQ_ENTRY_NUM in
  let st := virtio_reg_write32 st VIRTIO_REG_QUEUE_ALIGN 0 in
  let st := virtio_reg_write32 st VIRTIO_REG_QUEUE_PFN virtq_paddr in
  Ret (virtq_paddr, vq, st).

(** [virtq_kick(vq, desc_index)] with [vq = blk_request_vq], the only
    queue of the driver. *)
Definition virtq_kick (st : vstate) (desc_index : Z) : vstate :=
  let vq := blk_request_vq st in
  let slot := Z.to_nat (Z.rem (avail_index vq) VIRTQ_ENTRY_NUM) in
  let vq := set_avail vq (avail_index vq)
                      (<[ slot := to_uint16 desc_index ]> (avail_ring vq)) in
  let vq := set_avail vq (to_uint16 (avail_index vq + 1)) (avail_ring vq) in
  let st := sync_synchronize (set_blk_request_vq st vq) in
  let st := virtio_reg_write32 st VIRTIO_REG_QUEUE_NOTIFY (queue_index vq) in
  let vq := blk_request_vq st in
  set_blk_request_vq st
    (set_last_used_index vq (to_uint16 (last_used_index vq + 1))).

Definition virtq_is_busy (vq : virtio_virtq) : bool :=
  negb (last_used_index vq =? used_index vq).

Definition virtio_blk_init (st : vstate) : outcome vstate :=
  if negb (virtio_reg_read32 st VIRTIO_REG_MAGIC =? 0x74726976) then
    Panic "virtio: invalid magic value" []
  else if negb (virtio_reg_read32 st VIRTIO_REG_VERSION =? 1) then
    Panic "virtio: invalid version" []
  else if negb (virtio_reg_read32 st VIRTIO_REG_DEVICE_ID =? VIRTIO_DEVICE_BLK) then
    Panic "virtio: invalid device id" []
  else
    let st := virtio_reg_write32 st VIRTIO_REG_DEVICE_STATUS 0 in
    let st := virtio_reg_fetch_and_or32 st VIRTIO_REG_DEVICE_STATUS VIRTIO_STATUS_ACK in
    let st := virtio_reg_fetch_and_or32 st VIRTIO_REG_DEVICE_STATUS VIRTIO_STATUS_DRIVER in
    let st := virtio_reg_fetch_and_or32 st VIRTIO_REG_DEVICE_STATUS VIRTIO_STATUS_FEAT_OK in
    '(vq_paddr, vq, st) ← virtq_init st 0;
    let st := set_blk_request_vq (set_blk_request_vq_ptr st vq_paddr) vq in
    let st := virtio_reg_write32 st VIRTIO_REG_DEVICE_STATUS VIRTIO_STATUS_DRIVER_OK in
    let st :=
      set_blk_capacity st
        (to_uint64 (virtio_reg_read64 st (VIRTIO_REG_DEVICE_CONFIG + 0) * SECTOR_SIZE)) in
    let st :=
      vlog_event st (EvPrintf "virtio-blk: capacity is %d bytes\n"
                              [to_uint32 (blk_capacity st)]) in
    '(req_paddr, st) ←
       alloc_pages st (to_uint32 (align_up BLK_REQ_SIZEOF PAGE_SIZE / PAGE_SIZE));
    Ret (set_blk_req (set_blk_req_paddr st req_paddr) zero_blk_req).

(** [memcpy(dst, src, n)] between two buffers of the model. *)
Definition memcpy_list (dst src : list byte) (n : nat) : list byte :=
  take n src ++ drop (Nat.min n (length src)) dst.

(** Lines 106-109 of [read_write_disk]: the request header and, on a
    write, the data. *)
Definition rw_request (st : vstate) (buf : list byte) (sector is_write : Z) : vstate :=
  let r := blk_req st in
  set_blk_req st
    {| req_type := if is_write =? 0 then VIRTIO_BLK_T_IN else VIRTIO_BLK_T_OUT;
       req_reserved := req_reserved r;
       req_sector := sector;
       req_data :=
         if is_write =? 0 then req_data r
         else memcpy_list (req_data r) buf (Z.to_nat SECTOR_SIZE);
       req_status := req_status r |}.

(** Lines 112-128: the three descriptors. The [next] field of
    descriptor 2 is not assigned. *)
Definition rw_descs (st : vstate) (is_write : Z) : vstate :=
  let vq := blk_request_vq st in
  let vq :=
    set_desc vq 0
      {| desc_addr := to_uint32 (blk_req_paddr st);
         desc_len := BLK_REQ_HEADER_SIZE;
         desc_flags := VIRTQ_DESC_F_NEXT;
         desc_next := 1 |} in
  let vq :=
    set_desc vq 1
      {| desc_addr := to_uint32 (blk_req_paddr st + BLK_REQ_OFFSET_DATA);
         desc_len := SECTOR_SIZE;
         desc_flags :=
           Z.lor VIRTQ_DESC_F_NEXT
                 (if is_write =? 0 then VIRTQ_DESC_F_WRITE else 0);
         desc_next := 2 |} in
  let vq :=
    set_desc vq 2
      {| desc_addr := to_uint32 (blk_req_paddr st + BLK_REQ_OFFSET_STATUS);
         desc_len := 1;
         desc_flags := VIRTQ_DESC_F_WRITE;
         desc_next := default 0 (desc_next <$> descs vq !! 2%nat) |} in
  set_blk_request_vq st vq.

(** The state when [virtq_kick] has returned. *)
Definition rw_submit (st : vstate) (buf : list byte) (sector is_write : Z) : vstate :=
  virtq_kick (rw_descs (rw_request st buf sector is_write) is_write) 0.

(** The device serves the request that was notified: it fills the data
    buffer on a read, writes the status byte and advances [used.index].
    It does not touch the descriptors. *)
Definition device_complete (st : vstate) : option vstate :=
  match device (blk_req st) with
  | None => None
  | Some resp =>
      let r := blk_req st in
      let r' :=
        {| req_type := req_type r; req_reserved := req_reserved r;
           req_sector := req_sector r;
           req_data :=
             if req_type r =? VIRTIO_BLK_T_IN then resp_data resp
             else req_data r;
           req_status := to_uint8 (resp_status resp) |} in
      let vq := blk_request_vq st in
      Some (set_blk_request_vq (set_blk_req st r')
              (set_used_index vq (to_uint16 (used_index vq + 1))))
  end.

(** [read_write_disk(buf, sector, is_write)]: [buf] is the contents of the
    caller's buffer, and the result holds its contents at the return. The
    busy-wait ends when the device has completed the request and the two
    indices agree; otherwise it spins for ever. *)
Definition read_write_disk (st : vstate) (buf : list byte) (sector is_write : Z)
  : outcome (vstate * list byte) :=
  if blk_capacity st / SECTOR_SIZE <=? sector then
    Ret (vlog_event st
           (EvPrintf "virtio: tried to read/write sector=%d, but capacity is %d\n"
                     [sector; blk_capacity st / SECTOR_SIZE]),
         buf)
  else
    let st := rw_submit st buf sector is_write in
    match device_complete st with
    | None => Hang
    | Some st =>
        if virtq_is_busy (blk_request_vq st) then Hang
        else if negb (req_status (blk_req st) =? 0) then
          Ret (vlog_event st
                 (EvPrintf "virtio: warn: failed to read/write sector=%d status=%d\n"
                           [sector; req_status (blk_req st)]),
               buf)
        else if is_write =? 0 then
          Ret (st, memcpy_list buf (req_data (blk_req st)) (Z.to_nat SECTOR_SIZE))
        else Ret (st, buf)
    end.

(** The strings of the write-then-read scenario. *)
Definition hello_txt : list byte := list_byte_of_string "hello.txt".
Definition world : list byte := list_byte_of_string "world".

(** Every [data] array of the table has [sizeof(file->data)] bytes. *)
Definition files_wf (fs : list file) : Prop :=
  Forall (fun fl => Z.of_nat (length (file_data fl)) = FILE_DATA_SIZE) fs.

(** The calls of [read_write_disk] that do not complete successfully:
    the sector is out of range, or the device completes the request with
    a status byte that is not zero. *)
Definition rw_unsuccessful (st : vstate) (buf : list byte) (sector is_write : Z)
  : Prop :=
  blk_capacity st <= sector * SECTOR_SIZE \/
  (sector * SECTOR_SIZE < blk_capacity st /\
   exists st2,
     device_complete (rw_submit st buf sector is_write) = Some st2 /\
     virtq_is_busy (blk_request_vq st2) = false /\
     req_status (blk_req st2) <> 0).

(** The queue has the [VIRTQ_ENTRY_NUM] descriptors and ring slots of its
    declaration. *)
Definition virtq_wf (vq : virtio_virtq) : Prop :=
  Z.of_nat (length (descs vq)) = VIRTQ_ENTRY_NUM /\
  Z.of_nat (length (avail_ring vq)) = VIRTQ_ENTRY_NUM /\
  0 <= avail_index vq.

(** The queue has no request outstanding: the driver's [last_used_index]
    equals the device's [used.index]. *)
Definition virtq_idle (vq : virtio_virtq) : Prop :=
  last_used_index vq = used_index vq /\ 0 <= used_index vq < 2 ^ 16.



(** ** [process.c]: process creation and the context switch *)

(** Modelled from the spec: the user image is mapped at [USER_BASE], and
    the flag bits of a page-table entry are V = bit 0, R = bit 1, W = bit
    2, X = bit 3, U = bit 4. *)
Definition USER_BASE : Z := 0x1000000.
Definition PAGE_R : Z := 2.
Definition PAGE_W : Z := 4.
Definition PAGE_X : Z := 8.
Definition PAGE_U : Z := 16.

(** [memory.c] is not among the sources: the physical memory it manages
    is an abstract state [pmem], and [alloc_pages], [map_page] and the
    copy of image bytes into a page are parameters on it. The linker
    symbol [__kernel_base], the address of the device registers and the
    address of [user_entry] are parameters too. *)
Variable pmem : Type.
Variable pm_alloc_pages : pmem -> Z -> outcome (Z * pmem).
Variable pm_map_page : pmem -> Z -> Z -> Z -> Z -> outcome pmem.
Variable pm_memcpy : pmem -> Z -> list byte -> pmem.
Variable KERNEL_BASE : Z.
Variable VIRTIO_BLK_PADDR : Z.
Variable USER_ENTRY : Z.

(** The kernel stacks, as 32-bit words by address. *)
Definition store_word (stk : Z -> Z) (a v : Z) : Z -> Z :=
  fun x => if x =? a then v else stk x.

(** [*--sp = v] *)
Definition push_word (s : (Z -> Z) * Z) (v : Z) : (Z -> Z) * Z :=
  let sp := snd s - 4 in (store_word (fst s) sp v, sp).

(** The loop that looks for an unused slot, entered at index [i] with
    [fuel] iterations to go. *)
Fixpoint find_unused (ps : list process) (i : nat) (fuel : nat) : scan_result :=
  match fuel with
  | O => ScanNone
  | S fuel' =>
      match ps !! i with
      | None => ScanOutOfBounds
      | Some proc =>
          if proc_state_eqb (state proc) PROC_UNUSED then ScanFound i
          else find_unused ps (S i) fuel'
      end
  end.

(** A loop over addresses that advance by [PAGE_SIZE] in 32-bit
    arithmetic either ends within [2^32 / PAGE_SIZE + 1] iterations or
    repeats for ever. *)
Definition page_loop_fuel : nat := Z.to_nat (2 ^ 32 / PAGE_SIZE + 1).

(** [for (paddr = __kernel_base; paddr < __kernel_base + 0x200000;
    paddr += PAGE_SIZE) map_page(page_table, paddr, paddr, R|W|X)] *)
Fixpoint map_kernel_pages (fuel : nat) (m : pmem) (page_table paddr bound : Z)
  : outcome pmem :=
  match fuel with
  | O => Hang
  | S fuel' =>
      if paddr <? bound then
        m' ← pm_map_page m page_table paddr paddr
                         (Z.lor (Z.lor PAGE_R PAGE_W) PAGE_X);
        map_kernel_pages fuel' m' page_table (to_uint32 (paddr + PAGE_SIZE)) bound
      else Ret m
  end.

(** [for (off = 0; off < image_size; off += PAGE_SIZE) { ... }]: one
    fresh page per chunk of the image, filled with up to [PAGE_SIZE]
    bytes and mapped at [USER_BASE + off] for user mode. *)
Fixpoint map_user_pages (fuel : nat) (m : pmem) (page_table : Z)
         (image : list byte) (image_size off : Z) : outcome pmem :=
  match fuel with
  | O => Hang
  | S fuel' =>
      if off <? image_size then
        '(page, m1) ← pm_alloc_pages m 1;
        let remaining := to_uint32 (image_size - off) in
        let copy_size := if PAGE_SIZE <=? remaining then PAGE_SIZE else remaining in
        let m2 := pm_memcpy m1 page
                            (take (Z.to_nat copy_size) (drop (Z.to_nat off) image)) in
        m3 ← pm_map_page m2 page_table (to_uint32 (USER_BASE + off)) page
                         (Z.lor (Z.lor (Z.lor PAGE_U PAGE_R) PAGE_W) PAGE_X);
        map_user_pages fuel' m3 page_table image image_size
                       (to_uint32 (off + PAGE_SIZE))
      else Ret m
  end.

(** [create_process(image, image_size)]: [image] holds the bytes at the
    pointer. The result is the slot of the new process, the kernel state,
    the kernel stacks and the physical memory. *)
Definition create_process (st : kstate) (stk : Z -> Z) (m : pmem)
           (image : list byte) (image_size : Z)
  : outcome (nat * kstate * (Z -> Z) * pmem) :=
  match find_unused (procs st) 0 (Z.to_nat PROCS_MAX) with
  | ScanOutOfBounds => Undef
  | ScanNone => Panic "no free process slots" []
  | ScanFound i =>
      match procs st !! i with
      | None => Undef
      | Some proc =>
          let s := (stk, stack_top proc) in
          let s := push_word s 0 in   (* s11 *)
          let s := push_word s 0 in   (* s10 *)
          let s := push_word s 0 in   (* s9 *)
          let s := push_word s 0 in   (* s8 *)
          let s := push_word s 0 in   (* s7 *)
          let s := push_word s 0 in   (* s6 *)
          let s := push_word s 0 in   (* s5 *)
          let s := push_word s 0 in   (* s4 *)
          let s := push_word s 0 in   (* s3 *)
          let s := push_word s 0 in   (* s2 *)
          let s := push_word s 0 in   (* s1 *)
          let s := push_word s 0 in   (* s0 *)
          let s := push_word s (to_uint32 USER_ENTRY) in   (* ra *)
          '(page_table, m) ← pm_alloc_pages m 1;
          m ← map_kernel_pages page_loop_fuel m page_table
                (to_uint32 KERNEL_BASE) (to_uint32 (KERNEL_BASE + 0x200000));
          m ← pm_map_page m page_table VIRTIO_BLK_PADDR VIRTIO_BLK_PADDR
                (Z.lor PAGE_R PAGE_W);
          m ← map_user_pages page_loop_fuel m page_table image
                (to_uint32 image_size) 0;
          let proc' :=
            {| pid := Z.of_nat i + 1; state := PROC_RUNNABLE;
               proc_sp := snd s; page_table := page_table;
               stack_top := stack_top proc |} in
          Ret (i, set_procs st (<[ i := proc' ]> (procs st)), fst s, m)
      end
  end.

(** The registers that [switch_context] saves and restores. *)
Record context_regs := {
  c_ra : Z;
  c_s0 : Z; c_s1 : Z; c_s2 : Z; c_s3 : Z; c_s4 : Z; c_s5 : Z;
  c_s6 : Z; c_s7 : Z; c_s8 : Z; c_s9 : Z; c_s10 : Z; c_s11 : Z
}.

(** [sw ra, 0*4(sp)] ... [sw s11, 12*4(sp)] *)
Definition save_context (stk : Z -> Z) (sp : Z) (r : context_regs) : Z -> Z :=
  let stk := store_word stk (sp + 0 * 4) (c_ra r) in
  let stk := store_word stk (sp + 1 * 4) (c_s0 r) in
  let stk := store_word stk (sp + 2 * 4) (c_s1 r) in
  let stk := store_word stk (sp + 3 * 4) (c_s2 r) in
  let stk := store_word stk (sp + 4 * 4) (c_s3 r) in
  let stk := store_word stk (sp + 5 * 4) (c_s4 r) in
  let stk := store_word stk (sp + 6 * 4) (c_s5 r) in
  let stk := store_word stk (sp + 7 * 4) (c_s6 r) in
  let stk := store_word stk (sp + 8 * 4) (c_s7 r) in
  let stk := store_word stk (sp + 9 * 4) (c_s8 r) in
  let stk := store_word stk (sp + 10 * 4) (c_s9 r) in
  let stk := store_word stk (sp + 11 * 4) (c_s10 r) in
  store_word stk (sp + 12 * 4) (c_s11 r).

(** [lw ra, 0*4(sp)] ... [lw s11, 12*4(sp)] *)
Definition load_context (stk : Z -> Z) (sp : Z) : context_regs :=
  {| c_ra := stk (sp + 0 * 4);
     c_s0 := stk (sp + 1 * 4); c_s1 := stk (sp + 2 * 4);
     c_s2 := stk (sp + 3 * 4); c_s3 := stk (sp + 4 * 4);
     c_s4 := stk (sp + 5 * 4); c_s5 := stk (sp + 6 * 4);
     c_s6 := stk (sp + 7 * 4); c_s7 := stk (sp + 8 * 4);
     c_s8 := stk (sp + 9 * 4); c_s9 := stk (sp + 10 * 4);
     c_s10 := stk (sp + 11 * 4); c_s11 := stk (sp + 12 * 4) |}.

Definition set_proc_sp (p : process) (v : Z) : process :=
  {| pid := pid p; state := state p; proc_sp := v;
     page_table := page_table p; stack_top := stack_top p |}.

(** The assembly of [switch_context(&procs[prev].sp, &procs[next].sp)],
    entered with the registers [r] and stack pointer [sp]: the result is
    the process table, the stacks, and the registers and stack pointer at
    the [ret] (which jumps to the restored [ra]). *)
Definition switch_context_asm (ps : list process) (stk : Z -> Z)
           (r : context_regs) (sp : Z) (prev next : nat)
  : option (list process * (Z -> Z) * context_regs * Z) :=
  (* addi sp, sp, -13 * 4; sw ... *)
  let sp := to_uint32 (sp - 13 * 4) in
  let stk := save_context stk sp r in
  (* sw sp, (a0) *)
  match ps !! prev with
  | None => None
  | Some p =>
      let ps := <[ prev := set_proc_sp p sp ]> ps in
      (* lw sp, (a1) *)
      match ps !! next with
      | None => None
      | Some n =>
          let sp := proc_sp n in
          (* lw ...; addi sp, sp, 13 * 4; ret *)
          let r := load_context stk sp in
          Some (ps, stk, r, to_uint32 (sp + 13 * 4))
      end
  end.

(** Lines 65 to 73 of [kernel_main]: the idle process and the shell are
    created and the kernel yields for the first time. *)
Definition set_pid (p : process) (v : Z) : process :=
  {| pid := v; state := state p; proc_sp := proc_sp p;
     page_table := page_table p; stack_top := stack_top p |}.

Definition set_idle_proc (st : kstate) (v : nat) : kstate :=
  {| procs := procs st; current_proc := current_proc st; idle_proc := v;
     files := files st; umem := umem st; csr_scause := csr_scause st;
     csr_stval := csr_stval st; csr_sepc := csr_sepc st;
     csr_satp := csr_satp st; csr_sscratch := csr_sscratch st;
     console_in := console_in st; klog := klog st |}.

(** Lines 65 to 69: the two calls of [create_process]. *)
Definition kernel_main_create (st : kstate) (stk : Z -> Z) (m : pmem)
           (shell : list byte) (shell_size : Z)
  : outcome (kstate * (Z -> Z) * pmem) :=
  '(idle, st, stk, m) ← create_process st stk m [] 0;
  match procs st !! idle with
  | None => Undef
  | Some p =>
      let st := set_idle_proc st idle in
      let st := set_procs st (<[ idle := set_pid p 0 ]> (procs st)) in
      let st := set_current_proc st (idle_proc st) in
      '(_, st, stk, m) ← create_process st stk m shell shell_size;
      Ret (st, stk, m)
  end.

(** Lines 72 and 73: the first yield. *)
Definition kernel_main_processes (st : kstate) (stk : Z -> Z) (m : pmem)
           (shell : list byte) (shell_size : Z) : outcome kstate :=
  '(st, _, _) ← kernel_main_create st stk m shell shell_size;
  _ ← yield st;
  Panic "switched to idle process" [].

(** The mappings that [create_process] may request: the identity mapping
    R|W|X of an address of the kernel range, the identity mapping R|W of
    the device registers, or a mapping U|R|W|X at [USER_BASE + off] for a
    page-aligned offset of the image. *)
Definition create_process_mapping (image_size vaddr paddr flags : Z) : Prop :=
  (paddr = vaddr /\ flags = Z.lor (Z.lor PAGE_R PAGE_W) PAGE_X /\
   to_uint32 KERNEL_BASE <= vaddr < to_uint32 (KERNEL_BASE + 0x200000)) \/
  (vaddr = VIRTIO_BLK_PADDR /\ paddr = VIRTIO_BLK_PADDR /\
   flags = Z.lor PAGE_R PAGE_W) \/
  (flags = Z.lor (Z.lor (Z.lor PAGE_U PAGE_R) PAGE_W) PAGE_X /\
   exists off, 0 <= off < to_uint32 image_size /\ off mod PAGE_SIZE = 0 /\
               vaddr = to_uint32 (USER_BASE + off)).

(** The context that a new process starts from: [ra] is [user_entry] and
    [s0] to [s11] are zero. *)
Definition initial_context : context_regs :=
  {| c_ra := to_uint32 USER_ENTRY;
     c_s0 := 0; c_s1 := 0; c_s2 := 0; c_s3 := 0; c_s4 := 0; c_s5 := 0;
     c_s6 := 0; c_s7 := 0; c_s8 := 0; c_s9 := 0; c_s10 := 0; c_s11 := 0 |}.

(** ** Concrete states

    A process table with A ([pid = 1], slot 0) and B ([pid = 2], slot 1)
    runnable, the idle process in slot 2 and five unused slots; a file
    table that holds "hello.txt"; a user memory with the strings of the
    scenario; a block device of 2048 sectors. *)

Definition mk_process (p : Z) (s : proc_state) : process :=
  {| pid := p; state := s; proc_sp := 0; page_table := 0; stack_top := 0 |}.

Definition ex_procs : list process :=
  [mk_process 1 PROC_RUNNABLE; mk_process 2 PROC_RUNNABLE;
   mk_process 0 PROC_RUNNABLE] ++ replicate 5 (mk_process 0 PROC_UNUSED).

Definition mk_frame (v0 v1 v2 v3 : Z) : trap_frame :=
  {| ra := 0; gp := 0; tp := 0;
     t0 := 0; t1 := 0; t2 := 0; t3 := 0; t4 := 0; t5 := 0; t6 := 0;
     a0 := v0; a1 := v1; a2 := v2; a3 := v3; a4 := 0; a5 := 0; a6 := 0;
     a7 := 0;
     s0 := 0; s1 := 0; s2 := 0; s3 := 0; s4 := 0; s5 := 0; s6 := 0;
     s7 := 0; s8 := 0; s9 := 0; s10 := 0; s11 := 0;
     sp := 0x1001000 |}.

Definition ex_umem : Z -> byte :=
  store_bytes (store_bytes (fun _ => x00) 0x1000100 (hello_txt ++ [x00]))
              0x1000200 world.

Definition ex_file : file :=
  {| in_use := true;
     file_name := hello_txt ++ replicate 91 x00;
     file_data := replicate 1024 x00;
     file_size := 0 |}.

Definition ex_kstate : kstate :=
  {| procs := ex_procs; current_proc := 0; idle_proc := 2;
     files := [ex_file]; umem := ex_umem;
     csr_scause := 8; csr_stval := 0; csr_sepc := 0x1000010;
     csr_satp := 0; csr_sscratch := 0x80300000;
     console_in := []; klog := [] |}.

Definition ex_putchar_frame : trap_frame := mk_frame 65 0 0 SYS_PUTCHAR.
Definition ex_write_frame : trap_frame :=
  mk_frame 0x1000100 0x1000200 5 SYS_WRITEFILE.
Definition ex_read_frame : trap_frame :=
  mk_frame 0x1000100 0x1000300 100 SYS_READFILE.

Definition no_resume : kstate -> option kstate := fun _ => None.

(** What the hart reports when a copy leaves the 2 MiB of a kernel at
    [0x80200000]: a store page fault (cause 15) at the first address past
    them, in an instruction of [memcpy]. *)
Definition ex_page_fault : loc -> loc -> Z -> Z * Z * Z :=
  fun _ _ _ => (15, 0x80400000, 0x80200100).

Definition ex_mmio : Z -> Z :=
  fun o =>
    if o =? VIRTIO_REG_MAGIC then 0x74726976
    else if o =? VIRTIO_REG_VERSION then 1
    else if o =? VIRTIO_REG_DEVICE_ID then VIRTIO_DEVICE_BLK
    else if o =? VIRTIO_REG_DEVICE_CONFIG then 2048
    else 0.

Definition null_virtq : virtio_virtq :=
  {| descs := []; avail_index := 0; avail_ring := []; used_index := 0;
     queue_index := 0; last_used_index := 0 |}.

(** The driver before [virtio_blk_init]: free memory starts at
    [0x80221000]. *)
Definition ex_vboot : vstate :=
  {| mmio := ex_mmio; bus := [];
     next_paddr := 0x80221000; free_ram_end := 0x84221000;
     blk_request_vq_paddr := 0; blk_request_vq := null_virtq;
     blk_req_paddr := 0;
     blk_req := {| req_type := 0; req_reserved := 0; req_sector := 0;
                   req_data := []; req_status := 0 |};
     blk_capacity := 0; vlog := [] |}.

(** The driver after initialisation, with a queue of 16 entries. *)
Definition ex_vready : vstate :=
  {| mmio := ex_mmio; bus := [];
     next_paddr := 0x80224000; free_ram_end := 0x84221000;
     blk_request_vq_paddr := 0x80221000;
     blk_request_vq :=
       {| descs := replicate 16 zero_desc; avail_index := 0;
          avail_ring := replicate 16 0; used_index := 0;
          queue_index := 0; last_used_index := 0 |};
     blk_req_paddr := 0x80223000;
     blk_req := {| req_type := 0; req_reserved := 0; req_sector := 0;
                   req_data := replicate 512 x00; req_status := 0 |};
     blk_capacity := 2048 * 512; vlog := [] |}.

Definition ex_buf : list byte := replicate 512 x41.

(** A device that fails every request with status 1 (IOERR). *)
Definition failing_device : virtio_blk_req -> option dev_response :=
  fun _ => Some {| resp_data := replicate 512 x00; resp_status := 1 |}.

(** A process table at boot: eight unused slots, each with the top of its
    kernel stack of 8192 bytes. *)
Definition ex_boot_procs : list process :=
  map (fun i =>
         {| pid := 0; state := PROC_UNUSED; proc_sp := 0; page_table := 0;
            stack_top := 0x80230000 + (Z.of_nat i + 1) * 8192 |})
      (seq 0 8).

Definition ex_boot_kstate : kstate :=
  {| procs := ex_boot_procs; current_proc := 0; idle_proc := 0;
     files := [ex_file]; umem := fun _ => x00;
     csr_scause := 0; csr_stval := 0; csr_sepc := 0;
     csr_satp := 0; csr_sscratch := 0;
     console_in := []; klog := [] |}.

(** A table without an unused slot. *)
Definition ex_full_kstate : kstate :=
  set_procs ex_boot_kstate (replicate 8 (mk_process 1 PROC_RUNNABLE)).

(** A alone: slot 0 runnable with [pid = 1], nothing else. *)
Definition ex_alone_kstate : kstate :=
  set_procs ex_kstate
    (mk_process 1 PROC_RUNNABLE :: replicate 7 (mk_process 0 PROC_UNUSED)).

(** A in slot 0 and a runnable process with [pid = 4] in slot 3. *)
Definition ex_sparse_kstate : kstate :=
  set_procs ex_kstate
    ([mk_process 1 PROC_RUNNABLE; mk_process 0 PROC_UNUSED;
      mk_process 3 PROC_EXITED; mk_process 4 PROC_RUNNABLE]
       ++ replicate 4 (mk_process 0 PROC_UNUSED)).

(** The zeroed kernel stacks. *)
Definition ex_stk : Z -> Z := fun _ => 0.

(** The value that a computation returns, or [d] when it does not
    return. *)
Definition returned {A : Type} (d : A) (o : outcome A) : A :=
  match o with
  | Ret a => a
  | _ => d
  end.

(** Modelled from the spec: an instance of the memory parameters for the
    concrete states. [alloc_pages] is a bump allocator that returns the
    cursor and advances it by [n] pages; the calls of [map_page] are
    recorded, most recent first, as (table, vaddr, paddr, flags); the bytes
    copied into a page are not kept. *)
Record ex_pmem := {
  pm_next : Z;
  pm_maps : list (Z * Z * Z * Z)
}.

Definition ex_alloc_pages (m : ex_pmem) (n : Z) : outcome (Z * ex_pmem) :=
  Ret (pm_next m,
       {| pm_next := pm_next m + n * PAGE_SIZE; pm_maps := pm_maps m |}).

Definition ex_map_page (m : ex_pmem) (table vaddr paddr flags : Z)
  : outcome ex_pmem :=
  Ret {| pm_next := pm_next m;
         pm_maps := (table, vaddr, paddr, flags) :: pm_maps m |}.

Definition ex_memcpy (m : ex_pmem) (page : Z) (bs : list byte) : ex_pmem := m.

Definition ex_pm : ex_pmem := {| pm_next := 0x80300000; pm_maps := [] |}.

(** A user image of 5000 bytes: two pages. *)
Definition ex_shell : list byte := replicate 5000 x41.

(** Every mapping with the U flag lies in the two pages of that image. *)
Definition ex_user_mappings_in_image (m : ex_pmem) : Prop :=
  Forall (fun e : Z * Z * Z * Z =>
            let '(_, vaddr, _, flags) := e in
            Z.land flags PAGE_U <> 0 -> USER_BASE <= vaddr < USER_BASE + 2 * PAGE_SIZE)
         (pm_maps m).


(** The registers of a process in the middle of its work. *)
Definition ex_context : context_regs :=
  {| c_ra := 0x80200abc;
     c_s0 := 1; c_s1 := 2; c_s2 := 3; c_s3 := 4; c_s4 := 5; c_s5 := 6;
     c_s6 := 7; c_s7 := 8; c_s8 := 9; c_s9 := 10; c_s10 := 11; c_s11 := 12 |}.

(** A (slot 0) running and B (slot 1) switched out with its saved stack
    pointer 13 words below the top of its kernel stack. *)
Definition ex_run_procs : list process :=
  [ {| pid := 1; state := PROC_RUNNABLE; proc_sp := 0x80231fcc;
       page_table := 0x80300000; stack_top := 0x80232000 |};
    {| pid := 2; state := PROC_RUNNABLE; proc_sp := 0x80233fcc;
       page_table := 0x80301000; stack_top := 0x80234000 |} ].

(** All thirteen registers zero. *)
Definition zero_context : context_regs :=
  {| c_ra := 0;
     c_s0 := 0; c_s1 := 0; c_s2 := 0; c_s3 := 0; c_s4 := 0; c_s5 := 0;
     c_s6 := 0; c_s7 := 0; c_s8 := 0; c_s9 := 0; c_s10 := 0; c_s11 := 0 |}.

(** * Properties *)

(** ** Words *)

Lemma to_uint32_small x : 0 <= x < 2 ^ 32 -> to_uint32 x = x.
Proof. intros H. unfold to_uint32. apply Z.mod_small. exact H. Qed.

Lemma to_int32_small x : 0 <= x < 2 ^ 31 -> to_int32 x = x.
Proof.
  intros H. unfold to_int32. rewrite Z.mod_small by lia.
  destruct (Z.ltb_spec x (2 ^ 31)); lia.
Qed.



(** ** Outcomes *)

Lemma bind_Ret_inv {A B} (m : outcome A) (k : A -> outcome B) b :
  m ≫= k = Ret b -> exists a, m = Ret a /\ k a = Ret b.
Proof. destruct m; simpl; intros H; try discriminate. eauto. Qed.

(** ** First match in a list *)

Lemma find_first {A} (P : A -> bool) (l : list A) (k : nat) (x : A) :
  l !! k = Some x ->
  P x = true ->
  (forall j y, (j < k)%nat -> l !! j = Some y -> P y = false) ->
  List.find P l = Some x.
Proof.
  revert k. induction l as [|a l IH]; intros k Hk Hx Hlt.
  - destruct k; discriminate.
  - destruct k as [|k]; simpl in *.
    + injection Hk as ->. now rewrite Hx.
    + rewrite (Hlt 0%nat a) by (try lia; reflexivity).
      apply (IH k); auto.
      intros j y Hj Hy. apply (Hlt (S j) y); [lia | exact Hy].
Qed.

(** ** The scheduler *)

Section Scheduler.

Hypothesis PROCS_MAX_pos : 0 < PROCS_MAX.

Lemma scan_slot_range cur_pid i :
  0 <= cur_pid -> 0 <= i ->
  0 <= Z.rem (cur_pid + i) PROCS_MAX < PROCS_MAX.
Proof. intros. apply Z.rem_bound_pos; lia. Qed.

(** The loop is a search for the first candidate in the slots
    [(pid + k) % PROCS_MAX], [k = i, i+1, ...]. *)
Lemma yield_scan_find ps cur_pid fuel :
  length ps = Z.to_nat PROCS_MAX ->
  0 <= cur_pid ->
  forall i, 0 <= i ->
  yield_scan ps cur_pid i fuel =
  match List.find (slot_is_candidate ps)
          (map (fun k => Z.rem (cur_pid + k) PROCS_MAX) (seqZ i (Z.of_nat fuel))) with
  | Some idx => ScanFound (Z.to_nat idx)
  | None => ScanNone
  end.
Proof.
  intros Hlen Hpid. induction fuel as [|fuel IH]; intros i Hi.
  - reflexivity.
  - rewrite seqZ_cons by lia.
    replace (Z.pred (Z.of_nat (S fuel))) with (Z.of_nat fuel) by lia.
    cbn [yield_scan map List.find].
    pose proof (scan_slot_range cur_pid i Hpid Hi) as Hr.
    destruct (Z.ltb_spec (Z.rem (cur_pid + i) PROCS_MAX) 0) as [|_]; [lia|].
    unfold slot_is_candidate at 1.
    destruct (ps !! Z.to_nat (Z.rem (cur_pid + i) PROCS_MAX)) as [proc|] eqn:Hp.
    + destruct (is_candidate proc); [reflexivity|].
      rewrite IH by lia. reflexivity.
    + apply lookup_ge_None in Hp. lia.
Qed.

Lemma yield_next_find st cur :
  length (procs st) = Z.to_nat PROCS_MAX ->
  procs st !! current_proc st = Some cur ->
  0 <= pid cur ->
  yield_next st =
  Some (match List.find (slot_is_candidate (procs st)) (scan_order (pid cur)) with
        | Some idx => Z.to_nat idx
        | None => idle_proc st
        end).
Proof.
  intros Hlen Hcur Hpid. unfold yield_next, scan_order. rewrite Hcur.
  rewrite yield_scan_find by (auto; lia).
  rewrite Z2Nat.id by lia.
  destruct (List.find _ _); reflexivity.
Qed.

(** Every slot of the table is reached by the loop. *)
Lemma scan_order_covers cur_pid j :
  0 <= cur_pid -> 0 <= j < PROCS_MAX -> In j (scan_order cur_pid).
Proof.
  intros Hpid Hj. unfold scan_order. apply in_map_iff.
  exists ((j - cur_pid) mod PROCS_MAX). split.
  - pose proof (Z.mod_pos_bound (j - cur_pid) PROCS_MAX PROCS_MAX_pos).
    rewrite Z.rem_mod_nonneg by lia.
    rewrite Z.add_mod_idemp_r by lia.
    replace (cur_pid + (j - cur_pid)) with j by lia.
    apply Z.mod_small. lia.
  - apply list_elem_of_In, elem_of_seqZ.
    pose proof (Z.mod_pos_bound (j - cur_pid) PROCS_MAX PROCS_MAX_pos). lia.
Qed.

End Scheduler.

Lemma lookup_map {A B} (f : A -> B) (l : list A) (i : nat) :
  map f l !! i = f <$> (l !! i).
Proof. exact (list_lookup_fmap f l i). Qed.

Lemma scan_order_lookup cur_pid (k : nat) :
  Z.of_nat k < PROCS_MAX ->
  scan_order cur_pid !! k = Some (Z.rem (cur_pid + Z.of_nat k) PROCS_MAX).
Proof.
  intros Hk. unfold scan_order.
  rewrite lookup_map, lookup_seqZ_lt by lia. reflexivity.
Qed.

Lemma scan_order_lookup_inv cur_pid (k : nat) y :
  scan_order cur_pid !! k = Some y ->
  y = Z.rem (cur_pid + Z.of_nat k) PROCS_MAX /\ Z.of_nat k < PROCS_MAX.
Proof.
  unfold scan_order. rewrite lookup_map. intros H.
  destruct (seqZ 0 PROCS_MAX !! k) as [z|] eqn:Hz; [|discriminate].
  apply lookup_seqZ in Hz as [-> Hlt]. simpl in H.
  injection H as <-. split; [reflexivity | exact Hlt].
Qed.

(** C4 (as amended): the loop of [yield] examines the slots
    [(current_proc->pid + i) % PROCS_MAX] for [i = 0 .. PROCS_MAX-1] in
    that order, takes the first one that is RUNNABLE with [pid > 0], and
    falls back to the idle process. With A ([pid = 1], slot 0) and B
    ([pid = 2], slot 1) the only candidates, a yield by A selects B and a
    yield by B selects A. *)
Theorem yield_scans_round_robin (st : kstate) :
  0 < PROCS_MAX ->
  length (procs st) = Z.to_nat PROCS_MAX ->
  (forall cur,
      procs st !! current_proc st = Some cur ->
      0 <= pid cur ->
      yield_next st =
      Some (match List.find (slot_is_candidate (procs st)) (scan_order (pid cur)) with
            | Some idx => Z.to_nat idx
            | None => idle_proc st
            end)) /\
  (forall A B,
      procs st !! 0%nat = Some A -> procs st !! 1%nat = Some B ->
      pid A = 1 -> pid B = 2 ->
      state A = PROC_RUNNABLE -> state B = PROC_RUNNABLE ->
      (forall j p, (2 <= j)%nat -> procs st !! j = Some p -> is_candidate p = false) ->
      yield_next (set_current_proc st 0) = Some 1%nat /\
      yield_next (set_current_proc st 1) = Some 0%nat).
Proof.
  intros Hpos Hlen. split.
  - intros cur Hcur Hpid. apply yield_next_find; assumption.
  - intros A B HA HB HpA HpB HsA HsB Hrest.
    assert (HN : 2 <= PROCS_MAX).
    { apply lookup_lt_Some in HB. lia. }
    assert (HcA : is_candidate A = true).
    { unfold is_candidate. rewrite HsA, HpA. reflexivity. }
    assert (HcB : is_candidate B = true).
    { unfold is_candidate. rewrite HsB, HpB. reflexivity. }
    split.
    + rewrite (yield_next_find Hpos _ A) by (simpl; auto; lia).
      rewrite HpA.
      rewrite (find_first _ _ 0 1).
      * reflexivity.
      * rewrite scan_order_lookup by lia. simpl.
        rewrite Z.rem_small by lia. reflexivity.
      * unfold slot_is_candidate. cbn [procs set_current_proc].
        change (Z.to_nat 1) with 1%nat. rewrite HB. exact HcB.
      * intros j y Hj. lia.
    + rewrite (yield_next_find Hpos _ B) by (simpl; auto; lia).
      rewrite HpB.
      rewrite (find_first _ _ (Z.to_nat (PROCS_MAX - 2)) 0).
      * reflexivity.
      * rewrite scan_order_lookup by lia.
        rewrite Z2Nat.id by lia.
        replace (2 + (PROCS_MAX - 2)) with PROCS_MAX by lia.
        rewrite Z.rem_same by lia. reflexivity.
      * unfold slot_is_candidate. cbn [procs set_current_proc].
        change (Z.to_nat 0) with 0%nat. rewrite HA. exact HcA.
      * intros j y Hj Hy.
        apply scan_order_lookup_inv in Hy as [-> Hlt].
        rewrite Z.rem_small by lia.
        unfold slot_is_candidate.
        cbn [procs set_current_proc].
        destruct (procs st !! Z.to_nat (2 + Z.of_nat j)) as [p|] eqn:Hp;
          [|reflexivity].
        apply (Hrest (Z.to_nat (2 + Z.of_nat j)) p); [lia | exact Hp].
Qed.

(** C5: when some slot of the table is RUNNABLE with [pid > 0], the
    process that [yield] selects is RUNNABLE with [pid > 0]; it is not the
    idle process, whose pid is 0. *)
Theorem yield_never_idle_when_runnable (st : kstate) (cur : process) :
  0 < PROCS_MAX ->
  length (procs st) = Z.to_nat PROCS_MAX ->
  procs st !! current_proc st = Some cur ->
  0 <= pid cur ->
  (exists j p, procs st !! j = Some p /\ state p = PROC_RUNNABLE /\ 0 < pid p) ->
  exists k q,
    yield_next st = Some k /\
    procs st !! k = Some q /\
    state q = PROC_RUNNABLE /\ 0 < pid q /\
    (forall idle, procs st !! idle_proc st = Some idle -> pid idle = 0 ->
                  k <> idle_proc st).
Proof.
  intros Hpos Hlen Hcur Hpid (j & p & Hj & Hs & Hp).
  rewrite (yield_next_find Hpos st cur) by assumption.
  destruct (List.find (slot_is_candidate (procs st)) (scan_order (pid cur)))
    as [idx|] eqn:Hfind.
  - apply find_some in Hfind as [_ Hc].
    unfold slot_is_candidate in Hc.
    destruct (procs st !! Z.to_nat idx) as [q|] eqn:Hq; [|discriminate].
    exists (Z.to_nat idx), q.
    unfold is_candidate in Hc. apply andb_true_iff in Hc as [Hc1 Hc2].
    apply Z.ltb_lt in Hc2.
    assert (state q = PROC_RUNNABLE) by (destruct (state q); simpl in Hc1; congruence).
    repeat split; auto.
    intros idle Hidle Hz Heq. rewrite <- Heq, Hq in Hidle.
    injection Hidle as <-. lia.
  - exfalso.
    pose proof (lookup_lt_Some _ _ _ Hj) as Hlt.
    assert (Hin : In (Z.of_nat j) (scan_order (pid cur))).
    { apply scan_order_covers; lia. }
    pose proof (find_none _ _ Hfind _ Hin) as Hno.
    unfold slot_is_candidate in Hno. rewrite Nat2Z.id, Hj in Hno.
    unfold is_candidate in Hno. rewrite Hs in Hno.
    destruct (Z.ltb_spec 0 (pid p)); [discriminate | lia].
Qed.

(** ** The trap path *)

Lemma set_sp_same (regs : trap_frame) : set_sp regs (sp regs) = regs.
Proof. destruct regs. reflexivity. Qed.

Lemma handle_syscall_putchar st f :
  a3 f = SYS_PUTCHAR -> handle_syscall st f = Ret (putchar st (a0 f), f).
Proof. intros H. unfold handle_syscall. rewrite H. reflexivity. Qed.

Lemma handle_trap_ecall st f :
  csr_scause st = SCAUSE_ECALL ->
  handle_trap st f =
  '(st', f') ← handle_syscall st f;
  Ret (set_csr_sepc st' (to_uint32 (csr_sepc st + 4)), f').
Proof. intros H. unfold handle_trap. rewrite H. reflexivity. Qed.

(** C6: on a U-mode ecall ([scause = 8]) the [sepc] that [handle_trap]
    writes back is the [sepc] read at entry plus 4 (as a 32-bit word),
    whatever the system call and the processes that ran during it did to
    the register, and [handle_trap] returns whenever the system call
    does; on every other [scause] it panics. *)
Theorem handle_trap_advances_sepc (st : kstate) (f : trap_frame) :
  (csr_scause st = SCAUSE_ECALL ->
   (forall st1 f1,
       handle_syscall st f = Ret (st1, f1) ->
       exists st', handle_trap st f = Ret (st', f1) /\
                   csr_sepc st' = to_uint32 (csr_sepc st + 4)) /\
   (forall st' f',
       handle_trap st f = Ret (st', f') ->
       csr_sepc st' = to_uint32 (csr_sepc st + 4) /\
       (0 <= csr_sepc st < 2 ^ 32 - 4 -> csr_sepc st' = csr_sepc st + 4))) /\
  (csr_scause st <> SCAUSE_ECALL ->
   handle_trap st f =
   Panic "unexpected trap scause=%x, stval=%x, sepc=%x\n"
         [csr_scause st; csr_stval st; csr_sepc st]).
Proof.
  split.
  - intros Hcause. rewrite (handle_trap_ecall st f Hcause). split.
    + intros st1 f1 Hsys. rewrite Hsys. simpl. eexists. split; reflexivity.
    + intros st' f' Hret.
      apply bind_Ret_inv in Hret as ([st1 f1] & _ & Hret).
      injection Hret as <- <-. simpl. split; [reflexivity|].
      intros Hrange. apply to_uint32_small. lia.
  - intros Hcause. unfold handle_trap.
    destruct (Z.eqb_spec (csr_scause st) SCAUSE_ECALL); [contradiction|].
    reflexivity.
Qed.

(** C10: [SYS_PUTCHAR] stores nothing into the trap frame, and the
    registers that [kernel_entry] restores before [sret] are the ones it
    saved: [a0] still holds the character. *)
Theorem putchar_keeps_frame (st : kstate) (regs : trap_frame) :
  a3 regs = SYS_PUTCHAR ->
  handle_syscall st regs = Ret (putchar st (a0 regs), regs) /\
  (csr_scause st = SCAUSE_ECALL ->
   exists st',
     kernel_entry st regs = Ret (st', regs) /\
     klog st' = klog st ++ [EvPutchar (to_uint8 (a0 regs))]).
Proof.
  intros Hsys. split.
  - apply handle_syscall_putchar. exact Hsys.
  - intros Hcause. unfold kernel_entry.
    cbn [csr_sscratch set_csr_sscratch]. rewrite set_sp_same.
    rewrite handle_trap_ecall by exact Hcause.
    rewrite handle_syscall_putchar by exact Hsys.
    simpl. eexists. split; reflexivity.
Qed.

(** ** User memory *)

Lemma load_bytes_S m p n :
  load_bytes m p (S n) = m p :: load_bytes m (p + 1) n.
Proof.
  unfold load_bytes. cbn [seq map]. rewrite Z.add_0_r. f_equal.
  rewrite <- seq_shift, map_map.
  apply map_ext. intros i. f_equal. lia.
Qed.

Lemma cstring_at_nil m p : cstring_at m p [] <-> m p = x00.
Proof.
  unfold cstring_at. cbn [length Nat.add app]. rewrite load_bytes_S.
  cbn. split; congruence.
Qed.

Lemma cstring_at_cons m p c s :
  cstring_at m p (c :: s) <-> m p = c /\ cstring_at m (p + 1) s.
Proof.
  unfold cstring_at. cbn [length Nat.add app]. rewrite load_bytes_S.
  split.
  - intros H. injection H as H1 H2. auto.
  - intros [H1 H2]. congruence.
Qed.

Lemma byte_eqb_refl c : Byte.eqb c c = true.
Proof. apply byte_dec_lb. reflexivity. Qed.

Lemma byte_eqb_neq c d : c <> d -> Byte.eqb c d = false.
Proof.
  intros H. destruct (Byte.eqb c d) eqn:E; [|reflexivity].
  apply byte_dec_bl in E. contradiction.
Qed.

(** [strcmp] succeeds exactly on the arrays that hold the string found at
    the pointer. *)
Lemma strcmp_eq_iff m s : forall name p,
  cstring_at m p s -> ~ In x00 s ->
  (strcmp_eq name m p = true <-> holds_cstring name s).
Proof.
  induction s as [|d s IH]; intros name p Hstr Hnul.
  - apply cstring_at_nil in Hstr.
    destruct name as [|c name]; cbn [strcmp_eq].
    + split; [discriminate|]. intros [rest H]. discriminate.
    + rewrite Hstr. destruct (byte_eq_dec c x00) as [->|Hc].
      * rewrite byte_eqb_refl. split; [|reflexivity].
        intros _. exists name. reflexivity.
      * rewrite (byte_eqb_neq c x00 Hc). split; [discriminate|].
        intros [rest H]. cbn in H. congruence.
  - apply cstring_at_cons in Hstr as [Hd Hstr].
    assert (Hd0 : d <> x00) by (intros ->; apply Hnul; left; reflexivity).
    assert (Hnul' : ~ In x00 s) by (intros H; apply Hnul; right; exact H).
    destruct name as [|c name]; cbn [strcmp_eq].
    + split; [discriminate|]. intros [rest H]. discriminate.
    + rewrite Hd. destruct (byte_eq_dec c d) as [->|Hc].
      * rewrite byte_eqb_refl, (byte_eqb_neq d x00 Hd0).
        rewrite (IH name (p + 1) Hstr Hnul'). split.
        -- intros [rest ->]. exists rest. reflexivity.
        -- intros [rest H]. cbn in H. injection H as ->. exists rest. reflexivity.
      * rewrite (byte_eqb_neq c d Hc). split; [discriminate|].
        intros [rest H]. cbn in H. congruence.
Qed.

Lemma strcmp_eq_same_string m m' s name p p' :
  cstring_at m p s -> cstring_at m' p' s -> ~ In x00 s ->
  strcmp_eq name m p = strcmp_eq name m' p'.
Proof.
  intros H H' Hnul.
  pose proof (strcmp_eq_iff m s name p H Hnul) as E.
  pose proof (strcmp_eq_iff m' s name p' H' Hnul) as E'.
  destruct (strcmp_eq name m p), (strcmp_eq name m' p'); try reflexivity.
  - symmetry. apply E', E. reflexivity.
  - apply E, E'. reflexivity.
Qed.

Lemma load_store_bytes m p bs n :
  (n <= length bs)%nat -> load_bytes (store_bytes m p bs) p n = take n bs.
Proof.
  intros Hn. apply list_eq. intros i.
  unfold load_bytes. rewrite lookup_map.
  destruct (decide (i < n)%nat) as [Hi|Hi].
  - rewrite lookup_seq_lt by exact Hi. rewrite lookup_take_lt by exact Hi.
    cbn. unfold store_bytes.
    destruct (Z.leb_spec p (p + Z.of_nat i)); [|lia].
    destruct (Z.ltb_spec (p + Z.of_nat i) (p + Z.of_nat (length bs))); [|lia].
    cbn. replace (Z.to_nat (p + Z.of_nat i - p)) with i by lia.
    destruct (lookup_lt_is_Some_2 bs i ltac:(lia)) as [x Hx].
    rewrite Hx. f_equal. apply nth_lookup_Some with (d := m (p + Z.of_nat i)) in Hx.
    exact Hx.
  - rewrite lookup_seq_ge by lia. rewrite lookup_take_ge by lia. reflexivity.
Qed.

(** ** The file table *)

Lemma fs_lookup_from_Some b fs m p slot fl :
  fs_lookup_from b fs m p = Some (slot, fl) ->
  exists k, slot = (b + k)%nat /\ fs !! k = Some fl /\
            strcmp_eq (file_name fl) m p = true.
Proof.
  revert b. induction fs as [|a fs IH]; intros b H; cbn in H; [discriminate|].
  destruct (strcmp_eq (file_name a) m p) eqn:E.
  - injection H as <- <-. exists 0%nat. split; [lia|]. split; [reflexivity | exact E].
  - apply IH in H as (k & -> & Hk & Hm). exists (S k).
    split; [lia|]. split; [exact Hk | exact Hm].
Qed.

Lemma fs_lookup_from_exists b fs m p fl :
  In fl fs -> strcmp_eq (file_name fl) m p = true ->
  exists slot fl', fs_lookup_from b fs m p = Some (slot, fl').
Proof.
  revert b. induction fs as [|a fs IH]; intros b Hin Hm; [destruct Hin|].
  cbn. destruct (strcmp_eq (file_name a) m p) eqn:E; [eauto|].
  destruct Hin as [->|Hin]; [congruence|]. apply IH; assumption.
Qed.

Lemma fs_lookup_from_ext b fs m p m' p' :
  (forall name, strcmp_eq name m p = strcmp_eq name m' p') ->
  fs_lookup_from b fs m p = fs_lookup_from b fs m' p'.
Proof.
  intros Hext. revert b. induction fs as [|a fs IH]; intros b; cbn; [reflexivity|].
  rewrite Hext, IH. reflexivity.
Qed.

(** Rewriting a file in place, name untouched, does not change which slot
    a lookup finds. *)
Lemma fs_lookup_from_insert fs m p : forall b k fl fl',
  fs_lookup_from b fs m p = Some ((b + k)%nat, fl) ->
  file_name fl' = file_name fl ->
  fs_lookup_from b (<[ k := fl' ]> fs) m p = Some ((b + k)%nat, fl').
Proof.
  induction fs as [|a fs IH]; intros b k fl fl' H Hname; cbn in H; [discriminate|].
  destruct (strcmp_eq (file_name a) m p) eqn:E.
  - injection H as Hk <-. assert (k = 0%nat) as -> by lia.
    cbn. rewrite Hname, E, Nat.add_0_r. reflexivity.
  - pose proof (fs_lookup_from_Some _ _ _ _ _ _ H) as (k' & Hk & _).
    destruct k as [|k]; [lia|].
    cbn. rewrite E.
    replace (b + S k)%nat with (S b + k)%nat in * by lia.
    apply IH with (fl := fl); assumption.
Qed.

(** ** [SYS_READFILE] and [SYS_WRITEFILE] *)

Lemma handle_syscall_file st f :
  a3 f = SYS_READFILE \/ a3 f = SYS_WRITEFILE ->
  handle_syscall st f = sys_file st f.
Proof. intros [H|H]; unfold handle_syscall; rewrite H; reflexivity. Qed.

Lemma copy_or_fault_small {A : Type} dst src n (done : A) :
  n < 2 ^ 31 -> copy_or_fault dst src n done = Ret done.
Proof.
  intros H. unfold copy_or_fault.
  destruct (Z.leb_spec (2 ^ 31) n); [lia | reflexivity].
Qed.




Lemma hello_txt_no_nul : ~ In x00 hello_txt.
Proof. cbv. intuition discriminate. Qed.

Lemma memcpy_to_file_length data m buf n :
  length (memcpy_to_file data m buf n) = length data.
Proof.
  unfold memcpy_to_file, load_bytes.
  rewrite length_app, length_map, length_seq, length_drop. lia.
Qed.

Lemma memcpy_to_file_prefix data m buf (n : nat) :
  (n <= length data)%nat ->
  take n (memcpy_to_file data m buf (Z.of_nat n)) = load_bytes m buf n.
Proof.
  intros Hn. unfold memcpy_to_file. rewrite Nat2Z.id.
  replace (Nat.min n (length data)) with n by lia.
  apply take_app_length'. unfold load_bytes.
  rewrite length_map, length_seq. reflexivity.
Qed.

(** C1 (as amended): after [SYS_WRITEFILE("hello.txt", "world", 5)] on an
    existing file (5 bytes copied, [file->size = 5], table flushed), a
    [SYS_READFILE("hello.txt", buf, 100)] issued from any user memory on
    that file table returns 100 in [a0], the length that was asked for and
    that the capacity (at least 100) does not clamp, and the first 5 bytes
    of [buf] are "world". *)
Theorem writefile_then_readfile (st : kstate) (f : trap_frame) :
  100 <= FILE_DATA_SIZE < 2 ^ 31 ->
  files_wf (files st) ->
  a3 f = SYS_WRITEFILE -> a2 f = 5 ->
  cstring_at (umem st) (a0 f) hello_txt ->
  (exists fl, In fl (files st) /\ holds_cstring (file_name fl) hello_txt) ->
  load_bytes (umem st) (a1 f) 5 = world ->
  exists st1 f1 slot fl1,
    handle_syscall st f = Ret (st1, f1) /\
    a0 f1 = 5 /\
    files st1 !! slot = Some fl1 /\
    holds_cstring (file_name fl1) hello_txt /\
    file_size fl1 = 5 /\
    take 5 (file_data fl1) = world /\
    In (EvFlush (files st1)) (klog st1) /\
    forall str g,
      files str = files st1 ->
      a3 g = SYS_READFILE -> a2 g = 100 ->
      cstring_at (umem str) (a0 g) hello_txt ->
      exists st2 g2,
        handle_syscall str g = Ret (st2, g2) /\
        a0 g2 = 100 /\
        load_bytes (umem st2) (a1 g) 5 = world.
Proof.
  intros Hcap Hwf Hsys Hlen Hname (fl & Hin & Hfl) Hbuf.
  pose proof hello_txt_no_nul as Hnul.
  assert (Hm : strcmp_eq (file_name fl) (umem st) (a0 f) = true).
  { apply (strcmp_eq_iff _ hello_txt); assumption. }
  destruct (fs_lookup_from_exists 0 _ _ _ _ Hin Hm) as (slot & fl0 & Hlook).
  pose proof (fs_lookup_from_Some _ _ _ _ _ _ Hlook) as (k & Hk & Hfl0 & Hm0).
  cbn in Hk. subst slot.
  assert (Hname0 : holds_cstring (file_name fl0) hello_txt).
  { apply (strcmp_eq_iff (umem st) hello_txt _ (a0 f)); assumption. }
  assert (Hsz : Z.of_nat (length (file_data fl0)) = FILE_DATA_SIZE).
  { unfold files_wf in Hwf.
    exact (proj1 (Forall_lookup _ _) Hwf k fl0 Hfl0). }
  set (data1 := memcpy_to_file (file_data fl0) (umem st) (a1 f) 5).
  set (fl1 := set_file_contents fl0 data1 5).
  assert (Hdata1 : take 5 data1 = world).
  { unfold data1. rewrite <- Hbuf.
    apply (memcpy_to_file_prefix _ _ _ 5). lia. }
  assert (Hw : handle_syscall st f =
               Ret (fs_flush
                      (set_files
                         (log_event st (EvMemcpy (LocFileData k) (LocUser (a1 f)) 5))
                         (<[ k := fl1 ]> (files st))),
                    set_a0 f 5)).
  { rewrite (handle_syscall_file st f) by (right; exact Hsys).
    unfold sys_file, fs_lookup. rewrite Hlook, Hlen, Hsys.
    rewrite (to_int32_small FILE_DATA_SIZE) by lia.
    change (to_int32 5) with 5.
    destruct (Z.gtb_spec 5 FILE_DATA_SIZE) as [Hgt|_]; [lia|].
    reflexivity. }
  eexists _, _, k, fl1. split; [exact Hw|].
  split; [reflexivity|]. split.
  { cbn. apply list_lookup_insert_eq. apply lookup_lt_Some in Hfl0. exact Hfl0. }
  split; [exact Hname0|]. split; [reflexivity|]. split; [exact Hdata1|]. split.
  { cbn. apply in_or_app. right. left. reflexivity. }
  intros str g Hfiles Hsysg Hleng Hnameg.
  assert (Hlook' : fs_lookup str (a0 g) = Some (k, fl1)).
  { unfold fs_lookup. rewrite Hfiles. cbn [files fs_flush log_event set_klog set_files].
    rewrite (fs_lookup_from_ext 0 _ (umem str) (a0 g) (umem st) (a0 f)).
    - apply (fs_lookup_from_insert _ _ _ 0 k fl0 fl1); [exact Hlook | reflexivity].
    - intros name. apply (strcmp_eq_same_string _ _ hello_txt); assumption. }
  rewrite (handle_syscall_file str g) by (left; exact Hsysg).
  unfold sys_file. rewrite Hlook', Hleng, Hsysg.
  rewrite (to_int32_small FILE_DATA_SIZE) by lia.
  change (to_int32 100) with 100.
  destruct (Z.gtb_spec 100 FILE_DATA_SIZE) as [Hgt|_]; [lia|].
  change (SYS_READFILE =? SYS_WRITEFILE) with false. cbv iota.
  change (to_uint32 100) with 100.
  eexists _, _. split; [reflexivity|]. split; [reflexivity|].
  cbn [umem set_umem log_event set_klog]. unfold memcpy_to_user.
  rewrite load_store_bytes.
  - rewrite take_take. exact Hdata1.
  - rewrite length_take. cbn [file_data fl1 set_file_contents].
    unfold data1. rewrite memcpy_to_file_length. lia.
Qed.

(** ** The virtio-blk driver *)

Lemma virtq_init_bus st index paddr vq st' :
  virtq_init st index = Ret (paddr, vq, st') ->
  paddr = next_paddr st /\
  bus st' = bus st ++ [BusWrite VIRTIO_REG_QUEUE_SEL (to_uint32 index);
                       BusWrite VIRTIO_REG_QUEUE_NUM (to_uint32 VIRTQ_ENTRY_NUM);
                       BusWrite VIRTIO_REG_QUEUE_ALIGN 0;
                       BusWrite VIRTIO_REG_QUEUE_PFN (to_uint32 paddr)].
Proof.
  unfold virtq_init, alloc_pages. intros H.
  destruct (free_ram_end st <? _); [discriminate|].
  cbn in H. injection H as <- <- <-. split; [reflexivity|].
  cbn. rewrite <- !app_assoc. reflexivity.
Qed.

(** Whatever the device, the last write of [virtio_blk_init] to the status
    register stores [DRIVER_OK] alone. *)
Lemma virtio_blk_init_status st st' :
  virtio_blk_init st = Ret st' ->
  virtio_reg_read32 st' VIRTIO_REG_DEVICE_STATUS = VIRTIO_STATUS_DRIVER_OK.
Proof.
  unfold virtio_blk_init. intros H.
  repeat match type of H with
         | (if ?c then _ else _) = _ => destruct c; [discriminate|]
         end.
  apply bind_Ret_inv in H as ([[paddr vq] st1] & Hvq & H).
  cbn beta iota in H.
  unfold alloc_pages in H.
  match type of H with
  | context [if ?c then _ else _] => destruct c; [discriminate|]
  end.
  cbn in H. injection H as <-. reflexivity.
Qed.

(** The capacity that [virtio_blk_init] caches is a whole number of
    sectors. *)
Lemma virtio_blk_init_capacity st st' :
  virtio_blk_init st = Ret st' -> blk_capacity st' mod SECTOR_SIZE = 0.
Proof.
  unfold virtio_blk_init. intros H.
  repeat match type of H with
         | (if ?c then _ else _) = _ => destruct c; [discriminate|]
         end.
  apply bind_Ret_inv in H as ([[paddr vq] st1] & Hvq & H).
  cbn beta iota in H.
  unfold alloc_pages in H.
  match type of H with
  | context [if ?c then _ else _] => destruct c; [discriminate|]
  end.
  cbn in H. injection H as <-. cbn. unfold to_uint64.
  rewrite Z.mod_mod_divide by (exists (2 ^ 55); reflexivity).
  apply Z.mod_mul. discriminate.
Qed.

Lemma capacity_check st sector :
  blk_capacity st mod SECTOR_SIZE = 0 ->
  (blk_capacity st / SECTOR_SIZE <=? sector) = (blk_capacity st <=? sector * SECTOR_SIZE).
Proof.
  intros Hmod.
  pose proof (Z.div_mod (blk_capacity st) SECTOR_SIZE ltac:(discriminate)) as Hdm.
  rewrite Hmod in Hdm. unfold SECTOR_SIZE in *.
  destruct (Z.leb_spec (blk_capacity st / 512) sector),
           (Z.leb_spec (blk_capacity st) (sector * 512)); try reflexivity; lia.
Qed.

(** C7: a call of [read_write_disk] that does not complete successfully
    (sector out of range, or a non-zero status byte from the device)
    returns normally with the caller's buffer as it was and one line
    logged; an out-of-range request leaves the bus, the queue and the
    request buffer untouched. *)
Theorem read_write_disk_failure_keeps_buf
        (st : vstate) (buf : list byte) (sector is_write : Z) :
  blk_capacity st mod SECTOR_SIZE = 0 ->
  rw_unsuccessful st buf sector is_write ->
  exists st' fmt args,
    read_write_disk st buf sector is_write = Ret (st', buf) /\
    vlog st' = vlog st ++ [EvPrintf fmt args] /\
    (blk_capacity st <= sector * SECTOR_SIZE ->
     bus st' = bus st /\ mmio st' = mmio st /\
     blk_request_vq st' = blk_request_vq st /\ blk_req st' = blk_req st).
Proof.
  intros Hmod Hfail. unfold read_write_disk.
  rewrite (capacity_check st sector Hmod).
  destruct Hfail as [Hout | (Hin & st2 & Hdev & Hbusy & Hstatus)].
  - destruct (Z.leb_spec (blk_capacity st) (sector * SECTOR_SIZE)); [|lia].
    eexists _, _, _. split; [reflexivity|]. split; [reflexivity|].
    intros _. repeat split; reflexivity.
  - destruct (Z.leb_spec (blk_capacity st) (sector * SECTOR_SIZE)); [lia|].
    rewrite Hdev, Hbusy.
    destruct (Z.eqb_spec (req_status (blk_req st2)) 0); [contradiction|].
    cbn [negb]. eexists _, _, _. split; [reflexivity|].
    split; [|intros; lia].
    cbn [vlog vlog_event]. f_equal.
    unfold device_complete in Hdev. destruct (device _); [|discriminate].
    injection Hdev as <-. reflexivity.
Qed.

Lemma read_write_disk_in_range st buf sector is_write :
  sector < blk_capacity st / SECTOR_SIZE ->
  read_write_disk st buf sector is_write =
  match device_complete (rw_submit st buf sector is_write) with
  | None => Hang
  | Some st2 =>
      if virtq_is_busy (blk_request_vq st2) then Hang
      else if negb (req_status (blk_req st2) =? 0) then
        Ret (vlog_event st2
               (EvPrintf "virtio: warn: failed to read/write sector=%d status=%d\n"
                         [sector; req_status (blk_req st2)]),
             buf)
      else if is_write =? 0 then
        Ret (st2, memcpy_list buf (req_data (blk_req st2)) (Z.to_nat SECTOR_SIZE))
      else Ret (st2, buf)
  end.
Proof.
  intros Hin. unfold read_write_disk.
  destruct (Z.leb_spec (blk_capacity st / SECTOR_SIZE) sector); [lia|].
  reflexivity.
Qed.

(** After the device has completed a request, the queue differs from the
    submitted one in [used.index] only, and nothing more went over the
    bus. *)
Lemma device_complete_queue st1 st2 :
  device_complete st1 = Some st2 ->
  descs (blk_request_vq st2) = descs (blk_request_vq st1) /\
  avail_ring (blk_request_vq st2) = avail_ring (blk_request_vq st1) /\
  avail_index (blk_request_vq st2) = avail_index (blk_request_vq st1) /\
  last_used_index (blk_request_vq st2) = last_used_index (blk_request_vq st1) /\
  bus st2 = bus st1.
Proof.
  unfold device_complete. destruct (device _); [|discriminate].
  intros H. injection H as <-. repeat split; reflexivity.
Qed.

Lemma rw_submit_indices st buf sector is_write :
  last_used_index (blk_request_vq (rw_submit st buf sector is_write))
  = to_uint16 (last_used_index (blk_request_vq st) + 1) /\
  used_index (blk_request_vq (rw_submit st buf sector is_write))
  = used_index (blk_request_vq st).
Proof. split; reflexivity. Qed.

Lemma device_complete_indices st1 st2 :
  device_complete st1 = Some st2 ->
  last_used_index (blk_request_vq st2) = last_used_index (blk_request_vq st1) /\
  used_index (blk_request_vq st2) = to_uint16 (used_index (blk_request_vq st1) + 1).
Proof.
  unfold device_complete. destruct (device _); [|discriminate].
  intros H. injection H as <-. split; reflexivity.
Qed.

(** The queue and the bus when [virtq_kick] has returned. *)
Lemma rw_submit_descriptor_chain
      (st : vstate) (buf : list byte) (sector is_write : Z) :
  3 <= VIRTQ_ENTRY_NUM ->
  virtq_wf (blk_request_vq st) ->
  let vq := blk_request_vq st in
  let st1 := rw_submit st buf sector is_write in
  let vq1 := blk_request_vq st1 in
  descs vq1 !! 0%nat =
    Some {| desc_addr := to_uint32 (blk_req_paddr st);
            desc_len := 16;
            desc_flags := VIRTQ_DESC_F_NEXT;
            desc_next := 1 |} /\
  descs vq1 !! 1%nat =
    Some {| desc_addr := to_uint32 (blk_req_paddr st + BLK_REQ_OFFSET_DATA);
            desc_len := 512;
            desc_flags :=
              if is_write =? 0 then VIRTQ_DESC_F_NEXT + VIRTQ_DESC_F_WRITE
              else VIRTQ_DESC_F_NEXT;
            desc_next := 2 |} /\
  (exists d2,
      descs vq1 !! 2%nat = Some d2 /\
      desc_addr d2 = to_uint32 (blk_req_paddr st + BLK_REQ_OFFSET_STATUS) /\
      desc_len d2 = 1 /\
      desc_flags d2 = VIRTQ_DESC_F_WRITE) /\
  (forall j, (3 <= j)%nat -> descs vq1 !! j = descs vq !! j) /\
  avail_ring vq1 =
    <[ Z.to_nat (Z.rem (avail_index vq) VIRTQ_ENTRY_NUM) := 0 ]> (avail_ring vq) /\
  avail_ring vq1 !! Z.to_nat (Z.rem (avail_index vq) VIRTQ_ENTRY_NUM) = Some 0 /\
  avail_index vq1 = to_uint16 (avail_index vq + 1) /\
  bus st1 =
    bus st ++ [BusFence;
               BusWrite VIRTIO_REG_QUEUE_NOTIFY (to_uint32 (queue_index vq))] /\
  last_used_index vq1 = to_uint16 (last_used_index vq + 1).
Proof.
  intros HN (Hdescs & Hring & Hidx) vq st1 vq1.
  assert (Hds : exists d0 d1 d2 ds, descs vq = d0 :: d1 :: d2 :: ds).
  { subst vq. destruct (descs (blk_request_vq st)) as [|d0 [|d1 [|d2 ds]]];
      cbn in Hdescs; try lia. eauto. }
  destruct Hds as (d0 & d1 & d2 & ds & Hds).
  assert (Hdescs1 :
            descs vq1 =
            <[ 2%nat :=
                 {| desc_addr := to_uint32 (blk_req_paddr st + BLK_REQ_OFFSET_STATUS);
                    desc_len := 1;
                    desc_flags := VIRTQ_DESC_F_WRITE;
                    desc_next := desc_next d2 |} ]>
              (<[ 1%nat :=
                    {| desc_addr := to_uint32 (blk_req_paddr st + BLK_REQ_OFFSET_DATA);
                       desc_len := SECTOR_SIZE;
                       desc_flags :=
                         Z.lor VIRTQ_DESC_F_NEXT
                               (if is_write =? 0 then VIRTQ_DESC_F_WRITE else 0);
                       desc_next := 2 |} ]>
                 (<[ 0%nat :=
                       {| desc_addr := to_uint32 (blk_req_paddr st);
                          desc_len := BLK_REQ_HEADER_SIZE;
                          desc_flags := VIRTQ_DESC_F_NEXT;
                          desc_next := 1 |} ]> (descs vq)))).
  { subst vq1 st1 vq. unfold rw_submit, virtq_kick, rw_descs, rw_request.
    cbn [blk_request_vq set_blk_request_vq set_blk_req set_desc descs
         set_avail set_last_used_index sync_synchronize set_mmio
         virtio_reg_write32 blk_req_paddr].
    rewrite Hds. reflexivity. }
  rewrite Hdescs1, Hds.
  split; [reflexivity|]. split.
  { cbn. destruct (is_write =? 0); reflexivity. }
  split.
  { eexists. split; [reflexivity|]. repeat split. }
  split.
  { intros j Hj. do 3 (destruct j as [|j]; [lia|]). reflexivity. }
  assert (Hslot : (Z.to_nat (Z.rem (avail_index vq) VIRTQ_ENTRY_NUM)
                   < length (avail_ring vq))%nat).
  { pose proof (Z.rem_bound_pos (avail_index vq) VIRTQ_ENTRY_NUM Hidx ltac:(lia)).
    subst vq. lia. }
  split; [reflexivity|]. split.
  { subst vq1 st1. unfold rw_submit, virtq_kick. cbn.
    apply list_lookup_insert_eq. exact Hslot. }
  split; [reflexivity|]. split.
  { subst st1. unfold rw_submit, virtq_kick. cbn. rewrite <- app_assoc. reflexivity. }
  reflexivity.
Qed.

(** C8: an in-range call on an idle queue returns as soon as the device
    completes the request, and it has built the chain at slots 0, 1, 2
    (header, 16 bytes, NEXT, next 1; data, 512 bytes, NEXT and also WRITE
    exactly on a read, next 2; status byte, 1 byte, WRITE), stored head 0
    at [avail.ring[avail.index % N]], advanced [avail.index] by one,
    written the queue index to QUEUE_NOTIFY and advanced
    [last_used_index] by one (16-bit counters); the other descriptors are
    as before. When the device never completes the request the call
    never returns. *)
Theorem read_write_disk_descriptor_chain
        (st : vstate) (buf : list byte) (sector is_write : Z) :
  3 <= VIRTQ_ENTRY_NUM ->
  virtq_wf (blk_request_vq st) ->
  sector < blk_capacity st / SECTOR_SIZE ->
  last_used_index (blk_request_vq st) = used_index (blk_request_vq st) ->
  let vq := blk_request_vq st in
  (forall resp,
      device (blk_req (rw_submit st buf sector is_write)) = Some resp ->
      exists st' buf',
        read_write_disk st buf sector is_write = Ret (st', buf') /\
        descs (blk_request_vq st') !! 0%nat =
          Some {| desc_addr := to_uint32 (blk_req_paddr st);
                  desc_len := 16;
                  desc_flags := VIRTQ_DESC_F_NEXT;
                  desc_next := 1 |} /\
        descs (blk_request_vq st') !! 1%nat =
          Some {| desc_addr := to_uint32 (blk_req_paddr st + BLK_REQ_OFFSET_DATA);
                  desc_len := 512;
                  desc_flags :=
                    if is_write =? 0 then VIRTQ_DESC_F_NEXT + VIRTQ_DESC_F_WRITE
                    else VIRTQ_DESC_F_NEXT;
                  desc_next := 2 |} /\
        (exists d2,
            descs (blk_request_vq st') !! 2%nat = Some d2 /\
            desc_addr d2 = to_uint32 (blk_req_paddr st + BLK_REQ_OFFSET_STATUS) /\
            desc_len d2 = 1 /\
            desc_flags d2 = VIRTQ_DESC_F_WRITE) /\
        (forall j, (3 <= j)%nat ->
                   descs (blk_request_vq st') !! j = descs vq !! j) /\
        avail_ring (blk_request_vq st') =
          <[ Z.to_nat (Z.rem (avail_index vq) VIRTQ_ENTRY_NUM) := 0 ]>
            (avail_ring vq) /\
        avail_ring (blk_request_vq st')
          !! Z.to_nat (Z.rem (avail_index vq) VIRTQ_ENTRY_NUM) = Some 0 /\
        avail_index (blk_request_vq st') = to_uint16 (avail_index vq + 1) /\
        bus st' =
          bus st ++ [BusFence;
                     BusWrite VIRTIO_REG_QUEUE_NOTIFY (to_uint32 (queue_index vq))] /\
        last_used_index (blk_request_vq st') = to_uint16 (last_used_index vq + 1)) /\
  (device (blk_req (rw_submit st buf sector is_write)) = None ->
   read_write_disk st buf sector is_write = Hang).
Proof.
  intros HN Hwf Hin Hidle vq.
  pose proof (rw_submit_descriptor_chain st buf sector is_write HN Hwf)
    as (H0 & H1 & H2 & H3 & H4 & H5 & H6 & H7 & H8).
  rewrite (read_write_disk_in_range st buf sector is_write Hin).
  split.
  - intros resp Hresp.
    destruct (device_complete (rw_submit st buf sector is_write))
      as [st2|] eqn:Hdev;
      [|unfold device_complete in Hdev; rewrite Hresp in Hdev; discriminate].
    pose proof (device_complete_queue _ st2 Hdev) as (E1 & E2 & E3 & E4 & E5).
    pose proof (device_complete_indices _ st2 Hdev) as [_ Eu].
    assert (Hfree : virtq_is_busy (blk_request_vq st2) = false).
    { unfold virtq_is_busy. rewrite E4, Eu.
      destruct (rw_submit_indices st buf sector is_write) as [-> ->].
      rewrite Hidle, Z.eqb_refl. reflexivity. }
    rewrite Hfree.
    assert (Hall :
              forall (st' : vstate),
                blk_request_vq st' = blk_request_vq st2 -> bus st' = bus st2 ->
                descs (blk_request_vq st') !! 0%nat =
                  Some {| desc_addr := to_uint32 (blk_req_paddr st);
                          desc_len := 16;
                          desc_flags := VIRTQ_DESC_F_NEXT;
                          desc_next := 1 |} /\
                descs (blk_request_vq st') !! 1%nat =
                  Some {| desc_addr :=
                            to_uint32 (blk_req_paddr st + BLK_REQ_OFFSET_DATA);
                          desc_len := 512;
                          desc_flags :=
                            if is_write =? 0
                            then VIRTQ_DESC_F_NEXT + VIRTQ_DESC_F_WRITE
                            else VIRTQ_DESC_F_NEXT;
                          desc_next := 2 |} /\
                (exists d2,
                    descs (blk_request_vq st') !! 2%nat = Some d2 /\
                    desc_addr d2 =
                      to_uint32 (blk_req_paddr st + BLK_REQ_OFFSET_STATUS) /\
                    desc_len d2 = 1 /\
                    desc_flags d2 = VIRTQ_DESC_F_WRITE) /\
                (forall j, (3 <= j)%nat ->
                           descs (blk_request_vq st') !! j = descs vq !! j) /\
                avail_ring (blk_request_vq st') =
                  <[ Z.to_nat (Z.rem (avail_index vq) VIRTQ_ENTRY_NUM) := 0 ]>
                    (avail_ring vq) /\
                avail_ring (blk_request_vq st')
                  !! Z.to_nat (Z.rem (avail_index vq) VIRTQ_ENTRY_NUM) = Some 0 /\
                avail_index (blk_request_vq st') = to_uint16 (avail_index vq + 1) /\
                bus st' =
                  bus st ++ [BusFence;
                             BusWrite VIRTIO_REG_QUEUE_NOTIFY
                                      (to_uint32 (queue_index vq))] /\
                last_used_index (blk_request_vq st')
                = to_uint16 (last_used_index vq + 1)).
    { intros st' Hq Hb. rewrite Hq, Hb, E1, E2, E3, E4, E5.
      repeat split; assumption. }
    destruct (negb (req_status (blk_req st2) =? 0));
      [|destruct (is_write =? 0)];
      eexists _, _; (split; [reflexivity|]); apply Hall; reflexivity.
  - intros Hnone. unfold device_complete. rewrite Hnone. reflexivity.
Qed.

(** ** When a system call returns *)

Lemma getchar_poll_result input : forall st f st' f',
  getchar_poll input st f = Ret (st', f') ->
  exists ch, In ch input /\ 0 <= ch /\ f' = set_a0 f (to_uint32 ch).
Proof.
  induction input as [|ch rest IH]; intros st f st' f' H; cbn in H;
    [discriminate|].
  destruct (Z.leb_spec 0 ch) as [Hch|Hch].
  - injection H as <- <-. exists ch. split; [left; reflexivity|]. auto.
  - apply bind_Ret_inv in H as (st1 & _ & H).
    apply IH in H as (c & Hin & Hc & ->).
    exists c. split; [right; exact Hin|]. auto.
Qed.

Lemma sys_exit_no_return st r : sys_exit st <> Ret r.
Proof.
  unfold sys_exit. destruct (procs st !! current_proc st); [|discriminate].
  intros H. apply bind_Ret_inv in H as (st1 & _ & H). discriminate.
Qed.

(** X1: [handle_syscall] returns to its caller only for the numbers 1 to
    4: [SYS_EXIT] and every unknown number end in a panic or never come
    back; an unknown number panics at once. *)
Theorem handle_syscall_returns_only_for_known_calls
        (st : kstate) (f : trap_frame) :
  (forall r, handle_syscall st f = Ret r ->
             a3 f = SYS_PUTCHAR \/ a3 f = SYS_GETCHAR \/
             a3 f = SYS_READFILE \/ a3 f = SYS_WRITEFILE) /\
  (~ (1 <= a3 f <= 5) ->
   handle_syscall st f = Panic "unexpected syscall a3=%x\n" [a3 f]).
Proof.
  unfold handle_syscall. split.
  - intros r H.
    destruct (Z.eqb_spec (a3 f) SYS_PUTCHAR); [auto|].
    destruct (Z.eqb_spec (a3 f) SYS_GETCHAR); [auto|].
    destruct (Z.eqb_spec (a3 f) SYS_READFILE); [auto|].
    destruct (Z.eqb_spec (a3 f) SYS_WRITEFILE); [auto 6|].
    cbn [orb] in H.
    destruct (a3 f =? SYS_EXIT).
    + exfalso. exact (sys_exit_no_return _ _ H).
    + discriminate.
  - intros Hn.
    unfold SYS_PUTCHAR, SYS_GETCHAR, SYS_READFILE, SYS_WRITEFILE, SYS_EXIT.
    destruct (Z.eqb_spec (a3 f) 1); [lia|].
    destruct (Z.eqb_spec (a3 f) 2); [lia|].
    destruct (Z.eqb_spec (a3 f) 3); [lia|].
    destruct (Z.eqb_spec (a3 f) 4); [lia|].
    destruct (Z.eqb_spec (a3 f) 5); [lia|].
    reflexivity.
Qed.

(** X2: [SYS_GETCHAR] hands back a value that [getchar] delivered and
    that is not negative; when a character is there at the first poll it
    returns without yielding, and the only change to the state is that
    the character is consumed. *)
Theorem getchar_returns_polled_character (st : kstate) (f : trap_frame) :
  a3 f = SYS_GETCHAR ->
  (forall st' f',
      handle_syscall st f = Ret (st', f') ->
      exists ch, In ch (console_in st) /\ 0 <= ch /\ a0 f' = to_uint32 ch) /\
  (forall ch rest,
      console_in st = ch :: rest -> 0 <= ch ->
      handle_syscall st f = Ret (set_console_in st rest, set_a0 f (to_uint32 ch))) /\
  (console_in st = [] -> handle_syscall st f = Hang).
Proof.
  intros Hsys. unfold handle_syscall. rewrite Hsys.
  change (SYS_GETCHAR =? SYS_PUTCHAR) with false.
  change (SYS_GETCHAR =? SYS_GETCHAR) with true. cbv iota.
  split; [|split].
  - intros st' f' H. apply getchar_poll_result in H as (ch & Hin & Hch & ->).
    exists ch. auto.
  - intros ch rest Hin Hch. rewrite Hin. cbn.
    destruct (Z.leb_spec 0 ch); [reflexivity | lia].
  - intros ->. reflexivity.
Qed.

Lemma fs_lookup_from_None b fs m p :
  (forall fl, In fl fs -> strcmp_eq (file_name fl) m p = false) ->
  fs_lookup_from b fs m p = None.
Proof.
  revert b. induction fs as [|a fs IH]; intros b H; cbn; [reflexivity|].
  rewrite (H a) by (left; reflexivity).
  apply IH. intros fl Hfl. apply H. right. exact Hfl.
Qed.

(** X3: [SYS_READFILE] or [SYS_WRITEFILE] with a name that no file of the
    table holds returns -1 in [a0] (as a 32-bit word), prints one line,
    and leaves the file table and the user memory as they were; nothing
    is flushed. *)
Theorem file_syscall_missing_file
        (st : kstate) (f : trap_frame) (s : list byte) :
  a3 f = SYS_READFILE \/ a3 f = SYS_WRITEFILE ->
  cstring_at (umem st) (a0 f) s -> ~ In x00 s ->
  (forall fl, In fl (files st) -> ~ holds_cstring (file_name fl) s) ->
  exists st',
    handle_syscall st f = Ret (st', set_a0 f (2 ^ 32 - 1)) /\
    files st' = files st /\ umem st' = umem st /\
    klog st' = klog st ++ [EvPrintf "file not found: %s\n" [a0 f]].
Proof.
  intros Hsys Hstr Hnul Hnone.
  rewrite (handle_syscall_file st f Hsys). unfold sys_file, fs_lookup.
  rewrite fs_lookup_from_None.
  - eexists. split; [reflexivity|]. repeat split.
  - intros fl Hfl.
    destruct (strcmp_eq (file_name fl) (umem st) (a0 f)) eqn:E; [|reflexivity].
    exfalso. apply (Hnone fl Hfl).
    apply (strcmp_eq_iff (umem st) s _ (a0 f)); assumption.
Qed.

(** X4: a length above the capacity (and positive as an [int]) is
    replaced by the current size of the file: [a0] receives the size, a
    read copies the first [size] bytes of the file, and a write keeps
    [file->size] as it was. *)
Theorem file_syscall_clamps_to_size
        (st : kstate) (f : trap_frame) (slot : nat) (fl : file) :
  a3 f = SYS_READFILE \/ a3 f = SYS_WRITEFILE ->
  0 <= FILE_DATA_SIZE < 2 ^ 31 ->
  fs_lookup st (a0 f) = Some (slot, fl) ->
  FILE_DATA_SIZE < a2 f < 2 ^ 31 ->
  0 <= file_size fl < 2 ^ 31 ->
  exists st' f',
    handle_syscall st f = Ret (st', f') /\
    a0 f' = file_size fl /\
    (a3 f = SYS_READFILE ->
     umem st' = store_bytes (umem st) (a1 f)
                            (take (Z.to_nat (file_size fl)) (file_data fl))) /\
    (a3 f = SYS_WRITEFILE ->
     exists fl', files st' !! slot = Some fl' /\
                 file_size fl' = file_size fl /\
                 file_data fl' =
                 memcpy_to_file (file_data fl) (umem st) (a1 f) (file_size fl)).
Proof.
  intros Hsys Hcap Hfile Hlen Hsize.
  rewrite (handle_syscall_file st f Hsys). unfold sys_file. rewrite Hfile.
  rewrite (to_int32_small FILE_DATA_SIZE) by lia.
  rewrite (to_int32_small (a2 f)) by lia.
  destruct (Z.gtb_spec (a2 f) FILE_DATA_SIZE) as [_|Hle]; [|lia].
  rewrite (to_int32_small (file_size fl)) by lia.
  rewrite (to_uint32_small (file_size fl)) by lia.
  rewrite !copy_or_fault_small by lia.
  destruct Hsys as [Hr|Hw].
  - rewrite Hr. change (SYS_READFILE =? SYS_WRITEFILE) with false.
    eexists _, _. split; [reflexivity|]. split; [reflexivity|]. split.
    + intros _. reflexivity.
    + intros Hw. discriminate.
  - rewrite Hw. change (SYS_WRITEFILE =? SYS_WRITEFILE) with true.
    eexists _, _. split; [reflexivity|]. split; [reflexivity|]. split.
    + intros Hr. discriminate.
    + intros _. cbn.
      unfold fs_lookup in Hfile.
      apply fs_lookup_from_Some in Hfile as (k & -> & Hk & _).
      eexists. split.
      * apply list_lookup_insert_eq. apply lookup_lt_Some in Hk. exact Hk.
      * split; reflexivity.
Qed.

Lemma load_bytes_length m p n : length (load_bytes m p n) = n.
Proof. unfold load_bytes. rewrite length_map, length_seq. reflexivity. Qed.

(** X6: write then read, for any file name, any bytes that fit the
    capacity and any read length from the number of bytes written up to
    the capacity: the write returns the number of bytes, and a later read
    on that file table, from any user memory, returns the length asked
    for and delivers the written bytes at the start of the buffer. *)
Theorem writefile_readfile_round_trip
        (st : kstate) (f : trap_frame) (s bs : list byte) :
  Z.of_nat (length bs) <= FILE_DATA_SIZE < 2 ^ 31 ->
  files_wf (files st) ->
  a3 f = SYS_WRITEFILE -> a2 f = Z.of_nat (length bs) ->
  cstring_at (umem st) (a0 f) s -> ~ In x00 s ->
  (exists fl, In fl (files st) /\ holds_cstring (file_name fl) s) ->
  load_bytes (umem st) (a1 f) (length bs) = bs ->
  exists st1 f1,
    handle_syscall st f = Ret (st1, f1) /\
    a0 f1 = Z.of_nat (length bs) /\
    forall str g,
      files str = files st1 ->
      a3 g = SYS_READFILE ->
      Z.of_nat (length bs) <= a2 g <= FILE_DATA_SIZE ->
      cstring_at (umem str) (a0 g) s ->
      exists st2 g2,
        handle_syscall str g = Ret (st2, g2) /\
        a0 g2 = a2 g /\
        load_bytes (umem st2) (a1 g) (length bs) = bs.
Proof.
  intros Hcap Hwf Hsys Hlen Hname Hnul (fl & Hin & Hfl) Hbuf.
  set (n := length bs) in *.
  assert (Hm : strcmp_eq (file_name fl) (umem st) (a0 f) = true).
  { apply (strcmp_eq_iff _ s); assumption. }
  destruct (fs_lookup_from_exists 0 _ _ _ _ Hin Hm) as (slot & fl0 & Hlook).
  pose proof (fs_lookup_from_Some _ _ _ _ _ _ Hlook) as (k & Hk & Hfl0 & Hm0).
  cbn in Hk. subst slot.
  assert (Hsz : Z.of_nat (length (file_data fl0)) = FILE_DATA_SIZE).
  { exact (proj1 (Forall_lookup _ _) Hwf k fl0 Hfl0). }
  set (data1 := memcpy_to_file (file_data fl0) (umem st) (a1 f) (Z.of_nat n)).
  set (fl1 := set_file_contents fl0 data1 (Z.of_nat n)).
  assert (Hdata1 : take n data1 = bs).
  { unfold data1. rewrite <- Hbuf. apply memcpy_to_file_prefix. lia. }
  assert (Hw : handle_syscall st f =
               Ret (fs_flush
                      (set_files
                         (log_event st
                            (EvMemcpy (LocFileData k) (LocUser (a1 f)) (Z.of_nat n)))
                         (<[ k := fl1 ]> (files st))),
                    set_a0 f (Z.of_nat n))).
  { rewrite (handle_syscall_file st f) by (right; exact Hsys).
    unfold sys_file, fs_lookup. rewrite Hlook, Hlen, Hsys.
    rewrite (to_int32_small FILE_DATA_SIZE) by lia.
    rewrite (to_int32_small (Z.of_nat n)) by lia.
    destruct (Z.gtb_spec (Z.of_nat n) FILE_DATA_SIZE) as [Hgt|_]; [lia|].
    rewrite (to_uint32_small (Z.of_nat n)) by lia.
    rewrite !copy_or_fault_small by lia.
    reflexivity. }
  eexists _, _. split; [exact Hw|]. split; [reflexivity|].
  intros str g Hfiles Hsysg Hleng Hnameg.
  assert (Hlook' : fs_lookup str (a0 g) = Some (k, fl1)).
  { unfold fs_lookup. rewrite Hfiles.
    cbn [files fs_flush log_event set_klog set_files].
    rewrite (fs_lookup_from_ext 0 _ (umem str) (a0 g) (umem st) (a0 f)).
    - apply (fs_lookup_from_insert _ _ _ 0 k fl0 fl1); [exact Hlook | reflexivity].
    - intros name. apply (strcmp_eq_same_string _ _ s); assumption. }
  rewrite (handle_syscall_file str g) by (left; exact Hsysg).
  unfold sys_file. rewrite Hlook', Hsysg.
  rewrite (to_int32_small FILE_DATA_SIZE) by lia.
  rewrite (to_int32_small (a2 g)) by lia.
  destruct (Z.gtb_spec (a2 g) FILE_DATA_SIZE) as [Hgt|_]; [lia|].
  rewrite (to_uint32_small (a2 g)) by lia.
  change (SYS_READFILE =? SYS_WRITEFILE) with false. cbv iota.
  rewrite !copy_or_fault_small by lia.
  eexists _, _. split; [reflexivity|]. split; [reflexivity|].
  cbn [umem set_umem log_event set_klog]. unfold memcpy_to_user.
  rewrite load_store_bytes.
  - rewrite take_take. replace (Nat.min n (Z.to_nat (a2 g))) with n by lia.
    exact Hdata1.
  - rewrite length_take. cbn [file_data fl1 set_file_contents].
    unfold data1. rewrite memcpy_to_file_length. lia.
Qed.

(** ** [kernel_entry] around a system call *)

Lemma kernel_stack_top_restored k :
  0 <= k < 2 ^ 32 -> to_uint32 (to_uint32 (k - 4 * 31) + 4 * 31) = k.
Proof.
  intros Hk. unfold to_uint32.
  rewrite Z.add_mod_idemp_l by lia.
  replace (k - 4 * 31 + 4 * 31) with k by lia.
  apply Z.mod_small. exact Hk.
Qed.

(** X8: the whole effect of a [SYS_PUTCHAR] trap, a call that
    dereferences no pointer: [kernel_entry] returns with every register as
    it was, and the kernel state differs from the state at the trap in the
    character sent to the console and in [sepc], advanced by 4. In
    particular the exchange of [sp] and [sscratch] is undone: [sscratch]
    again holds the top of the kernel stack for the next trap, and the
    current process, the process table and [satp] are untouched. *)
Theorem kernel_entry_putchar_effect (st : kstate) (regs : trap_frame) :
  csr_scause st = SCAUSE_ECALL ->
  a3 regs = SYS_PUTCHAR ->
  0 <= csr_sscratch st < 2 ^ 32 ->
  kernel_entry st regs =
  Ret (set_csr_sepc (putchar st (a0 regs)) (to_uint32 (csr_sepc st + 4)), regs).
Proof.
  intros Hcause Hsys Hk. unfold kernel_entry.
  cbn [csr_sscratch set_csr_sscratch]. rewrite set_sp_same.
  rewrite (kernel_stack_top_restored _ Hk).
  rewrite handle_trap_ecall by exact Hcause.
  rewrite handle_syscall_putchar by exact Hsys.
  destruct st. reflexivity.
Qed.

(** ** More on the scheduler *)

Lemma mod_wrap_once n x :
  0 < n -> 0 <= x < 2 * n -> x mod n = if x <? n then x else x - n.
Proof.
  intros Hn Hx. destruct (Z.ltb_spec x n).
  - apply Z.mod_small. lia.
  - replace x with (x - n + 1 * n) at 1 by lia.
    rewrite Z.mod_add by lia. apply Z.mod_small. lia.
Qed.

Lemma find_position {A} (P : A -> bool) (l : list A) (x : A) :
  List.find P l = Some x ->
  exists i, l !! i = Some x /\ P x = true /\
            forall j y, (j < i)%nat -> l !! j = Some y -> P y = false.
Proof.
  induction l as [|a l IH]; intros H; cbn in H; [discriminate|].
  destruct (P a) eqn:Pa.
  - injection H as <-. exists 0%nat. split; [reflexivity|]. split; [exact Pa|].
    intros j y Hj. lia.
  - destruct (IH H) as (i & Hi & Px & Hlt). exists (S i).
    split; [exact Hi|]. split; [exact Px|].
    intros [|j] y Hj Hy.
    + injection Hy as <-. exact Pa.
    + apply (Hlt j y); [lia | exact Hy].
Qed.

Lemma find_all_false {A} (P : A -> bool) (l : list A) :
  (forall y, In y l -> P y = false) -> List.find P l = None.
Proof.
  induction l as [|a l IH]; intros H; cbn; [reflexivity|].
  rewrite (H a) by (left; reflexivity).
  apply IH. intros y Hy. apply H. right. exact Hy.
Qed.

(** X9: [yield] only ever selects a process that is RUNNABLE with
    [pid > 0], or else the idle process; a slot that is UNUSED or EXITED
    is selected only if it is the idle slot. With no candidate at all it
    selects the idle process. *)
Theorem yield_selects_candidate_or_idle (st : kstate) (cur : process) :
  0 < PROCS_MAX ->
  length (procs st) = Z.to_nat PROCS_MAX ->
  procs st !! current_proc st = Some cur ->
  0 <= pid cur ->
  exists k,
    yield_next st = Some k /\
    (k = idle_proc st \/
     exists q, procs st !! k = Some q /\ state q = PROC_RUNNABLE /\ 0 < pid q) /\
    ((forall j p, procs st !! j = Some p -> is_candidate p = false) ->
     k = idle_proc st).
Proof.
  intros Hpos Hlen Hcur Hpid.
  rewrite (yield_next_find Hpos st cur) by assumption.
  destruct (List.find (slot_is_candidate (procs st)) (scan_order (pid cur)))
    as [idx|] eqn:Hfind.
  - apply find_some in Hfind as [_ Hc].
    unfold slot_is_candidate in Hc.
    destruct (procs st !! Z.to_nat idx) as [q|] eqn:Hq; [|discriminate].
    exists (Z.to_nat idx). split; [reflexivity|]. split.
    + right. exists q. split; [exact Hq|].
      unfold is_candidate in Hc. apply andb_true_iff in Hc as [Hc1 Hc2].
      apply Z.ltb_lt in Hc2.
      split; [destruct (state q); simpl in Hc1; congruence | exact Hc2].
    + intros Hnone. rewrite (Hnone _ _ Hq) in Hc. discriminate.
  - exists (idle_proc st). split; [reflexivity|]. split; [left; reflexivity|].
    intros _. reflexivity.
Qed.

(** X10: a process that is alone (no other slot is RUNNABLE with
    [pid > 0]) and is itself a candidate, or is the idle process, gets
    the processor back at once: [yield] returns without a switch and the
    state is untouched. *)
Theorem yield_alone_returns (st : kstate) (cur : process) :
  0 < PROCS_MAX ->
  length (procs st) = Z.to_nat PROCS_MAX ->
  procs st !! current_proc st = Some cur ->
  0 <= pid cur ->
  (forall j p, j <> current_proc st -> procs st !! j = Some p ->
               is_candidate p = false) ->
  is_candidate cur = true \/ idle_proc st = current_proc st ->
  yield st = Ret st.
Proof.
  intros Hpos Hlen Hcur Hpid Hothers Hme.
  assert (Hnext : yield_next st = Some (current_proc st)).
  { rewrite (yield_next_find Hpos st cur) by assumption. f_equal.
    destruct (List.find (slot_is_candidate (procs st)) (scan_order (pid cur)))
      as [idx|] eqn:Hfind.
    - apply find_some in Hfind as [_ Hc].
      unfold slot_is_candidate in Hc.
      destruct (procs st !! Z.to_nat idx) as [q|] eqn:Hq; [|discriminate].
      destruct (decide (Z.to_nat idx = current_proc st)) as [E|E]; [exact E|].
      rewrite (Hothers _ _ E Hq) in Hc. discriminate.
    - destruct Hme as [Hme|Hme]; [|exact Hme]. exfalso.
      pose proof (lookup_lt_Some _ _ _ Hcur) as Hlt.
      assert (Hin : In (Z.of_nat (current_proc st)) (scan_order (pid cur))).
      { apply scan_order_covers; lia. }
      pose proof (find_none _ _ Hfind _ Hin) as Hno.
      unfold slot_is_candidate in Hno. rewrite Nat2Z.id, Hcur in Hno.
      congruence. }
  unfold yield. rewrite Hnext, Nat.eqb_refl. reflexivity.
Qed.

(** X11: round-robin order. When the current process sits in slot [c]
    and has [pid = c + 1] (the numbering of [create_process]), the slots
    are examined in cyclic order starting right after [c], with [c]
    itself last: no slot strictly between [c] and the selected slot is a
    candidate, and the current process is selected again only if no
    other slot is a candidate. *)
Theorem yield_round_robin_order (st : kstate) (cur : process) (k : nat) :
  0 < PROCS_MAX ->
  length (procs st) = Z.to_nat PROCS_MAX ->
  procs st !! current_proc st = Some cur ->
  pid cur = Z.of_nat (current_proc st) + 1 ->
  yield_next st = Some k ->
  let c := Z.of_nat (current_proc st) in
  let dist := if decide (k = current_proc st) then PROCS_MAX
              else (Z.of_nat k - c) mod PROCS_MAX in
  forall d, 1 <= d < dist ->
            slot_is_candidate (procs st) ((c + d) mod PROCS_MAX) = false.
Proof.
  intros Hpos Hlen Hcur Hpid Hnext c dist d Hd.
  pose proof (lookup_lt_Some _ _ _ Hcur) as Hclt.
  rewrite (yield_next_find Hpos st cur) in Hnext by (auto; lia).
  assert (Hdlt : d < PROCS_MAX).
  { subst dist. destruct (decide (k = current_proc st)); [lia|].
    pose proof (Z.mod_pos_bound (Z.of_nat k - c) PROCS_MAX Hpos). lia. }
  assert (Hslot : scan_order (pid cur) !! Z.to_nat (d - 1)
                  = Some ((c + d) mod PROCS_MAX)).
  { rewrite scan_order_lookup by lia. f_equal.
    rewrite Z.rem_mod_nonneg by lia. f_equal. subst c. lia. }
  destruct (List.find (slot_is_candidate (procs st)) (scan_order (pid cur)))
    as [idx|] eqn:Hfind.
  - injection Hnext as Hk.
    apply find_position in Hfind as (i & Hi & _ & Hbefore).
    apply scan_order_lookup_inv in Hi as [Hidx Hilt].
    rewrite Z.rem_mod_nonneg in Hidx by lia.
    apply (Hbefore (Z.to_nat (d - 1)) _); [|exact Hslot].
    assert (Hidx' : idx = (c + (1 + Z.of_nat i)) mod PROCS_MAX).
    { rewrite Hidx. f_equal. subst c. lia. }
    assert (Hkz : Z.of_nat k = idx).
    { rewrite <- Hk. apply Z2Nat.id. rewrite Hidx'.
      apply Z.mod_pos_bound. exact Hpos. }
    assert (Hcr : 0 <= c < PROCS_MAX) by (subst c; lia).
    rewrite (mod_wrap_once PROCS_MAX (c + (1 + Z.of_nat i))) in Hidx' by lia.
    subst dist. destruct (decide (k = current_proc st)) as [E|E].
    + assert (Hc : idx = c) by (subst c; lia).
      destruct (Z.ltb_spec (c + (1 + Z.of_nat i)) PROCS_MAX); lia.
    + assert (Hne : idx <> c) by (subst c; lia).
      assert (Hdist : (Z.of_nat k - c) mod PROCS_MAX = 1 + Z.of_nat i).
      { rewrite Hkz.
        destruct (Z.ltb_spec (c + (1 + Z.of_nat i)) PROCS_MAX).
        - rewrite Hidx'.
          replace (c + (1 + Z.of_nat i) - c) with (1 + Z.of_nat i) by lia.
          apply Z.mod_small. lia.
        - rewrite Hidx'.
          replace (c + (1 + Z.of_nat i) - PROCS_MAX - c)
            with (1 + Z.of_nat i + (-1) * PROCS_MAX) by lia.
          rewrite Z.mod_add by lia. apply Z.mod_small. lia. }
      lia.
  - apply (find_none _ _ Hfind).
    apply list_elem_of_In, list_elem_of_lookup. eauto.
Qed.

(** X12: [SYS_EXIT] prints one line, marks the calling process EXITED
    and gives the processor away for good. For a caller other than the
    idle process whose table has an idle slot, the scheduler selects a
    process other than the caller (a RUNNABLE one with [pid > 0], or the
    idle process), [sscratch] is set to the top of the selected process's
    kernel stack, and the call never returns to the caller: if control
    ever comes back to this path the kernel panics with "unreachable". *)
Theorem exit_gives_up_processor (st : kstate) (f : trap_frame) (cur : process) :
  a3 f = SYS_EXIT ->
  0 < PROCS_MAX ->
  length (procs st) = Z.to_nat PROCS_MAX ->
  procs st !! current_proc st = Some cur ->
  0 <= pid cur ->
  idle_proc st <> current_proc st ->
  is_Some (procs st !! idle_proc st) ->
  exists k np st1,
    k <> current_proc st /\
    procs st !! k = Some np /\
    (k = idle_proc st \/ (state np = PROC_RUNNABLE /\ 0 < pid np)) /\
    procs st1 = <[ current_proc st := set_state cur PROC_EXITED ]> (procs st) /\
    klog st1 = klog st ++ [EvPrintf "process %d exited\n" [pid cur]] /\
    current_proc st1 = k /\
    csr_sscratch st1 = to_uint32 (stack_top np) /\
    handle_syscall st f
    = (switch_context st1 ≫= fun _ => Panic "unreachable" []).
Proof.
  intros Ha3 Hpos Hlen Hcur Hpid Hidle [ip Hip].
  unfold handle_syscall. rewrite Ha3.
  change (SYS_EXIT =? SYS_PUTCHAR) with false.
  change (SYS_EXIT =? SYS_GETCHAR) with false.
  change ((SYS_EXIT =? SYS_READFILE) || (SYS_EXIT =? SYS_WRITEFILE)) with false.
  change (SYS_EXIT =? SYS_EXIT) with true. cbv iota.
  unfold sys_exit. rewrite Hcur.
  cbn [procs current_proc log_event set_klog].
  set (ps2 := <[ current_proc st := set_state cur PROC_EXITED ]> (procs st)).
  set (st2 := set_procs _ ps2).
  pose proof (lookup_lt_Some _ _ _ Hcur) as Hclt.
  assert (Hcur2 : procs st2 !! current_proc st2 = Some (set_state cur PROC_EXITED)).
  { apply list_lookup_insert_eq. exact Hclt. }
  assert (Hlen2 : length (procs st2) = Z.to_nat PROCS_MAX).
  { unfold st2, ps2. cbn [procs set_procs]. rewrite length_insert. exact Hlen. }
  assert (Hnext : exists k np,
             yield_next st2 = Some k /\ k <> current_proc st /\
             procs st !! k = Some np /\
             (k = idle_proc st \/ (state np = PROC_RUNNABLE /\ 0 < pid np))).
  { rewrite (yield_next_find Hpos st2 _ Hlen2 Hcur2 Hpid).
    cbn [pid set_state].
    destruct (List.find (slot_is_candidate (procs st2)) (scan_order (pid cur)))
      as [idx|] eqn:Hfind.
    - apply find_some in Hfind as [_ Hc].
      unfold slot_is_candidate in Hc.
      destruct (procs st2 !! Z.to_nat idx) as [q|] eqn:Hq; [|discriminate].
      assert (Hne : Z.to_nat idx <> current_proc st).
      { intros E. rewrite E in Hq.
        change (current_proc st) with (current_proc st2) in Hq.
        rewrite Hcur2 in Hq. injection Hq as <-. discriminate. }
      exists (Z.to_nat idx), q. split; [reflexivity|]. split; [exact Hne|].
      split.
      + unfold st2, ps2 in Hq. cbn [procs set_procs] in Hq.
        rewrite list_lookup_insert_ne in Hq by congruence. exact Hq.
      + right. unfold is_candidate in Hc.
        apply andb_true_iff in Hc as [Hc1 Hc2]. apply Z.ltb_lt in Hc2.
        split; [destruct (state q); simpl in Hc1; congruence | exact Hc2].
    - exists (idle_proc st), ip. split; [reflexivity|]. split; [exact Hidle|].
      split; [exact Hip | left; reflexivity]. }
  destruct Hnext as (k & np & Hk & Hne & Hnp & Hsel).
  assert (Hnp2 : procs st2 !! k = Some np).
  { unfold st2, ps2. cbn [procs set_procs].
    rewrite list_lookup_insert_ne by congruence. exact Hnp. }
  unfold yield. rewrite Hk.
  change (current_proc st2) with (current_proc st).
  destruct (Nat.eqb_spec k (current_proc st)) as [E|_]; [contradiction|].
  rewrite Hnp2.
  eexists k, np, _.
  split; [exact Hne|]. split; [exact Hnp|]. split; [exact Hsel|].
  split; [|split; [|split; [|split; [|reflexivity]]]]; reflexivity.
Qed.

(** ** More on the virtio-blk driver *)








(** X14: whenever [read_write_disk] returns, on success or failure, the
    queue is left idle and well formed, and the cached capacity and the
    address of the request buffer are unchanged: the driver is ready for
    the next call. *)
Theorem read_write_disk_keeps_driver_ready
        (st st' : vstate) (buf buf' : list byte) (sector is_write : Z) :
  0 < VIRTQ_ENTRY_NUM ->
  virtq_wf (blk_request_vq st) ->
  virtq_idle (blk_request_vq st) ->
  read_write_disk st buf sector is_write = Ret (st', buf') ->
  virtq_wf (blk_request_vq st') /\
  virtq_idle (blk_request_vq st') /\
  blk_capacity st' = blk_capacity st /\
  blk_req_paddr st' = blk_req_paddr st.
Proof.
  intros HN (Hd & Hr & Hi) [Hidle Hused] Hret.
  unfold read_write_disk in Hret.
  destruct (blk_capacity st / SECTOR_SIZE <=? sector).
  { injection Hret as <- <-. cbn. repeat split; auto; lia. }
  destruct (device_complete _) as [st2|] eqn:Hdev; [|discriminate].
  pose proof (device_complete_queue _ _ Hdev) as (E1 & E2 & E3 & E4 & _).
  pose proof (device_complete_indices _ _ Hdev) as (E5 & E6).
  assert (Hcfg : blk_capacity st2 = blk_capacity st /\
                 blk_req_paddr st2 = blk_req_paddr st).
  { unfold device_complete in Hdev. destruct (device _); [|discriminate].
    injection Hdev as <-. split; reflexivity. }
  destruct Hcfg as [Hcap Hpaddr].
  unfold virtq_is_busy in Hret.
  destruct (Z.eqb_spec (last_used_index (blk_request_vq st2))
                       (used_index (blk_request_vq st2))) as [Heq|];
    [|discriminate].
  cbn [negb] in Hret.
  assert (Hwf2 : virtq_wf (blk_request_vq st2)).
  { unfold virtq_wf. rewrite E1, E2, E3. split; [|split].
    - cbn. rewrite !length_insert. exact Hd.
    - cbn. rewrite length_insert. exact Hr.
    - cbn. apply Z.mod_pos_bound. lia. }
  assert (Hidle2 : virtq_idle (blk_request_vq st2)).
  { split; [exact Heq|]. rewrite E6. apply Z.mod_pos_bound. lia. }
  destruct (negb (req_status (blk_req st2) =? 0));
    [|destruct (is_write =? 0)];
    injection Hret as <- <-; cbn [blk_request_vq vlog_event blk_capacity
                                  blk_req_paddr blk_req];
    repeat split; try apply Hwf2; try apply Hidle2; auto.
Qed.

Lemma bind_Ret {A B} (a : A) (k : A -> outcome B) : Ret a ≫= k = k a.
Proof. reflexivity. Qed.

Lemma Ret_inj {A} (a b : A) : Ret a = Ret b -> a = b.
Proof. intros H. injection H as H. exact H. Qed.

Lemma alloc_pages_Ret st n paddr st1 :
  alloc_pages st n = Ret (paddr, st1) ->
  paddr = next_paddr st /\
  st1 = set_next_paddr st (next_paddr st + n * PAGE_SIZE).
Proof.
  unfold alloc_pages. destruct (free_ram_end st <? _); [discriminate|].
  intros H. injection H as <- <-. auto.
Qed.

Lemma virtq_init_Ret st index paddr vq st1 :
  virtq_init st index = Ret (paddr, vq, st1) ->
  paddr = next_paddr st /\
  vq = set_queue_index zero_virtq index /\
  st1 =
  virtio_reg_write32
    (virtio_reg_write32
       (virtio_reg_write32
          (virtio_reg_write32
             (set_next_paddr st
                (next_paddr st
                 + to_uint32 (align_up VIRTQ_SIZEOF PAGE_SIZE / PAGE_SIZE) * PAGE_SIZE))
             VIRTIO_REG_QUEUE_SEL index)
          VIRTIO_REG_QUEUE_NUM VIRTQ_ENTRY_NUM)
       VIRTIO_REG_QUEUE_ALIGN 0)
    VIRTIO_REG_QUEUE_PFN (next_paddr st).
Proof.
  unfold virtq_init, alloc_pages.
  destruct (free_ram_end st <? _); [discriminate|].
  rewrite bind_Ret. intros H. injection H as <- <- <-. auto.
Qed.

(** From [virtio_blk_init st = Ret st'] to the three identity facts and
    [st'] written out as the state that the steps build. *)
Ltac init_run H Hm Hv Hd :=
  unfold virtio_blk_init in H;
  match type of H with
  | context [negb (?a =? 0x74726976)] =>
      destruct (Z.eqb_spec a 0x74726976) as [Hm|]; [|discriminate]
  end;
  match type of H with
  | context [negb (?a =? 1)] =>
      destruct (Z.eqb_spec a 1) as [Hv|]; [|discriminate]
  end;
  match type of H with
  | context [negb (?a =? VIRTIO_DEVICE_BLK)] =>
      destruct (Z.eqb_spec a VIRTIO_DEVICE_BLK) as [Hd|]; [|discriminate]
  end;
  cbv beta iota delta [negb] in H;
  let paddr := fresh "paddr" in
  let vq := fresh "vq" in
  let st1 := fresh "st1" in
  let Hvq := fresh "Hvq" in
  apply bind_Ret_inv in H as ([[paddr vq] st1] & Hvq & H);
  apply virtq_init_Ret in Hvq as (-> & -> & ->);
  cbv beta iota zeta in H;
  let rp := fresh "rp" in
  let s2 := fresh "s2" in
  let Ha := fresh "Ha" in
  apply bind_Ret_inv in H as ([rp s2] & Ha & H);
  apply alloc_pages_Ret in Ha as (-> & ->);
  cbv beta iota in H; apply Ret_inj in H;
  subst.

Ltac vfields :=
  cbn [mmio bus next_paddr free_ram_end blk_request_vq_paddr blk_request_vq
       blk_req_paddr blk_req blk_capacity vlog
       set_mmio set_next_paddr set_blk_request_vq_ptr set_blk_request_vq
       set_blk_req_paddr set_blk_req set_blk_capacity vlog_event
       virtio_reg_write32 virtio_reg_fetch_and_or32 sync_synchronize].

(** X15: a [virtio_blk_init] that returns leaves the driver ready for
    [read_write_disk]: the queue is well formed and idle with queue index
    0, the request buffer holds [SECTOR_SIZE] zero bytes, and the cached
    capacity is the sector count of the device configuration times
    [SECTOR_SIZE] (as a 64-bit word), a whole number of sectors. *)
Theorem virtio_blk_init_makes_driver_ready (st st' : vstate) :
  0 <= VIRTQ_ENTRY_NUM ->
  virtio_blk_init st = Ret st' ->
  virtq_wf (blk_request_vq st') /\
  virtq_idle (blk_request_vq st') /\
  queue_index (blk_request_vq st') = 0 /\
  blk_req st' = zero_blk_req /\
  blk_capacity st' =
    to_uint64 (virtio_reg_read64 st VIRTIO_REG_DEVICE_CONFIG * SECTOR_SIZE) /\
  blk_capacity st' mod SECTOR_SIZE = 0 /\
  vlog st' = vlog st ++ [EvPrintf "virtio-blk: capacity is %d bytes\n"
                                  [to_uint32 (blk_capacity st')]].
Proof.
  intros HN H.
  pose proof (virtio_blk_init_capacity st st' H) as Hmod.
  revert Hmod. init_run H Hm Hv Hd. intros Hmod.
  split.
  { vfields. unfold virtq_wf, set_queue_index, zero_virtq.
    cbn [descs avail_ring avail_index].
    rewrite !length_replicate, Z2Nat.id by lia. repeat split; lia. }
  split.
  { vfields. split; [reflexivity|]. cbn. lia. }
  split; [reflexivity|]. split; [reflexivity|].
  split; [|split; [exact Hmod | vfields; reflexivity]].
  vfields. unfold virtio_reg_read64, virtio_reg_read32. vfields.
  reflexivity.
Qed.

(** X16: [virtio_blk_init] checks the identity of the device first, in
    the order magic, version, device id, and panics on the first mismatch;
    when it returns, the three values were right and the driver has
    written, in this order, status 0, 1, 3 and 11 (reset, then ACK,
    DRIVER and FEAT_OK accumulated by the fetch-and-or steps), the queue
    selector, size and alignment, the queue address, and status 4. *)
Theorem virtio_blk_init_steps (st : vstate) :
  (virtio_reg_read32 st VIRTIO_REG_MAGIC <> 0x74726976 ->
   virtio_blk_init st = Panic "virtio: invalid magic value" []) /\
  (virtio_reg_read32 st VIRTIO_REG_MAGIC = 0x74726976 ->
   virtio_reg_read32 st VIRTIO_REG_VERSION <> 1 ->
   virtio_blk_init st = Panic "virtio: invalid version" []) /\
  (virtio_reg_read32 st VIRTIO_REG_MAGIC = 0x74726976 ->
   virtio_reg_read32 st VIRTIO_REG_VERSION = 1 ->
   virtio_reg_read32 st VIRTIO_REG_DEVICE_ID <> VIRTIO_DEVICE_BLK ->
   virtio_blk_init st = Panic "virtio: invalid device id" []) /\
  (forall st',
      virtio_blk_init st = Ret st' ->
      virtio_reg_read32 st VIRTIO_REG_MAGIC = 0x74726976 /\
      virtio_reg_read32 st VIRTIO_REG_VERSION = 1 /\
      virtio_reg_read32 st VIRTIO_REG_DEVICE_ID = VIRTIO_DEVICE_BLK /\
      bus st' =
      bus st ++ [BusWrite VIRTIO_REG_DEVICE_STATUS 0;
                 BusWrite VIRTIO_REG_DEVICE_STATUS 1;
                 BusWrite VIRTIO_REG_DEVICE_STATUS 3;
                 BusWrite VIRTIO_REG_DEVICE_STATUS 11;
                 BusWrite VIRTIO_REG_QUEUE_SEL 0;
                 BusWrite VIRTIO_REG_QUEUE_NUM (to_uint32 VIRTQ_ENTRY_NUM);
                 BusWrite VIRTIO_REG_QUEUE_ALIGN 0;
                 BusWrite VIRTIO_REG_QUEUE_PFN (to_uint32 (blk_request_vq_paddr st'));
                 BusWrite VIRTIO_REG_DEVICE_STATUS 4]).
Proof.
  split; [|split; [|split]].
  - intros Hm. apply Z.eqb_neq in Hm. unfold virtio_blk_init.
    rewrite Hm. reflexivity.
  - intros Hm Hv. apply Z.eqb_eq in Hm. apply Z.eqb_neq in Hv.
    unfold virtio_blk_init. rewrite Hm, Hv. reflexivity.
  - intros Hm Hv Hd. apply Z.eqb_eq in Hm, Hv. apply Z.eqb_neq in Hd.
    unfold virtio_blk_init. rewrite Hm, Hv, Hd. reflexivity.
  - intros st' H. init_run H Hm Hv Hd.
    split; [exact Hm|]. split; [exact Hv|]. split; [exact Hd|].
    vfields. rewrite <- !app_assoc. cbn [app].
    unfold virtio_reg_read32. vfields.
    reflexivity.
Qed.

(** ** Process creation *)

Lemma find_unused_Found ps fuel : forall i k,
  find_unused ps i fuel = ScanFound k ->
  (i <= k)%nat /\
  (exists p, ps !! k = Some p /\ state p = PROC_UNUSED) /\
  (forall j q, (i <= j < k)%nat -> ps !! j = Some q -> state q <> PROC_UNUSED).
Proof.
  induction fuel as [|fuel IH]; intros i k H; cbn in H; [discriminate|].
  destruct (ps !! i) as [p|] eqn:Hp; [|discriminate].
  destruct (proc_state_eqb (state p) PROC_UNUSED) eqn:E.
  - injection H as <-. split; [lia|]. split.
    + exists p. split; [exact Hp|]. destruct (state p); simpl in E; congruence.
    + intros j q Hj. lia.
  - apply IH in H as (Hle & Hk & Hlt). split; [lia|]. split; [exact Hk|].
    intros j q Hj Hq. destruct (decide (j = i)) as [->|Hne].
    + rewrite Hp in Hq. injection Hq as <-.
      intros Hs. rewrite Hs in E. discriminate.
    + apply (Hlt j q); [lia | exact Hq].
Qed.

Lemma find_unused_full ps fuel : forall i,
  (i + fuel <= length ps)%nat ->
  (forall j q, ps !! j = Some q -> state q <> PROC_UNUSED) ->
  find_unused ps i fuel = ScanNone.
Proof.
  induction fuel as [|fuel IH]; intros i Hlen Hfull; cbn; [reflexivity|].
  destruct (lookup_lt_is_Some_2 ps i ltac:(lia)) as [p Hp]. rewrite Hp.
  pose proof (Hfull i p Hp) as Hs.
  destruct (state p); try contradiction; cbn; apply IH; auto; lia.
Qed.

Lemma store_word_hit stk a v x : x = a -> store_word stk a v x = v.
Proof. intros ->. unfold store_word. rewrite Z.eqb_refl. reflexivity. Qed.

Lemma store_word_miss stk a v x : x <> a -> store_word stk a v x = stk x.
Proof.
  intros H. unfold store_word. destruct (Z.eqb_spec x a); [contradiction|].
  reflexivity.
Qed.

Lemma create_process_Ret st stk m image image_size slot st' stk' m' :
  create_process st stk m image image_size = Ret (slot, st', stk', m') ->
  exists p pt,
    find_unused (procs st) 0 (Z.to_nat PROCS_MAX) = ScanFound slot /\
    procs st !! slot = Some p /\
    st' = set_procs st
            (<[ slot := {| pid := Z.of_nat slot + 1; state := PROC_RUNNABLE;
                           proc_sp := stack_top p - 52; page_table := pt;
                           stack_top := stack_top p |} ]> (procs st)) /\
    forall a, stk' a = save_context stk (stack_top p - 52) initial_context a.
Proof.
  unfold create_process. intros H.
  destruct (find_unused (procs st) 0 (Z.to_nat PROCS_MAX)) as [i| |] eqn:Hf;
    try discriminate.
  destruct (procs st !! i) as [p|] eqn:Hp; [|discriminate].
  cbv zeta in H.
  apply bind_Ret_inv in H as ([pt m1] & _ & H).
  apply bind_Ret_inv in H as (m2 & _ & H).
  apply bind_Ret_inv in H as (m3 & _ & H).
  apply bind_Ret_inv in H as (m4 & _ & H).
  apply Ret_inj in H.
  injection H as <- <- <- <-.
  exists p, pt. split; [reflexivity|]. split; [exact Hp|]. split.
  - f_equal. f_equal. f_equal. unfold push_word. cbn [fst snd]. lia.
  - intros a. revert a.
    unfold push_word. cbn [fst snd]. unfold save_context, initial_context.
    cbn [c_ra c_s0 c_s1 c_s2 c_s3 c_s4 c_s5 c_s6 c_s7 c_s8 c_s9 c_s10 c_s11].
    intros a.
    assert (Hcase : a < stack_top p - 52 \/ stack_top p <= a \/
                    (a - (stack_top p - 52)) mod 4 <> 0 \/
                    exists k, 0 <= k < 13 /\ a = stack_top p - 52 + k * 4).
    { destruct (Z_lt_dec a (stack_top p - 52)); [auto|].
      destruct (Z_le_dec (stack_top p) a); [auto|].
      destruct (Z.eq_dec ((a - (stack_top p - 52)) mod 4) 0) as [E|]; [|auto].
      right. right. right. exists ((a - (stack_top p - 52)) / 4).
      pose proof (Z.div_mod (a - (stack_top p - 52)) 4 ltac:(lia)).
      split; [|lia]. split; [apply Z.div_pos; lia|].
      apply Z.div_lt_upper_bound; lia. }
    destruct Hcase as [Hc|[Hc|[Hc|(k & Hk & ->)]]].
    1-2: repeat rewrite store_word_miss by lia; reflexivity.
    + pose proof (Z.div_mod (a - (stack_top p - 52)) 4 ltac:(lia)) as Hdm.
      pose proof (Z.mod_pos_bound (a - (stack_top p - 52)) 4 ltac:(lia)) as Hb.
      set (r := (a - (stack_top p - 52)) mod 4) in *.
      set (q := (a - (stack_top p - 52)) / 4) in *.
      repeat rewrite store_word_miss by lia. reflexivity.
    + assert (Hk' : k = 0 \/ k = 1 \/ k = 2 \/ k = 3 \/ k = 4 \/ k = 5 \/ k = 6 \/
                    k = 7 \/ k = 8 \/ k = 9 \/ k = 10 \/ k = 11 \/ k = 12) by lia.
      repeat (destruct Hk' as [->|Hk']; [ | ]);
        try subst k;
        repeat first [rewrite store_word_hit by lia
                     | rewrite store_word_miss by lia];
        reflexivity.
Qed.

(** X17: [create_process] takes the first slot whose state is UNUSED and
    makes it RUNNABLE with [pid = slot + 1] and the saved stack pointer 13
    words below the top of the slot's kernel stack; the other slots and
    the rest of the kernel state are left as they were. *)
Theorem create_process_takes_first_unused
        (st st' : kstate) (stk stk' : Z -> Z) (m m' : pmem)
        (image : list byte) (image_size : Z) (slot : nat) :
  create_process st stk m image image_size = Ret (slot, st', stk', m') ->
  exists p new,
    procs st !! slot = Some p /\ state p = PROC_UNUSED /\
    (forall j q, (j < slot)%nat -> procs st !! j = Some q ->
                 state q <> PROC_UNUSED) /\
    procs st' = <[ slot := new ]> (procs st) /\
    pid new = Z.of_nat slot + 1 /\
    state new = PROC_RUNNABLE /\
    proc_sp new = stack_top p - 13 * 4 /\
    stack_top new = stack_top p /\
    (forall j, j <> slot -> procs st' !! j = procs st !! j) /\
    current_proc st' = current_proc st /\ idle_proc st' = idle_proc st /\
    files st' = files st /\ klog st' = klog st.
Proof.
  intros H.
  apply create_process_Ret in H as (p & pt & Hf & Hp & -> & _).
  apply find_unused_Found in Hf as (_ & (p' & Hp' & Hs) & Hlt).
  rewrite Hp in Hp'. injection Hp' as <-.
  eexists p, _. split; [exact Hp|]. split; [exact Hs|]. split.
  { intros j q Hj. apply Hlt. lia. }
  split; [reflexivity|]. cbn [pid state proc_sp stack_top].
  split; [reflexivity|]. split; [reflexivity|]. split; [lia|].
  split; [reflexivity|]. split.
  { intros j Hj. cbn. apply list_lookup_insert_ne. congruence. }
  repeat split.
Qed.

(** X18: when none of the [PROCS_MAX] slots is UNUSED, [create_process]
    panics with "no free process slots", whatever the image and the
    memory. *)
Theorem create_process_table_full
        (st : kstate) (stk : Z -> Z) (m : pmem)
        (image : list byte) (image_size : Z) :
  0 <= PROCS_MAX ->
  length (procs st) = Z.to_nat PROCS_MAX ->
  (forall j q, procs st !! j = Some q -> state q <> PROC_UNUSED) ->
  create_process st stk m image image_size = Panic "no free process slots" [].
Proof.
  intros Hpos Hlen Hfull. unfold create_process.
  rewrite find_unused_full; [reflexivity | lia | exact Hfull].
Qed.

(** X19: the stack of a new process holds the context that
    [switch_context] will restore: at the saved stack pointer the address
    of [user_entry] for [ra], then twelve zero words for [s0] to [s11];
    no word outside these thirteen is written. *)
Theorem create_process_initial_frame
        (st st' : kstate) (stk stk' : Z -> Z) (m m' : pmem)
        (image : list byte) (image_size : Z) (slot : nat) :
  create_process st stk m image image_size = Ret (slot, st', stk', m') ->
  exists new,
    procs st' !! slot = Some new /\
    load_context stk' (proc_sp new) = initial_context /\
    proc_sp new + 13 * 4 = stack_top new /\
    (forall a, a < proc_sp new \/ stack_top new <= a -> stk' a = stk a).
Proof.
  intros H.
  apply create_process_Ret in H as (p & pt & Hf & Hp & -> & Hstk).
  eexists. split.
  { cbn. apply list_lookup_insert_eq. apply lookup_lt_Some in Hp. exact Hp. }
  cbn [proc_sp stack_top]. split; [|split; [lia|]].
  - unfold load_context, initial_context. rewrite !Hstk.
    unfold save_context, initial_context.
    cbn [c_ra c_s0 c_s1 c_s2 c_s3 c_s4 c_s5 c_s6 c_s7 c_s8 c_s9 c_s10 c_s11].
    f_equal;
      repeat first [rewrite store_word_hit by lia
                   | rewrite store_word_miss by lia];
      reflexivity.
  - intros a Ha. rewrite Hstk. unfold save_context.
    repeat rewrite store_word_miss by lia. reflexivity.
Qed.

Lemma map_kernel_pages_invariant (I : pmem -> Prop) image_size pt :
  0 <= KERNEL_BASE -> KERNEL_BASE + 0x200000 < 2 ^ 32 ->
  (forall m t va pa fl m',
      I m -> create_process_mapping image_size va pa fl ->
      pm_map_page m t va pa fl = Ret m' -> I m') ->
  forall fuel m k m',
    0 <= k <= 512 ->
    I m ->
    map_kernel_pages fuel m pt (KERNEL_BASE + PAGE_SIZE * k)
                     (to_uint32 (KERNEL_BASE + 0x200000)) = Ret m' ->
    I m'.
Proof.
  intros Hlo Hhi Hmap.
  rewrite (to_uint32_small (KERNEL_BASE + 0x200000)) by lia.
  unfold PAGE_SIZE.
  induction fuel as [|fuel IH]; intros m k m' Hk Hm H;
    cbn [map_kernel_pages] in H; [discriminate|].
  destruct (Z.ltb_spec (KERNEL_BASE + 4096 * k) (KERNEL_BASE + 0x200000))
    as [Hlt|Hge].
  - apply bind_Ret_inv in H as (m1 & Hm1 & H).
    assert (Hm1' : I m1).
    { apply (Hmap _ _ _ _ _ _ Hm) in Hm1; [exact Hm1|].
      left. split; [reflexivity|]. split; [reflexivity|].
      rewrite (to_uint32_small KERNEL_BASE) by lia.
      rewrite (to_uint32_small (KERNEL_BASE + 0x200000)) by lia. lia. }
    unfold PAGE_SIZE in H.
    rewrite (to_uint32_small (KERNEL_BASE + 4096 * k + 4096)) in H by lia.
    replace (KERNEL_BASE + 4096 * k + 4096)
      with (KERNEL_BASE + 4096 * (k + 1)) in H by lia.
    apply (IH m1 (k + 1) m'); [lia | exact Hm1' | exact H].
  - apply Ret_inj in H. subst. exact Hm.
Qed.

Lemma map_user_pages_invariant (I : pmem -> Prop) image_size pt image :
  (forall m n p m', I m -> pm_alloc_pages m n = Ret (p, m') -> I m') ->
  (forall m page bs, I m -> I (pm_memcpy m page bs)) ->
  (forall m t va pa fl m',
      I m -> create_process_mapping image_size va pa fl ->
      pm_map_page m t va pa fl = Ret m' -> I m') ->
  forall fuel m off m',
    0 <= off -> off mod PAGE_SIZE = 0 ->
    I m ->
    map_user_pages fuel m pt image (to_uint32 image_size) off = Ret m' ->
    I m'.
Proof.
  intros Halloc Hcopy Hmap.
  induction fuel as [|fuel IH]; intros m off m' Hoff Hal Hm H;
    cbn [map_user_pages] in H; [discriminate|].
  destruct (Z.ltb_spec off (to_uint32 image_size)) as [Hlt|Hge].
  - apply bind_Ret_inv in H as ([page m1] & Ha & H). cbv beta iota zeta in H.
    apply bind_Ret_inv in H as (m3 & Hm3 & H).
    assert (Hm1 : I m1) by (apply (Halloc _ _ _ _ Hm Ha)).
    assert (Hm3' : I m3).
    { apply (Hmap _ _ _ _ _ _ (Hcopy _ _ _ Hm1)) in Hm3; [exact Hm3|].
      right. right. split; [reflexivity|].
      exists off. repeat split; auto. }
    apply (IH m3 (to_uint32 (off + PAGE_SIZE)) m'); auto.
    + unfold to_uint32. apply Z.mod_pos_bound. lia.
    + unfold to_uint32.
      rewrite Z.mod_mod_divide by (exists (2 ^ 20); reflexivity).
      rewrite <- Z.add_mod_idemp_l, Hal by (unfold PAGE_SIZE; lia).
      reflexivity.
  - apply Ret_inj in H. subst. exact Hm.
Qed.

(** X20: the mappings that [create_process] requests. Every call of
    [map_page] it makes is the identity mapping R|W|X of an address of
    the kernel range, the identity mapping R|W of the device registers,
    or a mapping U|R|W|X at [USER_BASE + off] for a page-aligned offset
    inside the image: the U flag goes to image pages only. Stated as an
    invariant rule: a property of the memory that allocation, the copy of
    image bytes and these mappings preserve holds after
    [create_process]. *)
Theorem create_process_mappings
        (I : pmem -> Prop)
        (st st' : kstate) (stk stk' : Z -> Z) (m m' : pmem)
        (image : list byte) (image_size : Z) (slot : nat) :
  0 <= KERNEL_BASE -> KERNEL_BASE + 0x200000 < 2 ^ 32 ->
  (forall m n p m', I m -> pm_alloc_pages m n = Ret (p, m') -> I m') ->
  (forall m page bs, I m -> I (pm_memcpy m page bs)) ->
  (forall m t va pa fl m',
      I m -> create_process_mapping image_size va pa fl ->
      pm_map_page m t va pa fl = Ret m' -> I m') ->
  I m ->
  create_process st stk m image image_size = Ret (slot, st', stk', m') ->
  I m'.
Proof.
  intros Hlo Hhi Halloc Hcopy Hmap Hm H. unfold create_process in H.
  destruct (find_unused (procs st) 0 (Z.to_nat PROCS_MAX)) as [i| |];
    try discriminate.
  destruct (procs st !! i) as [p|]; [|discriminate].
  cbv zeta in H.
  apply bind_Ret_inv in H as ([pt m1] & Ha & H).
  apply bind_Ret_inv in H as (m2 & Hk & H).
  apply bind_Ret_inv in H as (m3 & Hv & H).
  apply bind_Ret_inv in H as (m4 & Hu & H).
  apply Ret_inj in H. injection H as _ _ _ <-.
  assert (Hm1 : I m1) by (apply (Halloc _ _ _ _ Hm Ha)).
  assert (Hm2 : I m2).
  { rewrite (to_uint32_small KERNEL_BASE) in Hk by lia.
    replace KERNEL_BASE with (KERNEL_BASE + PAGE_SIZE * 0) in Hk at 1
      by (unfold PAGE_SIZE; lia).
    apply (map_kernel_pages_invariant I image_size pt Hlo Hhi Hmap
             page_loop_fuel m1 0 m2); [lia | exact Hm1 | exact Hk]. }
  assert (Hm3 : I m3).
  { apply (Hmap _ _ _ _ _ _ Hm2) in Hv; [exact Hv|].
    right. left. auto. }
  apply (map_user_pages_invariant I image_size pt image Halloc Hcopy Hmap
           page_loop_fuel m3 0 m4); [lia | reflexivity | exact Hm3 | exact Hu].
Qed.

(** ** The context switch *)

Lemma load_save_context stk sp r :
  load_context (save_context stk sp r) sp = r.
Proof.
  destruct r. unfold load_context, save_context.
  cbn [c_ra c_s0 c_s1 c_s2 c_s3 c_s4 c_s5 c_s6 c_s7 c_s8 c_s9 c_s10 c_s11].
  f_equal;
    repeat first [rewrite store_word_hit by lia
                 | rewrite store_word_miss by lia];
    reflexivity.
Qed.

Lemma save_context_outside stk sp r a :
  a < sp \/ sp + 13 * 4 <= a -> save_context stk sp r a = stk a.
Proof.
  intros Ha. unfold save_context.
  repeat rewrite store_word_miss by lia. reflexivity.
Qed.

Lemma load_context_ext stk stk' sp :
  (forall k, 0 <= k < 13 -> stk' (sp + k * 4) = stk (sp + k * 4)) ->
  load_context stk' sp = load_context stk sp.
Proof.
  intros H. unfold load_context. f_equal; apply H; lia.
Qed.

(** X21: a process that is switched out and later switched back in
    continues with the registers [ra], [s0] to [s11] and the stack pointer
    it had: provided its saved stack pointer and the 13 words of its
    frame were left alone in between, and the frame that the other
    process pushes does not overlap them. *)
Theorem switch_context_round_trip
        (ps ps1 : list process) (stk stk1 : Z -> Z)
        (rA rB : context_regs) (spA spB : Z) (a b : nat) :
  13 * 4 <= spA < 2 ^ 32 ->
  switch_context_asm ps stk rA spA a b = Some (ps1, stk1, rB, spB) ->
  (exists pa, ps1 !! a = Some pa /\ proc_sp pa = spA - 13 * 4 /\
              load_context stk1 (spA - 13 * 4) = rA) /\
  forall ps2 stk2 r sp c pa,
    ps2 !! a = Some pa -> proc_sp pa = spA - 13 * 4 ->
    (forall k, 0 <= k < 13 ->
               stk2 (spA - 13 * 4 + k * 4) = stk1 (spA - 13 * 4 + k * 4)) ->
    c <> a -> is_Some (ps2 !! c) ->
    to_uint32 (sp - 13 * 4) + 13 * 4 <= spA - 13 * 4 \/
    spA <= to_uint32 (sp - 13 * 4) ->
    exists ps3 stk3,
      switch_context_asm ps2 stk2 r sp c a = Some (ps3, stk3, rA, spA).
Proof.
  intros HspA H. unfold switch_context_asm in H.
  rewrite (to_uint32_small (spA - 13 * 4)) in H by lia.
  destruct (ps !! a) as [p|] eqn:Hp; [|discriminate].
  destruct (<[ a := set_proc_sp p (spA - 13 * 4) ]> ps !! b) as [n|] eqn:Hn;
    [|discriminate].
  injection H as <- <- <- <-.
  assert (Ha1 : <[ a := set_proc_sp p (spA - 13 * 4) ]> ps !! a
                = Some (set_proc_sp p (spA - 13 * 4))).
  { apply list_lookup_insert_eq. apply lookup_lt_Some in Hp. exact Hp. }
  split.
  { exists (set_proc_sp p (spA - 13 * 4)). split; [exact Ha1|].
    split; [reflexivity | apply load_save_context]. }
  intros ps2 stk2 r sp c pa Hpa Hsp Hframe Hca [pc Hpc] Hdisj.
  unfold switch_context_asm. rewrite Hpc.
  rewrite list_lookup_insert_ne by exact Hca. rewrite Hpa, Hsp.
  eexists _, _. f_equal. f_equal; [f_equal|].
  - rewrite (load_context_ext (save_context stk (spA - 13 * 4) rA)).
    + apply load_save_context.
    + intros k Hk. rewrite save_context_outside by lia. apply Hframe. exact Hk.
  - replace (spA - 13 * 4 + 13 * 4) with spA by lia.
    apply to_uint32_small. lia.
Qed.

(** X22: the first switch to a process made by [create_process] arrives
    with [ra] at [user_entry], [s0] to [s11] zero and the stack pointer at
    the top of the new process's kernel stack. *)
Theorem switch_context_enters_new_process
        (st st' : kstate) (stk stk' : Z -> Z) (m m' : pmem)
        (image : list byte) (image_size : Z) (slot : nat)
        (r : context_regs) (sp : Z) (c : nat) :
  create_process st stk m image image_size = Ret (slot, st', stk', m') ->
  c <> slot -> is_Some (procs st' !! c) ->
  forall new,
    procs st' !! slot = Some new ->
    0 <= stack_top new < 2 ^ 32 ->
    to_uint32 (sp - 13 * 4) + 13 * 4 <= proc_sp new \/
    stack_top new <= to_uint32 (sp - 13 * 4) ->
    exists ps3 stk3,
      switch_context_asm (procs st') stk' r sp c slot
      = Some (ps3, stk3, initial_context, stack_top new).
Proof.
  intros H Hc [pc Hpc] new Hnew Htop Hdisj.
  pose proof H as H'.
  apply create_process_Ret in H' as (p & pt & Hf & Hp & -> & Hstk).
  cbn [procs set_procs] in *.
  rewrite list_lookup_insert_eq in Hnew by (apply lookup_lt_Some in Hp; exact Hp).
  injection Hnew as <-. cbn [proc_sp stack_top] in *.
  unfold switch_context_asm. rewrite Hpc.
  rewrite list_lookup_insert_ne by exact Hc.
  rewrite list_lookup_insert_eq by (apply lookup_lt_Some in Hp; exact Hp).
  cbn [proc_sp].
  eexists _, _. f_equal. f_equal; [f_equal|].
  - rewrite (load_context_ext (save_context stk (stack_top p - 52) initial_context)).
    + apply load_save_context.
    + intros k Hk. rewrite save_context_outside by lia. apply Hstk.
  - replace (stack_top p - 52 + 13 * 4) with (stack_top p) by lia.
    apply to_uint32_small. exact Htop.
Qed.

(** ** The first processes *)

Lemma create_process_first_unused st stk m image image_size slot st' stk' m' :
  create_process st stk m image image_size = Ret (slot, st', stk', m') ->
  exists p new,
    procs st !! slot = Some p /\ state p = PROC_UNUSED /\
    (forall j q, (j < slot)%nat -> procs st !! j = Some q ->
                 state q <> PROC_UNUSED) /\
    st' = set_procs st (<[ slot := new ]> (procs st)) /\
    pid new = Z.of_nat slot + 1 /\ state new = PROC_RUNNABLE.
Proof.
  intros H.
  apply create_process_Ret in H as (p & pt & Hf & Hp & -> & _).
  apply find_unused_Found in Hf as (_ & (p' & Hp' & Hs) & Hlt).
  rewrite Hp in Hp'. injection Hp' as <-.
  eexists p, _. split; [exact Hp|]. split; [exact Hs|]. split.
  { intros j q Hj. apply Hlt. lia. }
  split; [reflexivity|]. split; reflexivity.
Qed.

(** X23: the start of the system. On a process table whose slots are all
    UNUSED, [kernel_main] puts the idle process in slot 0 (pid reset to
    0) and the shell in slot 1, so the shell runs with pid 2; the first
    [yield] selects the shell and switches to it with [satp] built from
    the shell's page table and [sscratch] at the top of the shell's
    kernel stack; the panic "switched to idle process" is reached only
    if control ever comes back to this path. *)
Theorem kernel_main_first_yield_selects_shell
        (st st2 : kstate) (stk stk2 : Z -> Z) (m m2 : pmem)
        (shell : list byte) (shell_size : Z) :
  2 <= PROCS_MAX ->
  length (procs st) = Z.to_nat PROCS_MAX ->
  (forall j q, procs st !! j = Some q -> state q = PROC_UNUSED) ->
  kernel_main_create st stk m shell shell_size = Ret (st2, stk2, m2) ->
  idle_proc st2 = 0%nat /\ current_proc st2 = 0%nat /\
  exists idle sh,
    procs st2 !! 0%nat = Some idle /\ pid idle = 0 /\
    state idle = PROC_RUNNABLE /\
    procs st2 !! 1%nat = Some sh /\ pid sh = 2 /\ state sh = PROC_RUNNABLE /\
    yield_next st2 = Some 1%nat /\
    kernel_main_processes st stk m shell shell_size =
    (switch_context
       (set_current_proc
          (set_csr_sscratch
             (set_csr_satp st2
                (Z.lor SATP_SV32 (to_uint32 (page_table sh) / PAGE_SIZE)))
             (to_uint32 (stack_top sh)))
          1)
     ≫= fun _ => Panic "switched to idle process" []).
Proof.
  intros HN Hlen Hun Hc.
  assert (Hmain : kernel_main_processes st stk m shell shell_size =
                  (yield st2 ≫= fun _ => Panic "switched to idle process" [])).
  { unfold kernel_main_processes. rewrite Hc. reflexivity. }
  unfold kernel_main_create in Hc.
  apply bind_Ret_inv in Hc as ([[[i0 st1] stk1] m1] & Hc0 & Hc).
  apply create_process_first_unused in Hc0
    as (p0 & new0 & Hp0 & _ & Hlt0 & -> & Hpid0 & Hst0).
  assert (Hi0 : i0 = 0%nat).
  { destruct i0 as [|i0]; [reflexivity|]. exfalso.
    destruct (lookup_lt_is_Some_2 (procs st) 0 ltac:(lia)) as [q Hq].
    apply (Hlt0 0%nat q); [lia | exact Hq | exact (Hun _ _ Hq)]. }
  subst i0. cbn [procs set_procs] in Hc.
  rewrite list_lookup_insert_eq in Hc by lia.
  cbv zeta in Hc.
  apply bind_Ret_inv in Hc as ([[[i1 st3] stk3] m3] & Hc1 & Hc).
  apply Ret_inj in Hc. injection Hc as <- <- <-.
  apply create_process_first_unused in Hc1
    as (p1 & new1 & Hp1 & Hs1 & Hlt1 & -> & Hpid1 & Hst1).
  cbn [procs set_procs set_current_proc set_idle_proc idle_proc current_proc]
    in Hp1, Hlt1, Hmain |- *.
  rewrite list_insert_insert_eq in Hp1, Hlt1, Hmain |- *.
  assert (Hi1 : i1 = 1%nat).
  { destruct i1 as [|[|i1]]; [|reflexivity|]; exfalso.
    - rewrite list_lookup_insert_eq in Hp1 by lia.
      injection Hp1 as <-. cbn in Hs1. congruence.
    - destruct (lookup_lt_is_Some_2 (procs st) 1 ltac:(lia)) as [q Hq].
      apply (Hlt1 1%nat q); [lia | | exact (Hun _ _ Hq)].
      rewrite list_lookup_insert_ne by lia. exact Hq. }
  subst i1. cbn [Z.of_nat Pos.of_succ_nat] in Hpid1.
  split; [reflexivity|]. split; [reflexivity|].
  exists (set_pid new0 0), new1.
  assert (Hl0 : <[1%nat := new1]> (<[0%nat := set_pid new0 0]> (procs st)) !! 0%nat
                = Some (set_pid new0 0)).
  { rewrite list_lookup_insert_ne by lia. apply list_lookup_insert_eq. lia. }
  assert (Hl1 : <[1%nat := new1]> (<[0%nat := set_pid new0 0]> (procs st)) !! 1%nat
                = Some new1).
  { apply list_lookup_insert_eq. rewrite length_insert. lia. }
  split; [exact Hl0|]. split; [reflexivity|]. split; [exact Hst0|].
  split; [exact Hl1|]. split; [exact Hpid1|]. split; [exact Hst1|].
  match goal with
  | |- yield_next ?s = _ /\ _ =>
      assert (Hnext : yield_next s = Some 1%nat)
  end.
  { rewrite (yield_next_find ltac:(lia) _ (set_pid new0 0));
      cbn [procs set_procs current_proc set_current_proc pid set_pid];
      [| rewrite !length_insert; exact Hlen | exact Hl0 | lia].
    rewrite (find_first _ _ 1 1).
    - reflexivity.
    - rewrite scan_order_lookup by lia. cbn [Z.of_nat].
      rewrite Z.rem_small by lia. reflexivity.
    - unfold slot_is_candidate. change (Z.to_nat 1) with 1%nat.
      rewrite Hl1. unfold is_candidate. rewrite Hst1, Hpid1. reflexivity.
    - intros j y Hj Hy. assert (j = 0%nat) as -> by lia.
      rewrite scan_order_lookup in Hy by lia. injection Hy as <-.
      rewrite Z.rem_small by lia.
      unfold slot_is_candidate. change (Z.to_nat (0 + Z.of_nat 0)) with 0%nat.
      rewrite Hl0. unfold is_candidate. cbn [pid set_pid].
      apply andb_false_r. }
  split; [exact Hnext|].
  rewrite Hmain. unfold yield. rewrite Hnext.
  cbn [current_proc set_current_proc set_procs Nat.eqb procs].
  rewrite Hl1. reflexivity.
Qed.

End Kernel.

(** * The disk behind the driver *)


(** * The properties at the concrete states

    [PROCS_MAX = 8], [sizeof(file->data) = 1024], [VIRTQ_ENTRY_NUM = 16],
    [sizeof(struct virtio_virtq) = 8192]. *)

Lemma ex_procs_rest (j : nat) (p : process) :
  (2 <= j)%nat -> ex_procs !! j = Some p -> is_candidate p = false.
Proof.
  intros Hj.
  do 8 (destruct j as [|j]; [try lia; cbn; intros [= <-]; reflexivity|]).
  cbn. discriminate.
Qed.

(** With A and B runnable, a yield by A selects B and a yield by B
    selects A. *)
Lemma yield_scans_round_robin_witness :
  yield_next 8 (set_current_proc ex_kstate 0) = Some 1%nat /\
  yield_next 8 (set_current_proc ex_kstate 1) = Some 0%nat.
Proof.
  apply (proj2 (yield_scans_round_robin 8 ex_kstate ltac:(lia) eq_refl)
               (mk_process 1 PROC_RUNNABLE) (mk_process 2 PROC_RUNNABLE));
    try reflexivity.
  exact ex_procs_rest.
Defined.

(** The slot that [yield] selects for A, slot 1, is none of the slots that
    the order [i = 1 .. PROCS_MAX-1] examines; that order would select A
    itself. *)
Lemma yield_examines_offset_zero :
  yield_next 8 (set_current_proc ex_kstate 0) = Some 1%nat /\
  ~ In 1 (spec_scan_order 8 1) /\
  spec_yield_next 8 (set_current_proc ex_kstate 0) = Some 0%nat.
Proof.
  split; [reflexivity|]. split; [|reflexivity].
  vm_compute. intuition discriminate.
Qed.

Lemma yield_never_idle_when_runnable_witness :
  exists k q,
    yield_next 8 ex_kstate = Some k /\
    ex_procs !! k = Some q /\
    state q = PROC_RUNNABLE /\ 0 < pid q /\
    (forall idle, ex_procs !! 2%nat = Some idle -> pid idle = 0 -> k <> 2%nat).
Proof.
  apply (yield_never_idle_when_runnable 8 ex_kstate (mk_process 1 PROC_RUNNABLE)).
  - reflexivity.
  - reflexivity.
  - reflexivity.
  - discriminate.
  - exists 1%nat, (mk_process 2 PROC_RUNNABLE).
    split; [reflexivity|]. split; reflexivity.
Defined.

(** A [SYS_PUTCHAR] trapped at [sepc = 0x1000010] returns to
    [0x1000014]. *)
Lemma handle_trap_advances_sepc_witness :
  exists st',
    handle_trap 8 1024 no_resume ex_page_fault ex_kstate ex_putchar_frame
    = Ret (st', ex_putchar_frame) /\
    csr_sepc st' = 0x1000014.
Proof.
  destruct (handle_trap_advances_sepc 8 1024 no_resume ex_page_fault ex_kstate ex_putchar_frame)
    as [Hecall _].
  destruct (Hecall eq_refl) as [Hret _].
  destruct (Hret (putchar ex_kstate 65) ex_putchar_frame eq_refl) as (st' & H1 & H2).
  exists st'. split; [exact H1 | exact H2].
Defined.

Lemma putchar_keeps_frame_witness :
  handle_syscall 8 1024 no_resume ex_page_fault ex_kstate ex_putchar_frame
  = Ret (putchar ex_kstate 65, ex_putchar_frame) /\
  exists st',
    kernel_entry 8 1024 no_resume ex_page_fault ex_kstate ex_putchar_frame
    = Ret (st', ex_putchar_frame) /\
    klog st' = [EvPutchar 65].
Proof.
  destruct (putchar_keeps_frame 8 1024 no_resume ex_page_fault ex_kstate ex_putchar_frame eq_refl)
    as [H1 H2].
  split; [exact H1|]. exact (H2 eq_refl).
Defined.

Lemma ex_file_named : holds_cstring (file_name ex_file) hello_txt.
Proof. exists (replicate 90 x00). reflexivity. Qed.

(** The write of the scenario returns 5. *)
Lemma writefile_then_readfile_witness :
  exists st1 f1,
    handle_syscall 8 1024 no_resume ex_page_fault ex_kstate ex_write_frame = Ret (st1, f1) /\
    a0 f1 = 5 /\
    forall g,
      a3 g = SYS_READFILE -> a2 g = 100 -> a0 g = 0x1000100 ->
      exists st2 g2,
        handle_syscall 8 1024 no_resume ex_page_fault st1 g = Ret (st2, g2) /\
        a0 g2 = 100 /\
        load_bytes (umem st2) (a1 g) 5 = world.
Proof.
  destruct (writefile_then_readfile 8 1024 no_resume ex_page_fault ex_kstate ex_write_frame)
    as (st1 & f1 & slot & fl1 & Hw & Ha0 & _ & _ & _ & _ & _ & Hread).
  - lia.
  - repeat constructor.
  - reflexivity.
  - reflexivity.
  - vm_compute. reflexivity.
  - exists ex_file. split; [left; reflexivity | exact ex_file_named].
  - vm_compute. reflexivity.
  - exists st1, f1. split; [exact Hw|]. split; [exact Ha0|].
    intros g H3 H2 H0. apply (Hread st1 g eq_refl H3 H2).
    rewrite H0.
    assert (Hmem : umem st1 = ex_umem).
    { cbn in Hw. injection Hw as <- _. reflexivity. }
    rewrite Hmem. vm_compute. reflexivity.
Defined.

(** The read of the scenario returns 100, not 5. *)
Lemma readfile_returns_requested_length :
  exists st1 f1 st2 f2,
    handle_syscall 8 1024 no_resume ex_page_fault ex_kstate ex_write_frame = Ret (st1, f1) /\
    handle_syscall 8 1024 no_resume ex_page_fault st1 ex_read_frame = Ret (st2, f2) /\
    load_bytes (umem st2) (a1 ex_read_frame) 5 = world /\
    a0 f2 = 100 /\ a0 f2 <> 5.
Proof.
  eexists _, _, _, _. split; [reflexivity|]. split; [reflexivity|].
  split; [vm_compute; reflexivity|]. split; [reflexivity | discriminate].
Qed.



(** C2 (the code at the boot state): [virtq_init(0)] gets the queue at
    physical address [0x80221000] and, after QUEUE_SEL = 0,
    QUEUE_NUM = 16 and QUEUE_ALIGN = 0, writes that address itself to
    QUEUE_PFN, not the page frame number [0x80221000 / PAGE_SIZE]. *)
Theorem virtq_init_writes_paddr_to_queue_pfn :
  exists vq st',
    virtq_init 16 8192 ex_vboot 0 = Ret (0x80221000, vq, st') /\
    bus st' = [BusWrite VIRTIO_REG_QUEUE_SEL 0;
               BusWrite VIRTIO_REG_QUEUE_NUM 16;
               BusWrite VIRTIO_REG_QUEUE_ALIGN 0;
               BusWrite VIRTIO_REG_QUEUE_PFN 0x80221000] /\
    virtio_reg_read32 st' VIRTIO_REG_QUEUE_PFN = 0x80221000 /\
    0x80221000 / PAGE_SIZE = 0x80221 /\
    virtio_reg_read32 st' VIRTIO_REG_QUEUE_PFN <> 0x80221000 / PAGE_SIZE.
Proof.
  eexists _, _. split; [vm_compute; reflexivity|].
  split; [vm_compute; reflexivity|].
  split; [vm_compute; reflexivity|].
  split; [reflexivity|]. vm_compute. discriminate.
Qed.

(** C3 (the code at the boot state): [virtio_blk_init] returns with
    [DRIVER_OK] alone in the status register; the last write stores the
    constant and the bits ACK, DRIVER and FEAT_OK set before are gone. *)
Theorem virtio_blk_init_overwrites_status :
  exists st',
    virtio_blk_init 16 8192 ex_vboot = Ret st' /\
    virtio_reg_read32 st' VIRTIO_REG_DEVICE_STATUS = VIRTIO_STATUS_DRIVER_OK /\
    last (bus st') BusFence
    = BusWrite VIRTIO_REG_DEVICE_STATUS VIRTIO_STATUS_DRIVER_OK /\
    In (BusWrite VIRTIO_REG_DEVICE_STATUS
                 (Z.lor (Z.lor VIRTIO_STATUS_ACK VIRTIO_STATUS_DRIVER)
                        VIRTIO_STATUS_FEAT_OK)) (bus st') /\
    virtio_reg_read32 st' VIRTIO_REG_DEVICE_STATUS
    <> Z.lor (Z.lor (Z.lor VIRTIO_STATUS_ACK VIRTIO_STATUS_DRIVER)
                    VIRTIO_STATUS_FEAT_OK) VIRTIO_STATUS_DRIVER_OK.
Proof.
  eexists. split; [vm_compute; reflexivity|].
  split; [vm_compute; reflexivity|].
  split; [vm_compute; reflexivity|]. split.
  - vm_compute. tauto.
  - vm_compute. discriminate.
Qed.

(** Both kinds of failure at the initialised driver: sector 2048 of a
    disk of 2048 sectors, and sector 0 on a device that answers with
    status 1. *)
Lemma read_write_disk_failure_keeps_buf_witness :
  (exists st' fmt args,
      read_write_disk 16 failing_device ex_vready ex_buf 2048 0 = Ret (st', ex_buf) /\
      vlog st' = [EvPrintf fmt args] /\ bus st' = []) /\
  (exists st' fmt args,
      read_write_disk 16 failing_device ex_vready ex_buf 0 0 = Ret (st', ex_buf) /\
      vlog st' = [EvPrintf fmt args]).
Proof.
  split.
  - destruct (read_write_disk_failure_keeps_buf 16 failing_device ex_vready
                ex_buf 2048 0)
      as (st' & fmt & args & Hret & Hlog & Hsame).
    + reflexivity.
    + left. vm_compute. discriminate.
    + exists st', fmt, args. split; [exact Hret|]. split; [exact Hlog|].
      apply Hsame. vm_compute. discriminate.
  - destruct (read_write_disk_failure_keeps_buf 16 failing_device ex_vready
                ex_buf 0 0)
      as (st' & fmt & args & Hret & Hlog & _).
    + reflexivity.
    + right. split; [reflexivity|].
      eexists. split; [vm_compute; reflexivity|].
      split; [vm_compute; reflexivity | vm_compute; discriminate].
    + exists st', fmt, args. split; [exact Hret | exact Hlog].
Defined.

(** A read of sector 0 at the initialised driver, which the device
    answers: the call returns with the chain and the counters in place. *)
Lemma read_write_disk_descriptor_chain_witness :
  exists st' buf',
    read_write_disk 16 failing_device ex_vready ex_buf 0 0 = Ret (st', buf') /\
    descs (blk_request_vq st') !! 0%nat =
      Some {| desc_addr := 0x80223000; desc_len := 16; desc_flags := 1;
              desc_next := 1 |} /\
    descs (blk_request_vq st') !! 1%nat =
      Some {| desc_addr := 0x80223010; desc_len := 512; desc_flags := 3;
              desc_next := 2 |} /\
    avail_ring (blk_request_vq st') !! 0%nat = Some 0 /\
    avail_index (blk_request_vq st') = 1 /\
    bus st' = [BusFence; BusWrite VIRTIO_REG_QUEUE_NOTIFY 0] /\
    last_used_index (blk_request_vq st') = 1.
Proof.
  destruct (read_write_disk_descriptor_chain 16 failing_device ex_vready ex_buf 0 0)
    as [Hret _].
  - discriminate.
  - split; [reflexivity|]. split; [reflexivity|]. discriminate.
  - reflexivity.
  - reflexivity.
  - destruct (Hret {| resp_data := replicate 512 x00; resp_status := 1 |} eq_refl)
      as (st' & buf' & Hrun & H0 & H1 & _ & _ & _ & Hring & Hidx & Hbus & Hlast).
    exists st', buf'. split; [exact Hrun|]. split; [exact H0|].
    split; [exact H1|]. split; [exact Hring|]. split; [exact Hidx|].
    split; [exact Hbus | exact Hlast].
Defined.

(** A character that is there at the first poll. *)
Lemma getchar_returns_polled_character_witness :
  handle_syscall 8 1024 no_resume ex_page_fault (set_console_in ex_kstate [65; 66])
                 (mk_frame 0 0 0 SYS_GETCHAR)
  = Ret (set_console_in ex_kstate [66], mk_frame 65 0 0 SYS_GETCHAR).
Proof.
  destruct (getchar_returns_polled_character 8 1024 no_resume ex_page_fault
              (set_console_in ex_kstate [65; 66]) (mk_frame 0 0 0 SYS_GETCHAR)
              eq_refl) as (_ & H & _).
  exact (H 65 [66] eq_refl ltac:(lia)).
Defined.

Lemma ex_file_not_world : ~ holds_cstring (file_name ex_file) world.
Proof. intros [rest H]. vm_compute in H. discriminate. Qed.

(** A read of "world", which is no file of the table. *)
Lemma file_syscall_missing_file_witness :
  exists st',
    handle_syscall 8 1024 no_resume ex_page_fault ex_kstate
                   (mk_frame 0x1000200 0x1000300 5 SYS_READFILE)
    = Ret (st', mk_frame (2 ^ 32 - 1) 0x1000300 5 SYS_READFILE) /\
    files st' = [ex_file] /\
    klog st' = [EvPrintf "file not found: %s\n" [0x1000200]].
Proof.
  destruct (file_syscall_missing_file 8 1024 no_resume ex_page_fault ex_kstate
              (mk_frame 0x1000200 0x1000300 5 SYS_READFILE) world)
    as (st' & Hret & Hfiles & _ & Hlog).
  - left. reflexivity.
  - vm_compute. reflexivity.
  - vm_compute. intuition discriminate.
  - intros fl [<-|[]]. exact ex_file_not_world.
  - exists st'. split; [exact Hret|]. split; [exact Hfiles | exact Hlog].
Defined.

(** A read of 2000 bytes from a file of size 0 in a slot of 1024 bytes
    returns 0. *)
Lemma file_syscall_clamps_to_size_witness :
  exists st' f',
    handle_syscall 8 1024 no_resume ex_page_fault ex_kstate
                   (mk_frame 0x1000100 0x1000300 2000 SYS_READFILE)
    = Ret (st', f') /\
    a0 f' = 0.
Proof.
  destruct (file_syscall_clamps_to_size 8 1024 no_resume ex_page_fault ex_kstate
              (mk_frame 0x1000100 0x1000300 2000 SYS_READFILE) 0 ex_file)
    as (st' & f' & Hret & Ha0 & _).
  - left. reflexivity.
  - lia.
  - vm_compute. reflexivity.
  - cbn. lia.
  - cbn. lia.
  - exists st', f'. split; [exact Hret | exact Ha0].
Defined.

(** "world" written to "hello.txt" and read back with the length 5. *)
Lemma writefile_readfile_round_trip_witness :
  exists st1 f1,
    handle_syscall 8 1024 no_resume ex_page_fault ex_kstate ex_write_frame = Ret (st1, f1) /\
    a0 f1 = 5 /\
    exists st2 g2,
      handle_syscall 8 1024 no_resume ex_page_fault st1
                     (mk_frame 0x1000100 0x1000300 5 SYS_READFILE)
      = Ret (st2, g2) /\
      a0 g2 = 5 /\
      load_bytes (umem st2) 0x1000300 5 = world.
Proof.
  destruct (writefile_readfile_round_trip 8 1024 no_resume ex_page_fault ex_kstate
              ex_write_frame hello_txt world)
    as (st1 & f1 & Hw & Ha0 & Hread).
  - cbn. lia.
  - repeat constructor.
  - reflexivity.
  - reflexivity.
  - vm_compute. reflexivity.
  - vm_compute. intuition discriminate.
  - exists ex_file. split; [left; reflexivity | exact ex_file_named].
  - vm_compute. reflexivity.
  - exists st1, f1. split; [exact Hw|]. split; [exact Ha0|].
    apply (Hread st1 (mk_frame 0x1000100 0x1000300 5 SYS_READFILE) eq_refl eq_refl).
    + cbn. lia.
    + assert (Hmem : umem st1 = ex_umem).
      { cbn in Hw. injection Hw as <- _. reflexivity. }
      rewrite Hmem. vm_compute. reflexivity.
Defined.

(** The [SYS_PUTCHAR] trap of the scenario: one character, [sepc] at
    [0x1000014], [sscratch] back at [0x80300000]. *)
Lemma kernel_entry_putchar_effect_witness :
  exists st',
    kernel_entry 8 1024 no_resume ex_page_fault ex_kstate ex_putchar_frame
    = Ret (st', ex_putchar_frame) /\
    klog st' = [EvPutchar 65] /\
    csr_sepc st' = 0x1000014 /\
    csr_sscratch st' = 0x80300000.
Proof.
  eexists. split.
  - apply (kernel_entry_putchar_effect 8 1024 no_resume ex_page_fault
             ex_kstate ex_putchar_frame).
    + reflexivity.
    + reflexivity.
    + cbn. lia.
  - split; [reflexivity|]. split; reflexivity.
Defined.

(** With A and B runnable, a yield by the idle process (slot 2) selects a
    runnable process with a positive pid. *)
Lemma yield_selects_candidate_or_idle_witness :
  exists k,
    yield_next 8 (set_current_proc ex_kstate 2) = Some k /\
    (k = 2%nat \/
     exists q, ex_procs !! k = Some q /\ state q = PROC_RUNNABLE /\ 0 < pid q).
Proof.
  destruct (yield_selects_candidate_or_idle 8 (set_current_proc ex_kstate 2)
              (mk_process 0 PROC_RUNNABLE))
    as (k & Hk & Hsel & _).
  - lia.
  - reflexivity.
  - reflexivity.
  - cbn. lia.
  - exists k. split; [exact Hk | exact Hsel].
Defined.

(** A alone yields and keeps the processor. *)
Lemma yield_alone_returns_witness :
  yield 8 no_resume ex_alone_kstate = Ret ex_alone_kstate.
Proof.
  apply (yield_alone_returns 8 no_resume ex_alone_kstate (mk_process 1 PROC_RUNNABLE)).
  - lia.
  - reflexivity.
  - reflexivity.
  - cbn. lia.
  - intros j p Hj.
    do 8 (destruct j as [|j]; [try contradiction; cbn; intros [= <-]; reflexivity|]).
    cbn. discriminate.
  - left. reflexivity.
Defined.

(** A in slot 0 yields with the next candidate in slot 3: slots 1 and 2
    are examined before it and are no candidates. *)
Lemma yield_round_robin_order_witness :
  yield_next 8 ex_sparse_kstate = Some 3%nat /\
  forall d, 1 <= d < 3 ->
            slot_is_candidate (procs ex_sparse_kstate) ((0 + d) mod 8) = false.
Proof.
  split; [reflexivity|].
  apply (yield_round_robin_order 8 ex_sparse_kstate (mk_process 1 PROC_RUNNABLE) 3).
  - lia.
  - reflexivity.
  - reflexivity.
  - reflexivity.
  - reflexivity.
Defined.


(** After a failed request the driver is ready again. *)
Lemma read_write_disk_keeps_driver_ready_witness :
  exists st',
    read_write_disk 16 failing_device ex_vready ex_buf 0 1 = Ret (st', ex_buf) /\
    virtq_wf 16 (blk_request_vq st') /\
    virtq_idle (blk_request_vq st') /\
    blk_capacity st' = 2048 * 512.
Proof.
  eexists. split; [vm_compute; reflexivity|].
  match goal with
  | |- virtq_wf _ (blk_request_vq ?s) /\ _ =>
      destruct (read_write_disk_keeps_driver_ready 16 failing_device ex_vready s
                  ex_buf ex_buf 0 1)
        as (Hwf & Hidle & Hcap & _)
  end.
  - lia.
  - split; [reflexivity|]. split; [reflexivity|]. cbn. lia.
  - split; [reflexivity|]. cbn. lia.
  - vm_compute. reflexivity.
  - split; [exact Hwf|]. split; [exact Hidle | exact Hcap].
Defined.

(** The boot state: a disk of 2048 sectors. *)
Lemma virtio_blk_init_makes_driver_ready_witness :
  exists st',
    virtio_blk_init 16 8192 ex_vboot = Ret st' /\
    virtq_wf 16 (blk_request_vq st') /\
    virtq_idle (blk_request_vq st') /\
    blk_capacity st' = 2048 * 512.
Proof.
  eexists. split; [vm_compute; reflexivity|].
  match goal with
  | |- virtq_wf _ (blk_request_vq ?s) /\ _ =>
      destruct (virtio_blk_init_makes_driver_ready 16 8192 ex_vboot s)
        as (Hwf & Hidle & _ & _ & Hcap & _)
  end.
  - lia.
  - vm_compute. reflexivity.
  - split; [exact Hwf|]. split; [exact Hidle|].
    rewrite Hcap. vm_compute. reflexivity.
Defined.


(** The first process created at boot takes slot 0 and gets pid 1. *)
Lemma create_process_takes_first_unused_witness :
  exists st' stk' m' new,
    create_process 8 ex_pmem ex_alloc_pages ex_map_page ex_memcpy
                   0x80200000 0x10001000 0x80200400
                   ex_boot_kstate ex_stk ex_pm ex_shell 5000
    = Ret (0%nat, st', stk', m') /\
    procs st' = <[ 0%nat := new ]> ex_boot_procs /\
    pid new = 1 /\ state new = PROC_RUNNABLE /\
    proc_sp new = 0x80232000 - 13 * 4.
Proof.
  pose (r := returned (0%nat, ex_boot_kstate, ex_stk, ex_pm)
               (create_process 8 ex_pmem ex_alloc_pages ex_map_page ex_memcpy
                  0x80200000 0x10001000 0x80200400
                  ex_boot_kstate ex_stk ex_pm ex_shell 5000)).
  assert (E : create_process 8 ex_pmem ex_alloc_pages ex_map_page ex_memcpy
                0x80200000 0x10001000 0x80200400
                ex_boot_kstate ex_stk ex_pm ex_shell 5000
              = Ret (0%nat, r.1.1.2, r.1.2, r.2)) by (vm_compute; reflexivity).
  destruct (create_process_takes_first_unused _ _ _ _ _ _ _ _ _ _ _ _ _ _ _ _ _ E)
    as (p & new & Hp & _ & _ & Hps & Hpid & Hst & Hsp & _).
  exists (r.1.1.2), (r.1.2), (r.2), new.
  split; [exact E|]. split; [exact Hps|]. split; [exact Hpid|].
  split; [exact Hst|]. rewrite Hsp.
  cbn in Hp. injection Hp as <-. reflexivity.
Defined.

(** No slot is unused: the ninth process cannot be created. *)
Lemma create_process_table_full_witness :
  create_process 8 ex_pmem ex_alloc_pages ex_map_page ex_memcpy
                 0x80200000 0x10001000 0x80200400
                 ex_full_kstate ex_stk ex_pm ex_shell 5000
  = Panic "no free process slots" [].
Proof.
  apply create_process_table_full.
  - lia.
  - reflexivity.
  - intros j q.
    do 8 (destruct j as [|j]; [cbn; intros [= <-]; discriminate|]).
    cbn. discriminate.
Defined.

(** The frame of the first process created at boot. *)
Lemma create_process_initial_frame_witness :
  exists st' stk' m' new,
    create_process 8 ex_pmem ex_alloc_pages ex_map_page ex_memcpy
                   0x80200000 0x10001000 0x80200400
                   ex_boot_kstate ex_stk ex_pm ex_shell 5000
    = Ret (0%nat, st', stk', m') /\
    procs st' !! 0%nat = Some new /\
    load_context stk' (proc_sp new) = initial_context 0x80200400 /\
    proc_sp new + 13 * 4 = stack_top new.
Proof.
  pose (r := returned (0%nat, ex_boot_kstate, ex_stk, ex_pm)
               (create_process 8 ex_pmem ex_alloc_pages ex_map_page ex_memcpy
                  0x80200000 0x10001000 0x80200400
                  ex_boot_kstate ex_stk ex_pm ex_shell 5000)).
  assert (E : create_process 8 ex_pmem ex_alloc_pages ex_map_page ex_memcpy
                0x80200000 0x10001000 0x80200400
                ex_boot_kstate ex_stk ex_pm ex_shell 5000
              = Ret (0%nat, r.1.1.2, r.1.2, r.2)) by (vm_compute; reflexivity).
  destruct (create_process_initial_frame _ _ _ _ _ _ _ _ _ _ _ _ _ _ _ _ _ E)
    as (new & Hnew & Hctx & Htop & _).
  exists (r.1.1.2), (r.1.2), (r.2), new.
  split; [exact E|]. split; [exact Hnew|]. split; [exact Hctx | exact Htop].
Defined.

Lemma ex_user_range (off : Z) :
  0 <= off < 5000 -> off mod PAGE_SIZE = 0 ->
  USER_BASE <= to_uint32 (USER_BASE + off) < USER_BASE + 2 * PAGE_SIZE.
Proof.
  unfold to_uint32, USER_BASE, PAGE_SIZE. intros Hoff Hal.
  rewrite Z.mod_small by lia.
  assert (off = 4096 * (off / 4096)) by (apply Z.div_exact; lia).
  assert (off / 4096 < 2) by (apply Z.div_lt_upper_bound; lia).
  lia.
Qed.

(** The image of 5000 bytes: the only mappings with the U flag are those
    of its two pages. *)
Lemma create_process_mappings_witness :
  exists st' stk' m',
    create_process 8 ex_pmem ex_alloc_pages ex_map_page ex_memcpy
                   0x80200000 0x10001000 0x80200400
                   ex_boot_kstate ex_stk ex_pm ex_shell 5000
    = Ret (0%nat, st', stk', m') /\
    ex_user_mappings_in_image m'.
Proof.
  pose (r := returned (0%nat, ex_boot_kstate, ex_stk, ex_pm)
               (create_process 8 ex_pmem ex_alloc_pages ex_map_page ex_memcpy
                  0x80200000 0x10001000 0x80200400
                  ex_boot_kstate ex_stk ex_pm ex_shell 5000)).
  assert (E : create_process 8 ex_pmem ex_alloc_pages ex_map_page ex_memcpy
                0x80200000 0x10001000 0x80200400
                ex_boot_kstate ex_stk ex_pm ex_shell 5000
              = Ret (0%nat, r.1.1.2, r.1.2, r.2)) by (vm_compute; reflexivity).
  exists (r.1.1.2), (r.1.2), (r.2). split; [exact E|].
  apply (create_process_mappings 8 ex_pmem ex_alloc_pages ex_map_page ex_memcpy
           0x80200000 0x10001000 0x80200400 ex_user_mappings_in_image
           ex_boot_kstate (r.1.1.2) ex_stk (r.1.2) ex_pm (r.2) ex_shell 5000 0).
  - lia.
  - lia.
  - intros m n p m' Hm [= _ <-]. exact Hm.
  - intros m page bs Hm. exact Hm.
  - intros m t va pa fl m' Hm Hmap [= <-].
    constructor; [|exact Hm].
    cbv beta iota. intros Hu.
    destruct Hmap as [(_ & -> & _) | [(_ & _ & ->) | (_ & off & Hoff & Hal & ->)]].
    + exfalso. apply Hu. reflexivity.
    + exfalso. apply Hu. reflexivity.
    + apply ex_user_range; [exact Hoff | exact Hal].
  - constructor.
  - exact E.
Defined.

(** A switches to B with the registers [ex_context] and its stack pointer
    at [0x80231f80]; B later switches back from [0x80233f00] and A
    continues with the same registers and stack pointer. *)
Lemma switch_context_round_trip_witness :
  exists ps1 stk1 ps3 stk3,
    switch_context_asm ex_run_procs ex_stk ex_context 0x80231f80 0 1
    = Some (ps1, stk1, zero_context, 0x80234000) /\
    switch_context_asm ps1 stk1 zero_context 0x80233f00 1 0
    = Some (ps3, stk3, ex_context, 0x80231f80).
Proof.
  pose (r := default (ex_run_procs, ex_stk, ex_context, 0)
               (switch_context_asm ex_run_procs ex_stk ex_context 0x80231f80 0 1)).
  assert (E : switch_context_asm ex_run_procs ex_stk ex_context 0x80231f80 0 1
              = Some (r.1.1.1, r.1.1.2, zero_context, 0x80234000))
    by (vm_compute; reflexivity).
  destruct (switch_context_round_trip ex_run_procs (r.1.1.1) ex_stk (r.1.1.2)
              ex_context zero_context 0x80231f80 0x80234000 0 1 ltac:(lia) E)
    as [(pa & Hpa & Hsp & _) Hback].
  destruct (Hback (r.1.1.1) (r.1.1.2) zero_context 0x80233f00 1%nat pa Hpa Hsp)
    as (ps3 & stk3 & H3).
  - intros k _. reflexivity.
  - discriminate.
  - eexists. reflexivity.
  - right. vm_compute. discriminate.
  - exists (r.1.1.1), (r.1.1.2), ps3, stk3. split; [exact E | exact H3].
Defined.

(** The first switch to the process that [create_process] made at boot,
    from a context in slot 1 with its stack pointer at [0x80233f00]. *)
Lemma switch_context_enters_new_process_witness :
  exists st' stk' m' ps3 stk3,
    create_process 8 ex_pmem ex_alloc_pages ex_map_page ex_memcpy
                   0x80200000 0x10001000 0x80200400
                   ex_boot_kstate ex_stk ex_pm ex_shell 5000
    = Ret (0%nat, st', stk', m') /\
    switch_context_asm (procs st') stk' ex_context 0x80233f00 1 0
    = Some (ps3, stk3, initial_context 0x80200400, 0x80232000).
Proof.
  pose (r := returned (0%nat, ex_boot_kstate, ex_stk, ex_pm)
               (create_process 8 ex_pmem ex_alloc_pages ex_map_page ex_memcpy
                  0x80200000 0x10001000 0x80200400
                  ex_boot_kstate ex_stk ex_pm ex_shell 5000)).
  assert (E : create_process 8 ex_pmem ex_alloc_pages ex_map_page ex_memcpy
                0x80200000 0x10001000 0x80200400
                ex_boot_kstate ex_stk ex_pm ex_shell 5000
              = Ret (0%nat, r.1.1.2, r.1.2, r.2)) by (vm_compute; reflexivity).
  destruct (switch_context_enters_new_process _ _ _ _ _ _ _ _ _ _ _ _ _ _ _ _ _
              ex_context 0x80233f00 1%nat E)
    with (new := {| pid := 1; state := PROC_RUNNABLE; proc_sp := 0x80232000 - 13 * 4;
                    page_table := 0x80300000; stack_top := 0x80232000 |})
    as (ps3 & stk3 & H3).
  - discriminate.
  - vm_compute. eexists. reflexivity.
  - vm_compute. reflexivity.
  - cbn. lia.
  - right. vm_compute. discriminate.
  - exists (r.1.1.2), (r.1.2), (r.2), ps3, stk3. split; [exact E | exact H3].
Defined.

Lemma ex_boot_procs_unused (j : nat) (q : process) :
  ex_boot_procs !! j = Some q -> state q = PROC_UNUSED.
Proof.
  do 8 (destruct j as [|j]; [cbn; intros [= <-]; reflexivity|]).
  cbn. discriminate.
Qed.

(** The boot with eight unused slots: the shell is in slot 1 with pid 2,
    the first yield selects it, and with nothing that ever switches back
    the boot path does not continue. *)
Lemma kernel_main_first_yield_selects_shell_witness :
  exists st2 stk2 m2 sh,
    kernel_main_create 8 ex_pmem ex_alloc_pages ex_map_page ex_memcpy
                       0x80200000 0x10001000 0x80200400
                       ex_boot_kstate ex_stk ex_pm ex_shell 5000
    = Ret (st2, stk2, m2) /\
    procs st2 !! 1%nat = Some sh /\ pid sh = 2 /\
    yield_next 8 st2 = Some 1%nat /\
    kernel_main_processes 8 no_resume ex_pmem ex_alloc_pages ex_map_page ex_memcpy
                          0x80200000 0x10001000 0x80200400
                          ex_boot_kstate ex_stk ex_pm ex_shell 5000
    = Hang.
Proof.
  pose (r := returned (ex_boot_kstate, ex_stk, ex_pm)
               (kernel_main_create 8 ex_pmem ex_alloc_pages ex_map_page ex_memcpy
                  0x80200000 0x10001000 0x80200400
                  ex_boot_kstate ex_stk ex_pm ex_shell 5000)).
  assert (E : kernel_main_create 8 ex_pmem ex_alloc_pages ex_map_page ex_memcpy
                0x80200000 0x10001000 0x80200400
                ex_boot_kstate ex_stk ex_pm ex_shell 5000
              = Ret (r.1.1, r.1.2, r.2)) by (vm_compute; reflexivity).
  destruct (kernel_main_first_yield_selects_shell 8 no_resume
              ex_pmem ex_alloc_pages ex_map_page ex_memcpy
              0x80200000 0x10001000 0x80200400
              ex_boot_kstate (r.1.1) ex_stk (r.1.2) ex_pm (r.2) ex_shell 5000
              ltac:(lia) eq_refl ex_boot_procs_unused E)
    as (_ & _ & idle & sh & _ & _ & _ & Hsh & Hpid & _ & Hnext & Hmain).
  exists (r.1.1), (r.1.2), (r.2), sh.
  split; [exact E|]. split; [exact Hsh|]. split; [exact Hpid|].
  split; [exact Hnext|]. rewrite Hmain. reflexivity.
Defined.

(** A exits: the scheduler picks another slot and the call does not
    return. *)
Lemma exit_gives_up_processor_witness :
  exists k np st1,
    k <> 0%nat /\
    ex_procs !! k = Some np /\
    (k = 2%nat \/ (state np = PROC_RUNNABLE /\ 0 < pid np)) /\
    procs st1 = <[ 0%nat := mk_process 1 PROC_EXITED ]> ex_procs /\
    klog st1 = [EvPrintf "process %d exited\n" [1]] /\
    current_proc st1 = k /\
    csr_sscratch st1 = to_uint32 (stack_top np) /\
    handle_syscall 8 1024 no_resume ex_page_fault ex_kstate (mk_frame 0 0 0 SYS_EXIT)
    = (switch_context no_resume st1 ≫= fun _ => Panic "unreachable" []).
Proof.
  apply (exit_gives_up_processor 8 1024 no_resume ex_page_fault ex_kstate
           (mk_frame 0 0 0 SYS_EXIT) (mk_process 1 PROC_RUNNABLE)).
  - reflexivity.
  - lia.
  - reflexivity.
  - reflexivity.
  - cbn. lia.
  - discriminate.
  - eexists. reflexivity.
Defined.
